(** * sentinel-s3: metadata converter

    A shallow embedding of [sentinel_s3/converter.py] and of its older copy
    [scrawler/converter.py], together with the properties of the converter
    that the written specification states.

    Python values are modelled as a tree of JSON-like values ([pyval]),
    ordered dictionaries as association lists with unique keys in insertion
    order, exceptions as an error type ([result]), and in-place mutation of
    the dictionaries passed to a function by returning the final state of
    those dictionaries next to the result.  Strings are byte strings; case
    conversion is the ASCII one. *)

From Stdlib Require Import ZArith List String Ascii Bool Lia.
From Stdlib Require Import SpecFloat DecimalString.
Import ListNotations.

#[local] Set Warnings "-register-all".
#[local] Set Warnings "-automation".


Local Open Scope string_scope.
Local Open Scope list_scope.

(** ** Exceptions *)

Inductive exn : Type :=
| IndexError
| KeyError
| TypeError
| ValueError
| AttributeError
| RuntimeError.

Inductive result (A : Type) : Type :=
| Ok (a : A)
| Raise (e : exn).

Arguments Ok {A} a.
Arguments Raise {A} e.

Definition bind {A B : Type} (m : result A) (k : A -> result B) : result B :=
  match m with
  | Ok a => k a
  | Raise e => Raise e
  end.

Notation "x <- m ;; k" := (bind m (fun x => k))
  (at level 61, m at next level, right associativity).

(** [try: m except IndexError: h] *)
Definition except_IndexError {A : Type} (m : result A) (h : result A) : result A :=
  match m with
  | Raise IndexError => h
  | r => r
  end.

(** [try: m except (TypeError, ValueError): h] *)
Definition except_TypeError_ValueError {A : Type} (m : result A) (h : result A)
  : result A :=
  match m with
  | Raise TypeError => h
  | Raise ValueError => h
  | r => r
  end.

Fixpoint mapM {A B : Type} (f : A -> result B) (l : list A) : result (list B) :=
  match l with
  | [] => Ok []
  | a :: l' => b <- f a ;; bs <- mapM f l' ;; Ok (b :: bs)
  end.

(** ** Strings *)

Definition is_upper (c : ascii) : bool :=
  let n := nat_of_ascii c in (65 <=? n)%nat && (n <=? 90)%nat.

Definition is_lower (c : ascii) : bool :=
  let n := nat_of_ascii c in (97 <=? n)%nat && (n <=? 122)%nat.

Definition is_digit (c : ascii) : bool :=
  let n := nat_of_ascii c in (48 <=? n)%nat && (n <=? 57)%nat.

Definition newline : ascii := ascii_of_nat 10.

Definition lower_char (c : ascii) : ascii :=
  if is_upper c then ascii_of_nat (nat_of_ascii c + 32) else c.

(** [s.lower()] *)
Fixpoint lower (s : string) : string :=
  match s with
  | EmptyString => EmptyString
  | String c t => String (lower_char c) (lower t)
  end.

(** [s.split(sep)] for a one-character separator: never empty. *)
Fixpoint split (sep : ascii) (s : string) : list string :=
  match s with
  | EmptyString => [EmptyString]
  | String c t =>
      if Ascii.eqb c sep then EmptyString :: split sep t
      else match split sep t with
           | [] => [String c EmptyString]
           | w :: ws => String c w :: ws
           end
  end.

(** [s.replace(c, '')] for a one-character [c]. *)
Fixpoint remove_char (x : ascii) (s : string) : string :=
  match s with
  | EmptyString => EmptyString
  | String c t => if Ascii.eqb c x then remove_char x t else String c (remove_char x t)
  end.

(** [x in l] for a list of strings. *)
Definition str_in (x : string) (l : list string) : bool :=
  existsb (String.eqb x) l.

(** [l[0]] *)
Definition first {A : Type} (l : list A) : result A :=
  match l with
  | [] => Raise IndexError
  | a :: _ => Ok a
  end.

(** [l[-1]] *)
Definition item_m1 {A : Type} (l : list A) : result A :=
  first (rev l).

(** [l[-2]] *)
Definition item_m2 {A : Type} (l : list A) : result A :=
  match rev l with
  | _ :: a :: _ => Ok a
  | _ => Raise IndexError
  end.

(** Leading run of lower-case letters and its length. *)
Fixpoint lower_run (s : string) : string :=
  match s with
  | String c t => if is_lower c then String c (lower_run t) else EmptyString
  | EmptyString => EmptyString
  end.

(** ** Regular-expression substitution

    [re.sub(pattern, repl, s)] replaces the leftmost non-overlapping matches
    of [pattern], scanning from the left.  A pattern is given by its matcher
    at the head of a string, which returns the replacement text and the
    number of characters the match consumed (at least one, for the two
    patterns of the converter).  [skip] counts the characters of the current
    match still to be passed over. *)

Fixpoint re_sub_from (m : string -> option (string * nat)) (skip : nat) (s : string)
  : string :=
  match s with
  | EmptyString => EmptyString
  | String c t =>
      match skip with
      | S k => re_sub_from m k t
      | O =>
          match m s with
          | Some (r, n) => r ++ re_sub_from m (Nat.pred n) t
          | None => String c (re_sub_from m 0 t)
          end
      end
  end.

Definition re_sub (m : string -> option (string * nat)) (s : string) : string :=
  re_sub_from m 0 s.

(** ['(.)([A-Z][a-z]+)'] replaced by [r'\1_\2']: any character but a newline,
    a capital, then the longest run of one or more lower-case letters. *)
Definition match_word (s : string) : option (string * nat) :=
  match s with
  | String c (String u (String l rest)) =>
      if negb (Ascii.eqb c newline) && is_upper u && is_lower l then
        let run := lower_run (String l rest) in
        Some (String c (String "_" (String u run)), 2 + String.length run)%nat
      else None
  | _ => None
  end.

(** ['([a-z0-9])([A-Z])'] replaced by [r'\1_\2']. *)
Definition match_hump (s : string) : option (string * nat) :=
  match s with
  | String c (String u _) =>
      if (is_lower c || is_digit c) && is_upper u then
        Some (String c (String "_" (String u EmptyString)), 2%nat)
      else None
  | _ => None
  end.

(** [camelcase_underscore]: the same text in both modules. *)
Definition camelcase_underscore (name : string) : string :=
  let s1 := re_sub match_word name in
  lower (re_sub match_hump s1).

(** ** Values

    The values the converter handles: what [json.loads] and the XML key
    extractor produce, plus tuples (the coordinate sequences of a geometry
    built by [shapely.geometry.mapping]).  Floats are IEEE 754 values.
    Distinct positions of a value hold distinct objects (no sharing inside
    one value), as in a freshly decoded JSON document. *)

Inductive pyval : Type :=
| PNone
| PBool (b : bool)
| PInt (n : Z)
| PFloat (f : spec_float)
| PStr (s : string)
| PList (l : list pyval)
| PTuple (l : list pyval)
| PDict (d : list (string * pyval)).

(** ** Ordered dictionaries with string keys *)

Definition odict (V : Type) : Type := list (string * V).

Fixpoint lookup {V : Type} (k : string) (d : odict V) : option V :=
  match d with
  | [] => None
  | (k', v) :: d' => if String.eqb k k' then Some v else lookup k d'
  end.

(** [k in d] *)
Definition mem {V : Type} (k : string) (d : odict V) : bool :=
  match lookup k d with Some _ => true | None => false end.

(** [d[k] = v]: an existing key keeps its place, a new one goes last. *)
Fixpoint set {V : Type} (k : string) (v : V) (d : odict V) : odict V :=
  match d with
  | [] => [(k, v)]
  | (k', v') :: d' =>
      if String.eqb k k' then (k', v) :: d' else (k', v') :: set k v d'
  end.

Fixpoint remove {V : Type} (k : string) (d : odict V) : odict V :=
  match d with
  | [] => []
  | (k', v') :: d' =>
      if String.eqb k k' then d' else (k', v') :: remove k d'
  end.

(** [d[k]] *)
Definition get {V : Type} (k : string) (d : odict V) : result V :=
  match lookup k d with
  | Some v => Ok v
  | None => Raise KeyError
  end.

(** [d.pop(k)]: the value and the dictionary without the key. *)
Definition pop {V : Type} (k : string) (d : odict V) : result (V * odict V) :=
  match lookup k d with
  | Some v => Ok (v, remove k d)
  | None => Raise KeyError
  end.

(** [d.update(e)] *)
Definition update {V : Type} (d e : odict V) : odict V :=
  fold_left (fun acc kv => set (fst kv) (snd kv) acc) e d.

Definition keys {V : Type} (d : odict V) : list string := map fst d.

(** ** Operations on values *)

(** [isinstance(v, list) or isinstance(v, tuple)] *)
Definition is_seq (v : pyval) : bool :=
  match v with
  | PList _ | PTuple _ => true
  | _ => false
  end.

(** [isinstance(v, float)] *)
Definition is_float (v : pyval) : bool :=
  match v with
  | PFloat _ => true
  | _ => false
  end.

(** Truth value of what [convert_coordinates] may return. *)
Definition truthy (v : pyval) : bool :=
  match v with
  | PNone => false
  | PBool b => b
  | PInt n => negb (n =? 0)%Z
  | PFloat f => match f with S754_zero _ => false | _ => true end
  | PStr s => negb (String.eqb s "")
  | PList l | PTuple l => match l with [] => false | _ => true end
  | PDict d => match d with [] => false | _ => true end
  end.

(** Truth value of an EPSG code, which is [None] or an integer. *)
Definition truthy_code (c : option Z) : bool :=
  match c with
  | Some n => negb (n =? 0)%Z
  | None => false
  end.

(** [v[k]] for a string key [k]. *)
Definition getitem (v : pyval) (k : string) : result pyval :=
  match v with
  | PDict d => get k d
  | _ => Raise TypeError
  end.

(** [v[k] = x] for a string key [k]: the object [v] after the assignment. *)
Definition setitem (v : pyval) (k : string) (x : pyval) : result pyval :=
  match v with
  | PDict d => Ok (PDict (set k x d))
  | _ => Raise TypeError
  end.

(** [v.split(sep)] *)
Definition split_method (v : pyval) (sep : ascii) : result (list string) :=
  match v with
  | PStr s => Ok (split sep s)
  | _ => Raise AttributeError
  end.

Fixpoint chars (s : string) : list pyval :=
  match s with
  | EmptyString => []
  | String c t => PStr (String c EmptyString) :: chars t
  end.

(** [list(v)], and the items a [for] loop over [v] visits. *)
Definition py_list (v : pyval) : result (list pyval) :=
  match v with
  | PList l | PTuple l => Ok l
  | PStr s => Ok (chars s)
  | PDict d => Ok (map PStr (keys d))
  | _ => Raise TypeError
  end.

(** Decimal text of an integer. *)
Definition str_of_Z (n : Z) : string :=
  DecimalString.NilZero.string_of_int (Z.to_int n).

(** ** Collaborators outside the repository

    The builtin conversions [int] and [float] of a string ([None] stands for
    [ValueError]) and of the values that are neither a string nor [None],
    the text [str] gives for floats and containers, and pyproj's [Proj]
    (called with [init='epsg:<code>']) and [transform]. *)

Class Externals : Type := {
  py_int : string -> option Z;
  py_float : string -> option spec_float;
  str_other : pyval -> string;
  float_other : pyval -> result spec_float;
  int_other : pyval -> result Z;
  proj : Type;
  Proj : Z -> result proj;
  transform : proj -> proj -> list pyval -> result (list pyval)
}.

(** [str(v)], which is also what ['{0}'.format(v)] inserts. *)
Definition py_str `{Externals} (v : pyval) : string :=
  match v with
  | PStr s => s
  | PInt n => str_of_Z n
  | PNone => "None"
  | PBool true => "True"
  | PBool false => "False"
  | _ => str_other v
  end.

(** Modelled from the spec: [wordpad.pad] is not part of the repository; the
    specification calls its result the value zero-padded to the given
    number of digits: the text of the value with zeros added on the left
    until it has that width. *)
Fixpoint zeros (n : nat) : string :=
  match n with
  | O => EmptyString
  | S k => String "0" (zeros k)
  end.

Definition pad `{Externals} (value : pyval) (width : nat) : string :=
  let s := py_str value in
  zeros (width - String.length s) ++ s.

(** [float(v)] *)
Definition float_of `{Externals} (v : pyval) : result spec_float :=
  match v with
  | PNone => Raise TypeError
  | PStr s => match py_float s with Some f => Ok f | None => Raise ValueError end
  | _ => float_other v
  end.

(** [int(v)] *)
Definition int_of `{Externals} (v : pyval) : result Z :=
  match v with
  | PNone => Raise TypeError
  | PStr s => match py_int s with Some n => Ok n | None => Raise ValueError end
  | _ => int_other v
  end.

(** ** sentinel_s3/converter.py: geometry *)

Definition epsg_code `{Externals} (geojson : pyval) : result (option Z) :=
  match geojson with
  | PDict d =>
      if mem "crs" d then
        crs <- get "crs" d ;;
        props <- getitem crs "properties" ;;
        name <- getitem props "name" ;;
        urn <- split_method name ":" ;;
        if str_in "EPSG" urn then
          except_TypeError_ValueError
            (last <- item_m1 urn ;; n <- int_of (PStr last) ;; Ok (Some n))
            (Ok None)
        else Ok None
      else Ok None
  | _ => Ok None
  end.

(** [convert_coordinates(list(c), origin, wgs84)] for an element [c] of a
    sequence, given the conversion [rec] of a list or tuple.  [list(c)]
    holds the items of a list or tuple, the characters of a string and the
    keys of a dictionary, and fails on any other value; a list of strings
    converts to [None] without further calls. *)
Definition convert_element (rec : pyval -> result pyval) (c : pyval) : result pyval :=
  match c with
  | PList _ | PTuple _ => rec c
  | PStr _ | PDict _ => Ok PNone
  | _ => Raise TypeError
  end.

Fixpoint convert_coordinates `{Externals} (coords : pyval) (origin wgs84 : proj)
  : result pyval :=
  match coords with
  | PList l | PTuple l =>
      except_IndexError
        (c0 <- first l ;;
         if is_seq c0 then
           vs <- mapM (convert_element
                         (fun c => convert_coordinates c origin wgs84)) l ;;
           Ok (PList vs)
         else if is_float c0 then
           r <- transform origin wgs84 l ;;
           Ok (PList r)
         else Ok PNone)
        (Ok PNone)
  | _ => Ok PNone
  end.

Definition wgs84_urn : string := "urn:ogc:def:crs:EPSG:8.9:4326".

(** [to_latlon] changes the dictionary it is given and returns it: the model
    gives the result and the state of that dictionary when the call ends,
    also when it ends by an exception. *)
Definition to_latlon `{Externals} (geojson : pyval) (origin_espg : option Z)
  : result pyval * pyval :=
  match geojson with
  | PDict d =>
      match (if truthy_code origin_espg then Ok origin_espg
             else epsg_code geojson) with
      | Raise e => (Raise e, geojson)
      | Ok code =>
          match code with
          | None => (Ok geojson, geojson)
          | Some n =>
              if (n =? 0)%Z then (Ok geojson, geojson)
              else
                match (origin <- Proj n ;;
                       wgs84 <- Proj 4326 ;;
                       coords <- get "coordinates" d ;;
                       convert_coordinates coords origin wgs84) with
                | Raise e => (Raise e, geojson)
                | Ok new_coords =>
                    if truthy new_coords then
                      let d1 := set "coordinates" new_coords d in
                      if negb (mem "crs" d1) then
                        let g :=
                          PDict (set "crs"
                                   (PDict [("type", PStr "name");
                                           ("properties",
                                            PDict [("name", PStr wgs84_urn)])])
                                   d1) in
                        (Ok g, g)
                      else
                        match (crs <- get "crs" d1 ;;
                               props <- getitem crs "properties" ;;
                               props' <- setitem props "name" (PStr wgs84_urn) ;;
                               crs' <- setitem crs "properties" props' ;;
                               Ok (PDict (set "crs" crs' d1))) with
                        | Ok g => (Ok g, g)
                        | Raise e => (Raise e, PDict d1)
                        end
                    else (Ok geojson, geojson)
                end
          end
      end
  | _ => (Ok geojson, geojson)
  end.

(** ** The parsed XML document

    An element of [xml.etree]: tag, attributes, text (which may be missing)
    and children in document order. *)

Inductive element : Type :=
| Element (tag : string) (attrib : odict string) (text : option string)
          (children : list element).

Definition tag (e : element) : string := let (t, _, _, _) := e in t.
Definition attrib (e : element) : odict string := let (_, a, _, _) := e in a.
Definition text (e : element) : option string := let (_, _, t, _) := e in t.
Definition children (e : element) : list element := let (_, _, _, c) := e in c.

(** All elements below [e], in document order. *)
Fixpoint descendants (e : element) : list element :=
  match e with
  | Element _ _ _ cs =>
      (fix below (l : list element) : list element :=
         match l with
         | [] => []
         | c :: l' => c :: descendants c ++ below l'
         end) cs
  end.

(** [e.findall('.//' + name)] *)
Definition findall (name : string) (e : element) : list element :=
  filter (fun x => String.eqb (tag x) name) (descendants e).

Definition text_value (t : option string) : pyval :=
  match t with
  | Some s => PStr s
  | None => PNone
  end.

(** ** Key extraction, shared by both modules *)

(** [get_tiles_list]: the same text in both modules. *)
Fixpoint tiles_loop (els : list element) (tiles : odict pyval) : result (odict pyval) :=
  match els with
  | [] => Ok tiles
  | el :: els' =>
      g <- first (findall "Granules" el) ;;
      name <- get "granuleIdentifier" (attrib g) ;;
      let name_parts := split "_" name in
      mgs <- item_m2 name_parts ;;
      tiles_loop els' (set mgs (PStr name) tiles)
  end.

Definition get_tiles_list (e : element) : result (odict pyval) :=
  tiles_loop (children e) [].

Definition scalar_keys : list string :=
  [ "SPACECRAFT_NAME";
    "PRODUCT_STOP_TIME";
    "Cloud_Coverage_Assessment";
    "PROCESSING_LEVEL";
    "PRODUCT_TYPE";
    "PROCESSING_BASELINE";
    "SENSING_ORBIT_NUMBER";
    "SENSING_ORBIT_DIRECTION";
    "PRODUCT_FORMAT" ].

(** One round of the loop that grabs the scalar keys; [findall(...)[0]] can
    only fail with [IndexError]. *)
Definition grab (root : element) (meta : odict pyval) (key : string) : odict pyval :=
  match first (findall key root) with
  | Ok e => set (lower key) (text_value (text e)) meta
  | Raise _ => set (lower key) PNone meta
  end.

Definition grab_keys (root : element) : odict pyval :=
  fold_left (grab root) scalar_keys [].

(** ** sentinel_s3/converter.py: key extraction *)

(** The body of the loop over the band list. *)
Definition band_entry `{Externals} (b : element) : result pyval :=
  match text b with
  | None => Raise AttributeError
  | Some t =>
      let band := remove_char "B" t in
      if (String.length band =? 1)%nat then Ok (PStr ("B" ++ pad (PStr band) 2))
      else Ok (PStr t)
  end.

(** [metadata_to_dict], from the root of the parsed document. *)
Definition metadata_to_dict `{Externals} (root : element) : result (odict pyval) :=
  let meta := grab_keys root in
  p <- pop "cloud_coverage_assessment" meta ;;
  f <- float_of (fst p) ;;
  let meta := set "product_cloud_coverage_assessment" (PFloat f) (snd p) in
  o <- get "sensing_orbit_number" meta ;;
  n <- int_of o ;;
  let meta := set "sensing_orbit_number" (PInt n) meta in
  po <- first (findall "Product_Organisation" root) ;;
  tiles <- get_tiles_list po ;;
  let meta := set "tiles" (PDict tiles) meta in
  bands <- first (findall "Band_List" root) ;;
  band_list <- mapM band_entry (children bands) ;;
  Ok (set "band_list" (PList band_list) meta).

(** ** Tile metadata: the two dictionaries passed in

    [tile_metadata] pops keys from both of its arguments.  The model threads
    the state of the two dictionaries and returns it with the result, also
    when the call ends by an exception. *)

Record store : Type := { s_tile : odict pyval; s_product : odict pyval }.

Definition M (A : Type) : Type := store -> result A * store.

Definition ret {A : Type} (a : A) : M A := fun s => (Ok a, s).

Definition bindM {A B : Type} (m : M A) (k : A -> M B) : M B :=
  fun s =>
    match m s with
    | (Ok a, s') => k a s'
    | (Raise e, s') => (Raise e, s')
    end.

Notation "x <~ m ;; k" := (bindM m (fun x => k))
  (at level 61, m at next level, right associativity).

Definition lift {A : Type} (r : result A) : M A := fun s => (r, s).

Definition tile_get (k : string) : M pyval := fun s => (get k (s_tile s), s).

Definition product_get (k : string) : M pyval := fun s => (get k (s_product s), s).

Definition tile_pop (k : string) : M pyval :=
  fun s =>
    match pop k (s_tile s) with
    | Ok (v, t) => (Ok v, {| s_tile := t; s_product := s_product s |})
    | Raise e => (Raise e, s)
    end.

Definition product_pop (k : string) : M pyval :=
  fun s =>
    match pop k (s_product s) with
    | Ok (v, p) => (Ok v, {| s_tile := s_tile s; s_product := p |})
    | Raise e => (Raise e, s)
    end.

Definition read_tile : M (odict pyval) := fun s => (Ok (s_tile s), s).

Definition read_product : M (odict pyval) := fun s => (Ok (s_product s), s).

(** ['Processing tile %s' % v]: a tuple on the right is the argument list. *)
Definition processing_tile `{Externals} (v : pyval) : result string :=
  match v with
  | PTuple [x] => Ok ("Processing tile " ++ py_str x)%string
  | PTuple _ => Raise TypeError
  | _ => Ok ("Processing tile " ++ py_str v)%string
  end.

(** [for k, v in iteritems(tile): meta[camelcase_underscore(k)] = v] *)
Definition rename_into (meta tile : odict pyval) : odict pyval :=
  fold_left (fun m kv => set (camelcase_underscore (fst kv)) (snd kv) m) tile meta.

Definition s3_url : string := "http://sentinel-s2-l1c.s3.amazonaws.com".

Definition geometry_keys : list string :=
  [ "tile_origin"; "tile_geometry"; "tile_data_geometry" ].

(** The last key of the tile record that was renamed to [key]. *)
Definition last_source (key : string) (tile : odict pyval) : option string :=
  fold_left (fun acc kv =>
               if String.eqb (camelcase_underscore (fst kv)) key
               then Some (fst kv) else acc) tile None.

(** The values of the output record are the objects of the two input
    dictionaries.  The geometry [to_latlon] changes in place is the value of
    the product record under [key] when there is one, and otherwise that of
    the last tile key renamed to [key]. *)
Definition write_back (key : string) (g : pyval) : M unit :=
  fun s =>
    if mem key (s_product s) then
      (Ok tt, {| s_tile := s_tile s; s_product := set key g (s_product s) |})
    else
      match last_source key (s_tile s) with
      | Some k => (Ok tt, {| s_tile := set k g (s_tile s); s_product := s_product s |})
      | None => (Ok tt, s)
      end.

(** [for key in keys: if key in meta: meta[key] = to_latlon(meta[key])] *)
Fixpoint reproject `{Externals} (ks : list string) (meta : odict pyval)
  : M (odict pyval) :=
  match ks with
  | [] => ret meta
  | key :: ks' =>
      if mem key meta then
        g <~ lift (get key meta) ;;
        let (r, g') := to_latlon g None in
        _ <~ write_back key g' ;;
        v <~ lift r ;;
        reproject ks' (set key v meta)
      else reproject ks' meta
  end.

(** ** sentinel_s3/converter.py: tile metadata *)

(** ['T{0}{1}{2}'.format(pad(zone, 2), band, square)] *)
Definition grid_code `{Externals} (zone band square : pyval) : string :=
  "T" ++ pad zone 2 ++ py_str band ++ py_str square.

Definition tile_metadata `{Externals} : M (odict pyval) :=
  zone <~ tile_get "utmZone" ;;
  band <~ tile_get "latitudeBand" ;;
  square <~ tile_get "gridSquare" ;;
  let grid := grid_code zone band square in
  tiles <~ product_get "tiles" ;;
  tile_name <~ lift (getitem tiles grid) ;;
  let meta := [("tile_name", tile_name)] in
  _ <~ lift (processing_tile tile_name) ;;
  timestamp <~ tile_get "timestamp" ;;
  parts <~ lift (split_method timestamp "T") ;;
  date <~ lift (first parts) ;;
  let meta := set "date" (PStr date) meta in
  path <~ tile_get "path" ;;
  let meta := set "thumbnail" (PStr (s3_url ++ "/" ++ py_str path ++ "/preview.jp2")%string)
                  meta in
  _ <~ product_pop "tiles" ;;
  _ <~ tile_pop "datastrip" ;;
  bands <~ product_pop "band_list" ;;
  tile <~ read_tile ;;
  let meta := rename_into meta tile in
  product <~ read_product ;;
  let meta := update meta product in
  items <~ lift (py_list bands) ;;
  links <~ lift (mapM (fun b =>
                         p <- get "path" meta ;;
                         Ok (PStr (s3_url ++ "/" ++ py_str p ++ "/" ++ py_str b ++ ".jp2")%string))
                      items) ;;
  let meta := set "download_links" (PDict [("aws_s3", PList links)]) meta in
  reproject geometry_keys meta.

(** ** scrawler/converter.py

    The older copy of the converter.  [camelcase_underscore] and
    [get_tiles_list] are the ones above. *)

Module Scrawler.

(** ['T{0}{1}{2}'.format(zone, band, square)] *)
Definition grid_code `{Externals} (zone band square : pyval) : string :=
  "T" ++ py_str zone ++ py_str band ++ py_str square.

Definition metadata_to_dict `{Externals} (root : element) : result (odict pyval) :=
  let meta := grab_keys root in
  p <- pop "cloud_coverage_assessment" meta ;;
  f <- float_of (fst p) ;;
  let meta := set "product_cloud_coverage_assessment" (PFloat f) (snd p) in
  po <- first (findall "Product_Organisation" root) ;;
  tiles <- get_tiles_list po ;;
  let meta := set "tiles" (PDict tiles) meta in
  bands <- first (findall "Band_List" root) ;;
  Ok (set "band_list" (PList (map (fun b => text_value (text b)) (children bands))) meta).

Definition tile_metadata `{Externals} : M (odict pyval) :=
  zone <~ tile_get "utmZone" ;;
  band <~ tile_get "latitudeBand" ;;
  square <~ tile_get "gridSquare" ;;
  let grid := grid_code zone band square in
  tiles <~ product_get "tiles" ;;
  tile_name <~ lift (getitem tiles grid) ;;
  let meta := [("tile_name", tile_name)] in
  timestamp <~ tile_get "timestamp" ;;
  parts <~ lift (split_method timestamp "T") ;;
  date <~ lift (first parts) ;;
  let meta := set "date" (PStr date) meta in
  _ <~ product_pop "tiles" ;;
  _ <~ tile_pop "datastrip" ;;
  bands <~ product_pop "band_list" ;;
  tile <~ read_tile ;;
  let meta := rename_into meta tile in
  product <~ read_product ;;
  let meta := update meta product in
  items <~ lift (py_list bands) ;;
  links <~ lift (mapM (fun b =>
                         p <- get "path" meta ;;
                         Ok (PStr ("http://sentinel-s2-l1c.s3.amazonaws.com/"
                                   ++ py_str p ++ "/" ++ py_str b ++ ".jp2")%string))
                      items) ;;
  ret (set "download_links" (PDict [("aws_s3", PList links)]) meta).

End Scrawler.

(** ** A reference choice of the collaborators

    Used to run the converter on concrete records.  [int] reads an optional
    sign and ASCII digits; [float] knows the one text of the worked scenario
    of the specification; [str] of a float or a container is left empty; the
    projection of an EPSG code is the code itself and [transform] returns the
    position it is given, which is what a transformation from a reference
    system to itself does. *)

Fixpoint digits_value (acc : Z) (s : string) : option Z :=
  match s with
  | EmptyString => Some acc
  | String c t =>
      if is_digit c
      then digits_value (10 * acc + Z.of_nat (nat_of_ascii c - 48)) t
      else None
  end.

Definition decimal_int (s : string) : option Z :=
  match s with
  | EmptyString => None
  | String "-" (String c t) => option_map Z.opp (digits_value 0 (String c t))
  | String "+" (String c t) => digits_value 0 (String c t)
  | _ => digits_value 0 s
  end.

(** 12.5, 1.0 and 2.0 as binary64 values *)
Definition f12_5 : spec_float := S754_finite false 7036874417766400 (-49).
Definition f1 : spec_float := S754_finite false 4503599627370496 (-52).
Definition f2 : spec_float := S754_finite false 4503599627370496 (-51).

Definition reference : Externals :=
  {| py_int := decimal_int;
     py_float := fun s => if String.eqb s "12.5" then Some f12_5 else None;
     str_other := fun _ => EmptyString;
     float_other := fun _ => Raise TypeError;
     int_other := fun _ => Raise TypeError;
     proj := Z;
     Proj := fun code => Ok code;
     transform := fun _ _ xs => Ok xs |}.

(** The document and the tile record of the worked scenario. *)
Definition leaf (name txt : string) : element := Element name [] (Some txt) [].

Definition scenario_granule : string :=
  "S2A_OPER_MSI_L1C_TL_SGS__20160101T135017_A002701_T32TQM_N02.01".

Definition scenario_xml : element :=
  Element "Level-1C_User_Product" [] None
    [ Element "General_Info" [] None
        [ Element "Product_Info" [] None
            [ leaf "PRODUCT_STOP_TIME" "2016-01-01T10:20:23.456Z";
              leaf "PROCESSING_LEVEL" "Level-1C";
              leaf "PRODUCT_TYPE" "S2MSI1C";
              leaf "PROCESSING_BASELINE" "02.01";
              Element "Datatake" [] None
                [ leaf "SPACECRAFT_NAME" "Sentinel-2A";
                  leaf "SENSING_ORBIT_NUMBER" "22";
                  leaf "SENSING_ORBIT_DIRECTION" "DESCENDING" ];
              Element "Query_Options" [] None
                [ Element "Band_List" [] None [ leaf "BAND_NAME" "B4" ];
                  leaf "PRODUCT_FORMAT" "SAFE" ];
              Element "Product_Organisation" [] None
                [ Element "Granule_List" [] None
                    [ Element "Granules"
                        [("granuleIdentifier", scenario_granule)]
                        None [] ] ] ] ];
      Element "Quality_Indicators_Info" [] None
        [ leaf "Cloud_Coverage_Assessment" "12.5" ] ].

Definition scenario_tile : odict pyval :=
  [ ("path", PStr "tiles/32/T/QM/2016/1/1/0");
    ("timestamp", PStr "2016-01-01T10:20:23.456Z");
    ("utmZone", PInt 32);
    ("latitudeBand", PStr "T");
    ("gridSquare", PStr "QM");
    ("datastrip", PDict [("id", PStr "S2A_OPER_MSI_L1C_DS")]) ].

Definition scenario_product : odict pyval :=
  [ ("spacecraft_name", PStr "Sentinel-2A");
    ("product_stop_time", PStr "2016-01-01T10:20:23.456Z");
    ("processing_level", PStr "Level-1C");
    ("product_type", PStr "S2MSI1C");
    ("processing_baseline", PStr "02.01");
    ("sensing_orbit_number", PInt 22);
    ("sensing_orbit_direction", PStr "DESCENDING");
    ("product_format", PStr "SAFE");
    ("product_cloud_coverage_assessment", PFloat f12_5);
    ("tiles", PDict [("T32TQM", PStr scenario_granule)]);
    ("band_list", PList [PStr "B04"]) ].

(** The document [e] without the elements named [name]. *)
Fixpoint prune (name : string) (e : element) : element :=
  match e with
  | Element t a x cs =>
      Element t a x
        ((fix go (l : list element) : list element :=
            match l with
            | [] => []
            | c :: l' =>
                if String.eqb (tag c) name then go l' else prune name c :: go l'
            end) cs)
  end.

(** ** Notions used to state the properties *)

(** [geojson['crs']['properties']['name']] *)
Definition crs_name (geojson : pyval) : result pyval :=
  crs <- getitem geojson "crs" ;;
  props <- getitem crs "properties" ;;
  getitem props "name".

(** The [crs] member is absent, or has a [properties] dictionary in which a
    name can be stored. *)
Definition crs_writable (d : odict pyval) : bool :=
  match lookup "crs" d with
  | None => true
  | Some (PDict c) =>
      match lookup "properties" c with
      | Some (PDict _) => true
      | _ => false
      end
  | Some _ => false
  end.

(** Coordinates as GeoJSON has them: sequences nested down to positions, a
    position being a sequence of floats. *)
Fixpoint wf_coords (v : pyval) : bool :=
  match v with
  | PList l | PTuple l =>
      match l with
      | [] => false
      | c0 :: _ =>
          if is_seq c0 then forallb (fun c => is_seq c && wf_coords c) l
          else forallb is_float l
      end
  | _ => false
  end.

Fixpoint forall2b {A B : Type} (f : A -> B -> bool) (xs : list A) (ys : list B) : bool :=
  match xs, ys with
  | [], [] => true
  | x :: xs', y :: ys' => f x y && forall2b f xs' ys'
  | _, _ => false
  end.

(** [b] is nested as [a] is, with a list for every list or tuple of [a]:
    the same number of elements at every level above the positions, and
    positions that hold no sequence. *)
Fixpoint same_nesting (a b : pyval) : bool :=
  match a with
  | PList la | PTuple la =>
      match b with
      | PList lb =>
          match la with
          | [] => false
          | c0 :: _ =>
              if is_seq c0 then forall2b same_nesting la lb
              else forallb (fun y => negb (is_seq y)) lb
          end
      | _ => false
      end
  | _ => false
  end.

(** The same coordinates with a list for every list or tuple above the
    positions and for the positions. *)
Fixpoint as_lists (v : pyval) : pyval :=
  match v with
  | PList l | PTuple l =>
      match l with
      | [] => PList l
      | c0 :: _ => if is_seq c0 then PList (map as_lists l) else PList l
      end
  | _ => v
  end.

(** ** Further notions and the records the properties are run on *)

(** No capital letter occurs in [s]. *)
Fixpoint no_upper (s : string) : bool :=
  match s with
  | EmptyString => true
  | String c t => negb (is_upper c) && no_upper t
  end.

(** The character of a decimal digit. *)
Definition digit_char (n : Z) : ascii := ascii_of_nat (48 + Z.to_nat n).

(** No key occurs twice. *)
Fixpoint nodupb (l : list string) : bool :=
  match l with
  | [] => true
  | k :: l' => negb (str_in k l') && nodupb l'
  end.

(** [path] is the only key renamed to [path]. *)
Definition only_path (l : list string) : bool :=
  forallb (fun k => negb (String.eqb (camelcase_underscore k) "path")
                    || String.eqb k "path") l.

(** A tile of UTM zone 7 and the product it belongs to. *)
Definition zone7_granule : string :=
  "S2A_OPER_MSI_L1C_TL_SGS__20160101T135017_A002701_T07VEL_N02.01".

Definition zone7_tile : odict pyval :=
  [ ("path", PStr "tiles/7/V/EL/2016/1/1/0");
    ("timestamp", PStr "2016-01-01T21:10:23.456Z");
    ("utmZone", PInt 7);
    ("latitudeBand", PStr "V");
    ("gridSquare", PStr "EL");
    ("datastrip", PDict [("id", PStr "S2A_OPER_MSI_L1C_DS")]) ].

Definition zone7_product : odict pyval :=
  [ ("spacecraft_name", PStr "Sentinel-2A");
    ("tiles", PDict [("T07VEL", PStr zone7_granule)]);
    ("band_list", PList [PStr "B04"]) ].

Definition zone7 : store := {| s_tile := zone7_tile; s_product := zone7_product |}.

(** The value the loop records for a key: the text of the first element of
    that name, [None] when there is no such element. *)
Definition scalar (root : element) (key : string) : pyval :=
  match first (findall key root) with
  | Ok e => text_value (text e)
  | Raise _ => PNone
  end.

(** The items of a list or tuple. *)
Definition seq_items (v : pyval) : option (list pyval) :=
  match v with
  | PList l | PTuple l => Some l
  | _ => None
  end.

(** The body of [convert_coordinates] on the items of a sequence. *)
Definition convert_items `{Externals} (l : list pyval) (origin wgs84 : proj)
  : result pyval :=
  except_IndexError
    (c0 <- first l ;;
     if is_seq c0 then
       vs <- mapM (fun c => x <- py_list c ;;
                            convert_coordinates (PList x) origin wgs84) l ;;
       Ok (PList vs)
     else if is_float c0 then
       r <- transform origin wgs84 l ;;
       Ok (PList r)
     else Ok PNone)
    (Ok PNone).

(** What [list] accepts. *)
Definition iterable (v : pyval) : bool :=
  match v with
  | PList _ | PTuple _ | PStr _ | PDict _ => true
  | _ => false
  end.

(** In every sequence that starts with a sequence, every element can be
    given to [list]. *)
Fixpoint well_nested (v : pyval) : bool :=
  match v with
  | PList l | PTuple l =>
      match l with
      | [] => true
      | c0 :: _ =>
          if is_seq c0 then forallb (fun c => iterable c && well_nested c) l
          else true
      end
  | _ => true
  end.

(** A ring with one good position, one empty position and one position of
    integers. *)
Definition ragged_ring : pyval :=
  PList [ PList [PFloat f1; PFloat f2]; PList []; PTuple [PInt 3; PInt 4] ].

(** The resolved code, as [to_latlon] computes it. *)
Definition resolve_code `{Externals} (geojson : pyval) (origin_espg : option Z)
  : result (option Z) :=
  if truthy_code origin_espg then Ok origin_espg else epsg_code geojson.

(** A point without reference system, one whose [crs] member is null, as
    GeoJSON allows, and one in UTM zone 32 with whole-number coordinates. *)
Definition plain_point : pyval :=
  PDict [ ("type", PStr "Point");
          ("coordinates", PList [PFloat f1; PFloat f2]) ].

Definition null_crs_point : pyval :=
  PDict [ ("type", PStr "Point");
          ("crs", PNone);
          ("coordinates", PList [PFloat f1; PFloat f2]) ].

Definition named_crs (name : string) : pyval :=
  PDict [ ("type", PStr "name");
          ("properties", PDict [("name", PStr name)]) ].

Definition utm_whole_point : pyval :=
  PDict [ ("type", PStr "Point");
          ("crs", named_crs "urn:ogc:def:crs:EPSG:8.9:32632");
          ("coordinates", PList [PInt 600000; PInt 4700040]) ].

(** A ring in UTM zone 32, as [shapely] gives it: tuples of tuples. *)
Definition utm_ring : pyval :=
  PTuple [ PTuple [ PTuple [PFloat f1; PFloat f2];
                    PTuple [PFloat f2; PFloat f2];
                    PTuple [PFloat f1; PFloat f2] ] ].

Definition utm_polygon : odict pyval :=
  [ ("type", PStr "Polygon");
    ("crs", named_crs "urn:ogc:def:crs:EPSG:8.9:32632");
    ("coordinates", utm_ring) ].

(** A WGS84 point with the tag spelled the short way. *)
Definition epsg4326_point : odict pyval :=
  [ ("type", PStr "Point");
    ("crs", named_crs "EPSG:4326");
    ("coordinates", PList [PFloat f1; PFloat f2]) ].

(** The link of a band. *)
Definition band_url `{Externals} (path b : pyval) : string :=
  s3_url ++ "/" ++ py_str path ++ "/" ++ py_str b ++ ".jp2".

Definition scenario : store :=
  {| s_tile := scenario_tile; s_product := scenario_product |}.

(** The tile of zone 7 against the product of the scenario. *)
Definition stray : store :=
  {| s_tile := zone7_tile; s_product := scenario_product |}.

(** ** The normalizer in one pass

    Where the two substitutions together put an underscore: before a capital
    that follows a lower-case letter or a digit, and before a capital that is
    followed by a lower-case letter and follows any character but a newline. *)

Definition starts_upper (s : string) : bool :=
  match s with
  | String u _ => is_upper u
  | EmptyString => false
  end.

Definition second_lower (s : string) : bool :=
  match s with
  | String _ (String l _) => is_lower l
  | _ => false
  end.

Definition hump (c : ascii) (t : string) : bool :=
  starts_upper t
  && (is_lower c || is_digit c || (negb (Ascii.eqb c newline) && second_lower t)).

Fixpoint underscored (s : string) : string :=
  match s with
  | EmptyString => EmptyString
  | String c t =>
      String c (if hump c t then String "_" (underscored t) else underscored t)
  end.

(** The second substitution alone. *)
Fixpoint humps (s : string) : string :=
  match s with
  | EmptyString => EmptyString
  | String c t =>
      String c (if (is_lower c || is_digit c) && starts_upper t
                then String "_" (humps t) else humps t)
  end.

(** [s[n:]] *)
Fixpoint drop (n : nat) (s : string) : string :=
  match n, s with
  | S k, String _ t => drop k t
  | _, _ => s
  end.

Fixpoint all_lower (s : string) : bool :=
  match s with
  | EmptyString => true
  | String c t => is_lower c && all_lower t
  end.

(** A camel-case name after its first word: words of one capital and
    lower-case letters; and the same words in underscore form. *)
Fixpoint camel_words (ws : list (ascii * string)) : string :=
  match ws with
  | [] => EmptyString
  | (u, w) :: ws' => String u (w ++ camel_words ws')
  end.

Fixpoint snake_words (ws : list (ascii * string)) : string :=
  match ws with
  | [] => EmptyString
  | (u, w) :: ws' => String "_" (String (lower_char u) (w ++ snake_words ws'))
  end.

(** A capital followed by at least one lower-case letter, and nothing else. *)
Definition capitalised (uw : ascii * string) : bool :=
  is_upper (fst uw)
  && match snd uw with
     | EmptyString => false
     | w => all_lower w
     end.

(** A geometry collection has no [coordinates] member; and a polygon whose
    [crs] member is a bare string. *)
Definition utm_collection : odict pyval :=
  [ ("type", PStr "GeometryCollection");
    ("crs", named_crs "urn:ogc:def:crs:EPSG:8.9:32632");
    ("geometries", PList [PDict utm_polygon]) ].

Definition loose_crs_polygon : odict pyval :=
  [ ("type", PStr "Polygon");
    ("crs", PStr "EPSG:32632");
    ("coordinates", utm_ring) ].

(** ** The tile list, child by child *)

(** What one child of [Product_Organisation] adds to the tile list: the
    grid code and the granule identifier. *)
Definition tile_entry (el : element) : result (string * string) :=
  g <- first (findall "Granules" el) ;;
  name <- get "granuleIdentifier" (attrib g) ;;
  mgs <- item_m2 (split "_" name) ;;
  Ok (mgs, name).

Definition add_entries (es : list (string * string)) (tiles : odict pyval)
  : odict pyval :=
  fold_left (fun t kn => set (fst kn) (PStr (snd kn)) t) es tiles.

(** [c in s] for a character. *)
Fixpoint occurs (x : ascii) (s : string) : bool :=
  match s with
  | EmptyString => false
  | String c t => Ascii.eqb c x || occurs x t
  end.

(** A product organisation of two granules on the same grid square. *)
Definition granule (name : string) : element :=
  Element "Granule_List" [] None
    [ Element "Granules" [("granuleIdentifier", name)] None [] ].

Definition twice_T32TQM : element :=
  Element "Product_Organisation" [] None
    [ granule "S2A_OPER_MSI_L1C_TL_SGS__20160101T135017_A002701_T32TQM_N02.00";
      granule scenario_granule ].

(** ** The two dictionaries after the pops, and the merged record *)

Definition drained (s : store) : store :=
  {| s_tile := remove "datastrip" (s_tile s);
     s_product := remove "band_list" (remove "tiles" (s_product s)) |}.

(** The record before the links are added: the computed fields, then the
    renamed tile fields, then the product fields. *)
Definition merged (computed : odict pyval) (s : store) : odict pyval :=
  update (rename_into computed (s_tile (drained s))) (s_product (drained s)).

(** The tile record of the scenario with the origin of the tile, as
    [tileInfo.json] gives it. *)
Definition scenario_origin : pyval :=
  PDict [ ("type", PStr "Point");
          ("crs", named_crs "urn:ogc:def:crs:EPSG:8.9:32632");
          ("coordinates", PList [PFloat f1; PFloat f2]) ].

Definition scenario_with_origin : store :=
  {| s_tile := ("tileOrigin", scenario_origin) :: scenario_tile;
     s_product := scenario_product |}.

(** The scenario with a product record that has a [path] field of its own. *)
Definition scenario_product_path : store :=
  {| s_tile := scenario_tile;
     s_product := ("path", PStr "ELSEWHERE") :: scenario_product |}.

(** The tile of the scenario with a second key that is renamed to [path]. *)
Definition scenario_tile_Path : store :=
  {| s_tile := scenario_tile ++ [("Path", PStr "ELSEWHERE")];
     s_product := scenario_product |}.

(** The [path] of the tile record is the one the merged record holds: the
    keys of the tile are those of a dictionary, [path] is the only one
    renamed to [path], and the product record has no [path] of its own. *)
Definition path_of_tile (s : store) : bool :=
  nodupb (keys (s_tile s))
  && only_path (keys (s_tile s))
  && negb (mem "path" (s_product s)).

(** No geometry to reproject: no key of the tile is renamed to one of
    [geometry_keys] and the product record has none of them. *)
Definition no_geometry (s : store) : bool :=
  forallb (fun k => negb (str_in (camelcase_underscore k) geometry_keys))
          (keys (s_tile s))
  && forallb (fun key => negb (mem key (s_product s))) geometry_keys.

(** [meta['download_links']] of the record a call returned. *)
Definition returned_links (r : result (odict pyval) * store) : option pyval :=
  match fst r with
  | Ok meta => lookup "download_links" meta
  | Raise _ => None
  end.

(** * Properties *)

(** ** Name normalizer *)

Lemma lower_char_not_upper (c : ascii) : is_upper (lower_char c) = false.
Proof.
  destruct c as [[] [] [] [] [] [] [] []]; reflexivity.
Qed.

Lemma lower_char_fixed (c : ascii) : is_upper c = false -> lower_char c = c.
Proof.
  unfold lower_char. intros ->. reflexivity.
Qed.

Lemma lower_no_upper (s : string) : no_upper (lower s) = true.
Proof.
  induction s as [|c t IH]; simpl.
  - reflexivity.
  - rewrite lower_char_not_upper, IH. reflexivity.
Qed.

Lemma lower_fixed (s : string) : no_upper s = true -> lower s = s.
Proof.
  induction s as [|c t IH]; simpl; intros Hs.
  - reflexivity.
  - apply andb_prop in Hs. destruct Hs as [Hc Ht].
    apply negb_true_iff in Hc.
    rewrite (lower_char_fixed c Hc), (IH Ht). reflexivity.
Qed.

Lemma match_word_no_upper (s : string) : no_upper s = true -> match_word s = None.
Proof.
  destruct s as [|c [|u [|l rest]]]; simpl; try reflexivity.
  intros Hs.
  apply andb_prop in Hs. destruct Hs as [_ Hs].
  apply andb_prop in Hs. destruct Hs as [Hu _].
  apply negb_true_iff in Hu. rewrite Hu.
  rewrite andb_false_r. reflexivity.
Qed.

Lemma match_hump_no_upper (s : string) : no_upper s = true -> match_hump s = None.
Proof.
  destruct s as [|c [|u rest]]; simpl; try reflexivity.
  intros Hs.
  apply andb_prop in Hs. destruct Hs as [_ Hs].
  apply andb_prop in Hs. destruct Hs as [Hu _].
  apply negb_true_iff in Hu. rewrite Hu.
  rewrite andb_false_r. reflexivity.
Qed.

(** A pattern that matches at no suffix leaves the string alone. *)
Lemma re_sub_no_match (m : string -> option (string * nat)) (s : string) :
  (forall t, no_upper t = true -> m t = None) ->
  no_upper s = true -> re_sub m s = s.
Proof.
  intros Hm. unfold re_sub.
  induction s as [|c t IH]; intros Hs.
  - reflexivity.
  - cbn [re_sub_from]. rewrite (Hm _ Hs).
    simpl in Hs. apply andb_prop in Hs. destruct Hs as [_ Ht].
    rewrite (IH Ht). reflexivity.
Qed.

Lemma camelcase_underscore_fixed (s : string) :
  no_upper s = true -> camelcase_underscore s = s.
Proof.
  intros Hs. unfold camelcase_underscore.
  rewrite (re_sub_no_match match_word s match_word_no_upper Hs).
  rewrite (re_sub_no_match match_hump s match_hump_no_upper Hs).
  apply lower_fixed, Hs.
Qed.

Lemma camelcase_underscore_no_upper (s : string) :
  no_upper (camelcase_underscore s) = true.
Proof.
  unfold camelcase_underscore. apply lower_no_upper.
Qed.

(** C9. The normalizer is idempotent: applied to its own output it changes
    nothing, and a string without capital letters (an already underscored,
    lower-case name) is returned as it is. *)
Theorem camelcase_underscore_idempotent (s : string) :
  camelcase_underscore (camelcase_underscore s) = camelcase_underscore s
  /\ (no_upper s = true -> camelcase_underscore s = s).
Proof.
  split.
  - apply camelcase_underscore_fixed, camelcase_underscore_no_upper.
  - apply camelcase_underscore_fixed.
Qed.

Lemma camelcase_underscore_idempotent_witness :
  no_upper "tile_data_geometry" = true
  /\ camelcase_underscore "tile_data_geometry" = "tile_data_geometry"
  /\ camelcase_underscore (camelcase_underscore "tileDataGeometry")
     = camelcase_underscore "tileDataGeometry".
Proof.
  split; [reflexivity|]. split.
  - apply (proj2 (camelcase_underscore_idempotent "tile_data_geometry")).
    reflexivity.
  - apply (proj1 (camelcase_underscore_idempotent "tileDataGeometry")).
Defined.

(** ** Band names *)

Lemma pad_one_char `{Externals} (c : ascii) :
  pad (PStr (String c EmptyString)) 2 = String "0" (String c EmptyString).
Proof. reflexivity. Qed.

(** What the band-list pass of [sentinel_s3] does with a band text. *)
Lemma band_entry_padded `{Externals} (b : element) (t : string) (c : ascii) :
  text b = Some t ->
  remove_char "B" t = String c EmptyString ->
  band_entry b = Ok (PStr (String "B" (String "0" (String c EmptyString)))).
Proof.
  intros Ht Hc. unfold band_entry. rewrite Ht, Hc. reflexivity.
Qed.

Lemma band_entry_kept `{Externals} (b : element) (t : string) :
  text b = Some t ->
  String.length (remove_char "B" t) <> 1%nat ->
  band_entry b = Ok (PStr t).
Proof.
  intros Ht Hlen. unfold band_entry. rewrite Ht.
  destruct (Nat.eqb_spec (String.length (remove_char "B" t)) 1) as [E|E].
  - contradiction.
  - reflexivity.
Qed.

Lemma digit_not_B (d : ascii) : is_digit d = true -> Ascii.eqb d "B" = false.
Proof.
  destruct d as [[] [] [] [] [] [] [] []]; simpl; intros Hd;
    try reflexivity; discriminate Hd.
Qed.

(** C3, as the code has it.  The pass removes every [B] of the band text;
    when exactly one character [c] is left the entry is [B0c], in particular
    [B0d] for the text [Bd] with a digit [d]; in every other case the entry
    is the text itself. *)
Theorem band_entry_normalizes `{Externals} (b : element) (t : string) :
  text b = Some t ->
  (forall c, remove_char "B" t = String c EmptyString ->
             band_entry b = Ok (PStr (String "B" (String "0" (String c EmptyString)))))
  /\ (forall d, is_digit d = true -> t = String "B" (String d EmptyString) ->
                band_entry b = Ok (PStr (String "B" (String "0" (String d EmptyString)))))
  /\ (String.length (remove_char "B" t) <> 1%nat -> band_entry b = Ok (PStr t)).
Proof.
  intros Ht. repeat split.
  - intros c Hc. apply (band_entry_padded b t c Ht Hc).
  - intros d Hd ->. apply (band_entry_padded b _ d Ht).
    simpl. rewrite (digit_not_B d Hd). reflexivity.
  - apply (band_entry_kept b t Ht).
Qed.

Lemma band_entry_normalizes_witness :
  @band_entry reference (leaf "BAND_NAME" "B2") = Ok (PStr "B02")
  /\ @band_entry reference (leaf "BAND_NAME" "B8A") = Ok (PStr "B8A").
Proof.
  split.
  - apply (proj1 (proj2 (@band_entry_normalizes reference
                           (leaf "BAND_NAME" "B2") "B2" eq_refl)) "2"%char);
      reflexivity.
  - apply (proj2 (proj2 (@band_entry_normalizes reference
                           (leaf "BAND_NAME" "B8A") "B8A" eq_refl))).
    simpl. lia.
Defined.

(** C3 as stated fails: [BA] is not [B] and a single digit, yet the entry is
    not the text. *)
Lemma band_entry_BA :
  @band_entry reference (leaf "BAND_NAME" "BA") = Ok (PStr "B0A")
  /\ @band_entry reference (leaf "BAND_NAME" "BA") <> Ok (PStr "BA").
Proof.
  split; [reflexivity | discriminate].
Qed.

(** The same happens whatever the padding does to a letter: a text with a
    second [B], or with none, and one digit is rewritten too. *)
Example band_entry_rewrites_other_texts :
  @band_entry reference (leaf "BAND_NAME" "BB2") = Ok (PStr "B02")
  /\ @band_entry reference (leaf "BAND_NAME" "5") = Ok (PStr "B05").
Proof. split; reflexivity. Qed.

(** The older copy keeps every band text as it is. *)
Example scrawler_band_list_unpadded :
  bind (@Scrawler.metadata_to_dict reference scenario_xml) (get "band_list")
  = Ok (PList [PStr "B4"]).
Proof. reflexivity. Qed.

(** ** Grid code *)

Lemma pad_zone `{Externals} (z : Z) :
  (0 <= z < 100)%Z ->
  pad (PInt z) 2 = String (digit_char (z / 10)) (String (digit_char (z mod 10)) EmptyString).
Proof.
  intros Hz. rewrite <- (Z2Nat.id z) by lia.
  assert (Hn : (Z.to_nat z < 100)%nat) by lia.
  generalize dependent (Z.to_nat z). clear Hz z. intros n Hn.
  do 100 (destruct n as [|n]; [reflexivity|]).
  lia.
Qed.

(** The grid code of [sentinel_s3]: the zone on two digits, then the
    latitude band and the grid square. *)
Lemma grid_code_zero_padded `{Externals} (z : Z) (band square : string) :
  (0 <= z < 100)%Z ->
  grid_code (PInt z) (PStr band) (PStr square)
  = String "T" (String (digit_char (z / 10)) (String (digit_char (z mod 10))
                                                     (band ++ square))).
Proof.
  intros Hz. unfold grid_code. rewrite (pad_zone z Hz). reflexivity.
Qed.

Example grid_code_T32TQM `{Externals} :
  grid_code (PInt 32) (PStr "T") (PStr "QM") = "T32TQM".
Proof. reflexivity. Qed.

Example grid_code_zone_7 `{Externals} :
  grid_code (PInt 7) (PStr "V") (PStr "EL") = "T07VEL".
Proof. reflexivity. Qed.

(** C4 fails in the older copy: [scrawler] formats the zone as it is, so a
    zone below 10 gives a code that is not in the tile list, where
    [sentinel_s3] gives [T07VEL] and finds the tile. *)
Theorem scrawler_grid_code_zone_7 :
  @Scrawler.grid_code reference (PInt 7) (PStr "V") (PStr "EL") = "T7VEL"
  /\ fst (@Scrawler.tile_metadata reference zone7) = Raise KeyError
  /\ @grid_code reference (PInt 7) (PStr "V") (PStr "EL") = "T07VEL"
  /\ bind (fst (@tile_metadata reference zone7)) (get "tile_name")
     = Ok (PStr zone7_granule).
Proof. repeat split. Qed.

(** ** Scalar keys *)

Lemma grab_scalar (root : element) (meta : odict pyval) (key : string) :
  grab root meta key = set (lower key) (scalar root key) meta.
Proof.
  unfold grab, scalar. destruct (first (findall key root)); reflexivity.
Qed.

Lemma grab_keys_entries (root : element) :
  grab_keys root
  = [ ("spacecraft_name", scalar root "SPACECRAFT_NAME");
      ("product_stop_time", scalar root "PRODUCT_STOP_TIME");
      ("cloud_coverage_assessment", scalar root "Cloud_Coverage_Assessment");
      ("processing_level", scalar root "PROCESSING_LEVEL");
      ("product_type", scalar root "PRODUCT_TYPE");
      ("processing_baseline", scalar root "PROCESSING_BASELINE");
      ("sensing_orbit_number", scalar root "SENSING_ORBIT_NUMBER");
      ("sensing_orbit_direction", scalar root "SENSING_ORBIT_DIRECTION");
      ("product_format", scalar root "PRODUCT_FORMAT") ].
Proof.
  unfold grab_keys, scalar_keys. cbn [fold_left].
  rewrite !grab_scalar. reflexivity.
Qed.

Lemma scalar_absent (root : element) (key : string) :
  findall key root = [] -> scalar root key = PNone.
Proof.
  unfold scalar. intros ->. reflexivity.
Qed.

(** The loop itself never fails and records [None] for an absent element. *)
Lemma grab_keys_absent (root : element) (key : string) :
  In key scalar_keys ->
  findall key root = [] ->
  lookup (lower key) (grab_keys root) = Some PNone.
Proof.
  intros Hin Habs. rewrite grab_keys_entries.
  unfold scalar_keys in Hin. simpl in Hin.
  repeat (destruct Hin as [<-|Hin];
          [simpl; rewrite (scalar_absent _ _ Habs); reflexivity|]).
  contradiction.
Qed.

(** Without the cloud coverage element both extractors stop in [float]. *)
Lemma metadata_to_dict_no_cloud_coverage `{Externals} (root : element) :
  findall "Cloud_Coverage_Assessment" root = [] ->
  metadata_to_dict root = Raise TypeError
  /\ Scrawler.metadata_to_dict root = Raise TypeError.
Proof.
  intros Habs.
  unfold metadata_to_dict, Scrawler.metadata_to_dict.
  rewrite grab_keys_entries, (scalar_absent _ _ Habs).
  split; reflexivity.
Qed.

(** Without the orbit number [sentinel_s3] stops in [int]. *)
Lemma metadata_to_dict_no_orbit_number `{Externals} (root : element) (f : spec_float) :
  float_of (scalar root "Cloud_Coverage_Assessment") = Ok f ->
  findall "SENSING_ORBIT_NUMBER" root = [] ->
  metadata_to_dict root = Raise TypeError.
Proof.
  intros Hf Habs.
  unfold metadata_to_dict.
  rewrite grab_keys_entries, (scalar_absent _ _ Habs).
  cbn -[float_of]. rewrite Hf. reflexivity.
Qed.

(** C1 fails on the code.  An element of the fixed list that is absent is
    recorded as [None], and for seven of the nine names the extractor then
    completes; without [Cloud_Coverage_Assessment] or, in [sentinel_s3],
    without [SENSING_ORBIT_NUMBER] the conversion of that [None] raises
    [TypeError]. *)
Theorem metadata_to_dict_absent_numeric_key :
  @metadata_to_dict reference (prune "Cloud_Coverage_Assessment" scenario_xml)
  = Raise TypeError
  /\ @metadata_to_dict reference (prune "SENSING_ORBIT_NUMBER" scenario_xml)
     = Raise TypeError
  /\ @Scrawler.metadata_to_dict reference
       (prune "Cloud_Coverage_Assessment" scenario_xml)
     = Raise TypeError
  /\ bind (@metadata_to_dict reference (prune "SPACECRAFT_NAME" scenario_xml))
          (get "spacecraft_name")
     = Ok PNone.
Proof. repeat split. Qed.

(** The worked scenario of the specification, on a granule identifier of the
    form the products carry. *)
Example metadata_to_dict_scenario :
  @metadata_to_dict reference scenario_xml = Ok scenario_product.
Proof. reflexivity. Qed.

(** ** Coordinate conversion *)

(** Induction on the nesting of lists and tuples. *)
Lemma pyval_seq_ind (P : pyval -> Prop) :
  (forall v, is_seq v = false -> P v) ->
  (forall l, Forall P l -> P (PList l)) ->
  (forall l, Forall P l -> P (PTuple l)) ->
  forall v, P v.
Proof.
  intros Hbase Hlist Htuple.
  fix IH 1.
  intros [ | b | n | f | s | l | l | d]; try (apply Hbase; reflexivity).
  - apply Hlist. induction l as [|a l IHl]; constructor; [apply IH | exact IHl].
  - apply Htuple. induction l as [|a l IHl]; constructor; [apply IH | exact IHl].
Qed.

Lemma mapM_cons {A B : Type} (f : A -> result B) (a : A) (l : list A) :
  mapM f (a :: l) = (b <- f a ;; bs <- mapM f l ;; Ok (b :: bs)).
Proof. reflexivity. Qed.

Lemma mapM_ext {A B : Type} (f g : A -> result B) (l : list A) :
  (forall a, f a = g a) -> mapM f l = mapM g l.
Proof.
  intros Hfg. induction l as [|a l IH]; simpl.
  - reflexivity.
  - rewrite Hfg, IH. reflexivity.
Qed.

(** The recursive call of the source, [convert_coordinates(list(c), ...)]. *)
Lemma convert_element_list `{Externals} (c : pyval) (o w : proj) :
  convert_element (fun c' => convert_coordinates c' o w) c
  = (x <- py_list c ;; convert_coordinates (PList x) o w).
Proof.
  destruct c as [ | b | n | f | s | l | l | d]; try reflexivity.
  - destruct s; reflexivity.
  - destruct d as [|[k v] d]; reflexivity.
Qed.

(** The equation of the source. *)
Lemma convert_coordinates_seq `{Externals} (coords : pyval) (l : list pyval) (o w : proj) :
  seq_items coords = Some l ->
  convert_coordinates coords o w = convert_items l o w.
Proof.
  intros Hl.
  assert (E : convert_coordinates (PList l) o w = convert_items l o w).
  { unfold convert_items. cbn [convert_coordinates].
    rewrite (mapM_ext _ _ l (fun c => convert_element_list c o w)).
    reflexivity. }
  destruct coords; try discriminate Hl; inversion Hl; subst; exact E.
Qed.

Lemma convert_coordinates_not_seq `{Externals} (coords : pyval) (o w : proj) :
  seq_items coords = None -> convert_coordinates coords o w = Ok PNone.
Proof.
  destruct coords; try reflexivity; discriminate.
Qed.

(** The [IndexError] of an empty sequence never leaves the function. *)
Lemma convert_coordinates_no_IndexError `{Externals} (coords : pyval) (o w : proj) :
  convert_coordinates coords o w <> Raise IndexError.
Proof.
  destruct (seq_items coords) as [l|] eqn:Hl.
  - rewrite (convert_coordinates_seq coords l o w Hl). unfold convert_items.
    match goal with |- except_IndexError ?m _ <> _ => destruct m as [v|[]] end;
      discriminate.
  - rewrite (convert_coordinates_not_seq coords o w Hl). discriminate.
Qed.

Lemma well_nested_items (v : pyval) (l : list pyval) (c0 : pyval) (l' : list pyval) :
  seq_items v = Some l -> l = c0 :: l' -> is_seq c0 = true ->
  well_nested v = forallb (fun c => iterable c && well_nested c) l.
Proof.
  intros Hv -> Hc0.
  destruct v; try discriminate Hv; inversion Hv; subst; simpl; rewrite Hc0;
    reflexivity.
Qed.

Lemma convert_elements_return `{Externals} (l : list pyval) (o w : proj) :
  Forall (fun c => well_nested c = true ->
                   exists v, convert_coordinates c o w = Ok v) l ->
  forallb (fun c => iterable c && well_nested c) l = true ->
  exists vs, mapM (fun c => x <- py_list c ;; convert_coordinates (PList x) o w) l
             = Ok vs.
Proof.
  induction 1 as [|c l Hc Hl IH]; intros Hall.
  - exists []. reflexivity.
  - cbn [forallb] in Hall.
    apply andb_prop in Hall. destruct Hall as [Hcw Hall].
    apply andb_prop in Hcw. destruct Hcw as [Hit Hwn].
    destruct (IH Hall) as [vs Hvs].
    rewrite mapM_cons, Hvs, <- (convert_element_list c o w).
    destruct c as [ | b | n | f | s | lc | lc | d]; try discriminate Hit;
      cbn [convert_element].
    + eexists. reflexivity.
    + destruct (Hc Hwn) as [v Hv]. rewrite Hv. eexists. reflexivity.
    + destruct (Hc Hwn) as [v Hv]. rewrite Hv. eexists. reflexivity.
    + eexists. reflexivity.
Qed.

Lemma convert_coordinates_returns `{Externals} (coords : pyval) (o w : proj) :
  (forall xs, exists r, transform o w xs = Ok r) ->
  well_nested coords = true ->
  exists v, convert_coordinates coords o w = Ok v.
Proof.
  intros Htr. induction coords as [v Hv | l IH | l IH] using pyval_seq_ind.
  - intros _. exists PNone. destruct v; try reflexivity; discriminate Hv.
  - intros Hwn. rewrite (convert_coordinates_seq (PList l) l o w eq_refl).
    unfold convert_items. destruct l as [|c0 l'].
    + exists PNone. reflexivity.
    + cbn [first bind]. destruct (is_seq c0) eqn:Hc0.
      * rewrite (well_nested_items (PList (c0 :: l')) _ c0 l' eq_refl eq_refl Hc0)
          in Hwn.
        destruct (convert_elements_return _ o w IH Hwn) as [vs Hvs].
        rewrite Hvs. eexists. reflexivity.
      * destruct (is_float c0).
        -- destruct (Htr (c0 :: l')) as [r Hr]. rewrite Hr. eexists. reflexivity.
        -- eexists. reflexivity.
  - intros Hwn. rewrite (convert_coordinates_seq (PTuple l) l o w eq_refl).
    unfold convert_items. destruct l as [|c0 l'].
    + exists PNone. reflexivity.
    + cbn [first bind]. destruct (is_seq c0) eqn:Hc0.
      * rewrite (well_nested_items (PTuple (c0 :: l')) _ c0 l' eq_refl eq_refl Hc0)
          in Hwn.
        destruct (convert_elements_return _ o w IH Hwn) as [vs Hvs].
        rewrite Hvs. eexists. reflexivity.
      * destruct (is_float c0).
        -- destruct (Htr (c0 :: l')) as [r Hr]. rewrite Hr. eexists. reflexivity.
        -- eexists. reflexivity.
Qed.

Lemma except_IndexError_other {A : Type} (m h : result A) :
  m <> Raise IndexError -> except_IndexError m h = m.
Proof.
  destruct m as [a|[]]; try reflexivity. intros Hm. contradiction Hm. reflexivity.
Qed.

Lemma convert_elements_no_IndexError `{Externals} (l : list pyval) (o w : proj) :
  mapM (fun c => x <- py_list c ;; convert_coordinates (PList x) o w) l
  <> Raise IndexError.
Proof.
  induction l as [|c l IH].
  - discriminate.
  - rewrite mapM_cons.
    destruct (py_list c) as [x|e] eqn:Hx.
    + cbn [bind].
      pose proof (convert_coordinates_no_IndexError (PList x) o w) as Hc.
      destruct (convert_coordinates (PList x) o w) as [v|e]; cbn [bind].
      * destruct (mapM _ l) as [vs|e]; cbn [bind]; [discriminate | exact IH].
      * intros E. apply Hc. inversion E. reflexivity.
    + cbn [bind]. destruct c; simpl in Hx; try discriminate Hx;
        inversion Hx; discriminate.
Qed.

(** C6, as the code has it.  [convert_coordinates] gives [None] for a value
    that is no sequence, for an empty sequence and for a sequence whose first
    element is neither a sequence nor a float; it hands a sequence that starts
    with a float to [transform]; it converts a sequence that starts with a
    sequence element by element, so that a malformed element gives [None] in
    its place and the others are still converted.  It returns whenever
    [transform] does and every element of a sequence of sequences can be given
    to [list]. *)
Theorem convert_coordinates_branches `{Externals} (coords : pyval) (o w : proj) :
  (seq_items coords = None -> convert_coordinates coords o w = Ok PNone)
  /\ (seq_items coords = Some [] -> convert_coordinates coords o w = Ok PNone)
  /\ (forall c0 l, seq_items coords = Some (c0 :: l) ->
                   is_seq c0 = false -> is_float c0 = false ->
                   convert_coordinates coords o w = Ok PNone)
  /\ (forall c0 l, seq_items coords = Some (c0 :: l) ->
                   is_float c0 = true ->
                   convert_coordinates coords o w
                   = except_IndexError
                       (r <- transform o w (c0 :: l) ;; Ok (PList r)) (Ok PNone))
  /\ (forall c0 l, seq_items coords = Some (c0 :: l) ->
                   is_seq c0 = true ->
                   convert_coordinates coords o w
                   = (vs <- mapM (fun c => x <- py_list c ;;
                                           convert_coordinates (PList x) o w)
                                 (c0 :: l) ;;
                      Ok (PList vs)))
  /\ ((forall xs, exists r, transform o w xs = Ok r) ->
      well_nested coords = true ->
      exists v, convert_coordinates coords o w = Ok v).
Proof.
  repeat split.
  - apply convert_coordinates_not_seq.
  - intros Hl. rewrite (convert_coordinates_seq coords [] o w Hl). reflexivity.
  - intros c0 l Hl Hs Hf.
    rewrite (convert_coordinates_seq coords _ o w Hl).
    unfold convert_items. cbn [first bind]. rewrite Hs, Hf. reflexivity.
  - intros c0 l Hl Hf.
    rewrite (convert_coordinates_seq coords _ o w Hl).
    unfold convert_items. cbn [first bind]. rewrite Hf.
    destruct c0; try discriminate Hf. reflexivity.
  - intros c0 l Hl Hs.
    rewrite (convert_coordinates_seq coords _ o w Hl).
    unfold convert_items. cbn [first bind]. rewrite Hs.
    apply except_IndexError_other.
    pose proof (convert_elements_no_IndexError (c0 :: l) o w) as Hm.
    destruct (mapM _ (c0 :: l)) as [vs|e]; cbn [bind]; [discriminate|].
    intros E. apply Hm. inversion E. reflexivity.
  - apply convert_coordinates_returns.
Qed.

Lemma convert_coordinates_branches_witness :
  exists v, @convert_coordinates reference ragged_ring 32632%Z 4326%Z = Ok v.
Proof.
  apply (proj2 (proj2 (proj2 (proj2 (proj2
           (@convert_coordinates_branches reference ragged_ring 32632%Z 4326%Z)))))).
  - intros xs. exists xs. reflexivity.
  - reflexivity.
Defined.

(** [None] stands in for the malformed positions only. *)
Example convert_coordinates_ragged_ring :
  @convert_coordinates reference ragged_ring 32632%Z 4326%Z
  = Ok (PList [ PList [PFloat f1; PFloat f2]; PNone; PNone ]).
Proof. reflexivity. Qed.

(** C6 as stated fails: a number next to a position makes [list] raise. *)
Lemma convert_coordinates_raises :
  @convert_coordinates reference (PList [PList []; PFloat f1]) 32632%Z 4326%Z
  = Raise TypeError.
Proof. reflexivity. Qed.

(** ** Dictionaries *)

Lemma lookup_set_eq {V : Type} (k : string) (v : V) (d : odict V) :
  lookup k (set k v d) = Some v.
Proof.
  induction d as [|[k' v'] d IH]; simpl.
  - rewrite String.eqb_refl. reflexivity.
  - destruct (String.eqb k k') eqn:E; simpl; rewrite E; [reflexivity | exact IH].
Qed.

Lemma lookup_set_ne {V : Type} (k k' : string) (v : V) (d : odict V) :
  k <> k' -> lookup k (set k' v d) = lookup k d.
Proof.
  intros Hne. induction d as [|[k0 v0] d IH]; simpl.
  - destruct (String.eqb_spec k k'); [contradiction | reflexivity].
  - destruct (String.eqb_spec k' k0) as [->|E]; simpl.
    + destruct (String.eqb_spec k k0); [contradiction | reflexivity].
    + destruct (String.eqb k k0); [reflexivity | exact IH].
Qed.

Lemma mem_set_ne {V : Type} (k k' : string) (v : V) (d : odict V) :
  k <> k' -> mem k (set k' v d) = mem k d.
Proof.
  intros Hne. unfold mem. rewrite (lookup_set_ne k k' v d Hne). reflexivity.
Qed.

Lemma lookup_remove_ne {V : Type} (k k' : string) (d : odict V) :
  k <> k' -> lookup k (remove k' d) = lookup k d.
Proof.
  intros Hne. induction d as [|[k0 v0] d IH]; simpl.
  - reflexivity.
  - destruct (String.eqb_spec k' k0) as [->|E]; simpl.
    + destruct (String.eqb_spec k k0); [contradiction | reflexivity].
    + destruct (String.eqb k k0); [reflexivity | exact IH].
Qed.

(** ** Reprojection *)

(** [epsg_code] on a dictionary with a [crs] member, through the name. *)
Lemma epsg_code_crs `{Externals} (d : odict pyval) :
  mem "crs" d = true ->
  epsg_code (PDict d)
  = (name <- crs_name (PDict d) ;;
     urn <- split_method name ":" ;;
     if str_in "EPSG" urn then
       except_TypeError_ValueError
         (last <- item_m1 urn ;; n <- int_of (PStr last) ;; Ok (Some n))
         (Ok None)
     else Ok None).
Proof.
  intros Hm. unfold epsg_code, crs_name. rewrite Hm.
  cbn [getitem]. destruct (get "crs" d) as [crs|e]; [|reflexivity].
  cbn [bind]. destruct (getitem crs "properties") as [props|e]; reflexivity.
Qed.

Lemma epsg_code_no_crs `{Externals} (geojson : pyval) :
  match geojson with PDict d => mem "crs" d = false | _ => True end ->
  epsg_code geojson = Ok None.
Proof.
  destruct geojson; try reflexivity. simpl. intros ->. reflexivity.
Qed.

Lemma split_nonempty (sep : ascii) (s : string) : split sep s <> [].
Proof.
  induction s as [|c t IH]; simpl.
  - discriminate.
  - destruct (Ascii.eqb c sep); [discriminate|].
    destruct (split sep t); discriminate.
Qed.

(** With a text as name, [epsg_code] returns: the only failure left is the
    one of [int], which is caught. *)
Lemma epsg_code_named `{Externals} (d : odict pyval) (s : string) :
  crs_name (PDict d) = Ok (PStr s) ->
  exists code, epsg_code (PDict d) = Ok code.
Proof.
  intros Hn.
  assert (Hm : mem "crs" d = true).
  { unfold crs_name in Hn. cbn [getitem] in Hn. unfold get, mem in *.
    destruct (lookup "crs" d); [reflexivity | discriminate Hn]. }
  rewrite (epsg_code_crs d Hm), Hn. cbn [bind split_method].
  destruct (str_in "EPSG" (split ":" s)); [|eexists; reflexivity].
  unfold item_m1.
  destruct (rev (split ":" s)) as [|last rest] eqn:Hrev; cbn [first bind].
  - exfalso. apply (split_nonempty ":" s).
    rewrite <- (rev_involutive (split ":" s)), Hrev. reflexivity.
  - cbn [int_of]. destruct (py_int last); cbn [bind except_TypeError_ValueError];
      eexists; reflexivity.
Qed.

(** A code read from the tag means the tag is well formed. *)
Lemma epsg_code_some `{Externals} (d : odict pyval) (n : Z) :
  epsg_code (PDict d) = Ok (Some n) ->
  exists c p s,
    lookup "crs" d = Some (PDict c)
    /\ lookup "properties" c = Some (PDict p)
    /\ lookup "name" p = Some (PStr s).
Proof.
  unfold epsg_code, mem, get. intros Hc.
  destruct (lookup "crs" d) as [crs|] eqn:Hcrs; [|discriminate Hc].
  cbn [bind] in Hc.
  destruct crs as [ | | | | | | | c]; try discriminate Hc.
  cbn [getitem] in Hc. unfold get in Hc.
  destruct (lookup "properties" c) as [props|] eqn:Hprops; [|discriminate Hc].
  cbn [bind] in Hc.
  destruct props as [ | | | | | | | p]; try discriminate Hc.
  cbn [getitem] in Hc. unfold get in Hc.
  destruct (lookup "name" p) as [name|] eqn:Hname; [|discriminate Hc].
  cbn [bind] in Hc.
  destruct name as [ | | | | s | | | ]; try discriminate Hc.
  exists c, p, s. repeat split; assumption.
Qed.

(** What a conversion that took place leaves behind. *)
Lemma to_latlon_rewrites `{Externals} (d : odict pyval) (origin_espg : option Z)
      (n : Z) (o w : proj) (coords new_coords : pyval) :
  resolve_code (PDict d) origin_espg = Ok (Some n) ->
  n <> 0%Z ->
  Proj n = Ok o ->
  Proj 4326 = Ok w ->
  lookup "coordinates" d = Some coords ->
  convert_coordinates coords o w = Ok new_coords ->
  truthy new_coords = true ->
  crs_writable d = true ->
  exists g,
    to_latlon (PDict d) origin_espg = (Ok (PDict g), PDict g)
    /\ lookup "coordinates" g = Some new_coords
    /\ crs_name (PDict g) = Ok (PStr wgs84_urn)
    /\ (forall k, k <> "coordinates" -> k <> "crs" -> lookup k g = lookup k d).
Proof.
  intros Hcode Hn Ho Hw Hcoords Hconv Htruthy Hcrs.
  unfold resolve_code in Hcode. unfold to_latlon.
  rewrite Hcode.
  destruct (Z.eqb_spec n 0) as [E|_]; [contradiction|].
  rewrite Ho, Hw. cbn [bind]. unfold get at 1. rewrite Hcoords. cbn [bind].
  rewrite Hconv, Htruthy.
  assert (Hne : "crs" <> "coordinates") by discriminate.
  rewrite (mem_set_ne "crs" "coordinates" new_coords d Hne).
  unfold crs_writable in Hcrs. unfold mem, get.
  rewrite (lookup_set_ne "crs" "coordinates" new_coords d Hne).
  destruct (lookup "crs" d) as [crs|] eqn:Hlk.
  - destruct crs as [ | | | | | | | c]; try discriminate Hcrs.
    destruct (lookup "properties" c) as [props|] eqn:Hprops; [|discriminate Hcrs].
    destruct props as [ | | | | | | | p]; try discriminate Hcrs.
    cbn [negb bind getitem setitem]. unfold get. rewrite Hprops.
    cbn [bind setitem].
    eexists. split; [reflexivity|]. split; [|split].
    + rewrite lookup_set_ne by discriminate. apply lookup_set_eq.
    + unfold crs_name. cbn [getitem]. unfold get.
      rewrite !lookup_set_eq. cbn [bind getitem]. unfold get.
      rewrite !lookup_set_eq. cbn [bind getitem]. unfold get.
      rewrite lookup_set_eq. reflexivity.
    + intros k Hk1 Hk2. rewrite !lookup_set_ne by assumption. reflexivity.
  - cbn [negb].
    eexists. split; [reflexivity|]. split; [|split].
    + rewrite lookup_set_ne by discriminate. apply lookup_set_eq.
    + unfold crs_name. cbn [getitem]. unfold get.
      rewrite lookup_set_eq. reflexivity.
    + intros k Hk1 Hk2. rewrite !lookup_set_ne by assumption. reflexivity.
Qed.

(** Nothing happens when the converted coordinates are empty or [None]. *)
Lemma to_latlon_falsy `{Externals} (d : odict pyval) (origin_espg : option Z)
      (n : Z) (o w : proj) (coords new_coords : pyval) :
  resolve_code (PDict d) origin_espg = Ok (Some n) ->
  Proj n = Ok o ->
  Proj 4326 = Ok w ->
  lookup "coordinates" d = Some coords ->
  convert_coordinates coords o w = Ok new_coords ->
  truthy new_coords = false ->
  to_latlon (PDict d) origin_espg = (Ok (PDict d), PDict d).
Proof.
  intros Hcode Ho Hw Hcoords Hconv Htruthy.
  unfold resolve_code in Hcode. unfold to_latlon.
  rewrite Hcode.
  destruct (n =? 0)%Z; [reflexivity|].
  rewrite Ho, Hw. cbn [bind]. unfold get. rewrite Hcoords. cbn [bind].
  rewrite Hconv, Htruthy. reflexivity.
Qed.

(** C7, as the code has it.  With no explicit code, [to_latlon] returns the
    geometry as it is whenever [epsg_code] returns no code ([None] or 0).
    [epsg_code] returns for a value that is no dictionary, for a dictionary
    without [crs] member and for every [crs] whose [properties.name] is a
    string; when it raises instead, on a [crs] member of another shape,
    [to_latlon] raises the same exception and the geometry is untouched. *)
Theorem to_latlon_unresolved `{Externals} (geojson : pyval) (origin_espg : option Z) :
  truthy_code origin_espg = false ->
  (forall code, epsg_code geojson = Ok code -> truthy_code code = false ->
                to_latlon geojson origin_espg = (Ok geojson, geojson))
  /\ (match geojson with PDict d => mem "crs" d = false | _ => True end ->
      epsg_code geojson = Ok None)
  /\ (forall s, crs_name geojson = Ok (PStr s) ->
                exists code, epsg_code geojson = Ok code)
  /\ (forall e, epsg_code geojson = Raise e ->
                to_latlon geojson origin_espg = (Raise e, geojson)).
Proof.
  intros Horigin. repeat split.
  - intros code Hcode Hfalsy.
    destruct geojson as [ | | | | | | | d]; try reflexivity.
    unfold to_latlon. rewrite Horigin, Hcode.
    destruct code as [n|]; [|reflexivity].
    simpl in Hfalsy. apply negb_false_iff in Hfalsy. rewrite Hfalsy. reflexivity.
  - apply epsg_code_no_crs.
  - intros s Hs.
    destruct geojson as [ | | | | | | | d]; try discriminate Hs.
    apply (epsg_code_named d s Hs).
  - intros e He.
    destruct geojson as [ | | | | | | | d]; try discriminate He.
    unfold to_latlon. rewrite Horigin, He. reflexivity.
Qed.

Lemma to_latlon_unresolved_witness :
  @to_latlon reference plain_point None = (Ok plain_point, plain_point).
Proof.
  apply (proj1 (@to_latlon_unresolved reference plain_point None eq_refl) None);
    reflexivity.
Defined.

(** C7 as stated fails: a null [crs] member gives no code, and the call
    raises. *)
Lemma to_latlon_null_crs_raises :
  @to_latlon reference null_crs_point None = (Raise TypeError, null_crs_point).
Proof. reflexivity. Qed.

(** *** Shape of the converted coordinates *)

Lemma except_IndexError_ok {A : Type} (m h : result A) (a : A) :
  m <> Raise IndexError -> except_IndexError m h = Ok a -> m = Ok a.
Proof.
  intros Hm. rewrite (except_IndexError_other m h Hm). trivial.
Qed.

(** The conversion of an element that is a list or a tuple. *)
Lemma convert_seq_element `{Externals} (c : pyval) (o w : proj) :
  is_seq c = true ->
  (x <- py_list c ;; convert_coordinates (PList x) o w) = convert_coordinates c o w.
Proof.
  intros Hc. rewrite <- convert_element_list.
  destruct c; try discriminate Hc; reflexivity.
Qed.

Lemma convert_elements_nesting `{Externals} (l : list pyval) (o w : proj) :
  Forall (fun c => wf_coords c = true ->
                   forall v, convert_coordinates c o w = Ok v ->
                             same_nesting c v = true) l ->
  forallb (fun c => is_seq c && wf_coords c) l = true ->
  forall vs,
    mapM (fun c => x <- py_list c ;; convert_coordinates (PList x) o w) l = Ok vs ->
    forall2b same_nesting l vs = true.
Proof.
  induction 1 as [|c l Hc Hl IH]; intros Hall vs Hvs.
  - inversion Hvs. reflexivity.
  - cbn [forallb] in Hall.
    apply andb_prop in Hall. destruct Hall as [Hcw Hall].
    apply andb_prop in Hcw. destruct Hcw as [Hseq Hwf].
    rewrite mapM_cons, (convert_seq_element c o w Hseq) in Hvs.
    destruct (convert_coordinates c o w) as [v|e] eqn:Hv; [|discriminate Hvs].
    cbn [bind] in Hvs.
    destruct (mapM _ l) as [vs'|e] eqn:Hvs'; [|discriminate Hvs].
    inversion Hvs; subst. cbn [forall2b].
    rewrite (Hc Hwf v eq_refl), (IH Hall vs' eq_refl). reflexivity.
Qed.

Lemma convert_items_nesting `{Externals} (c0 : pyval) (l : list pyval) (o w : proj)
      (new_coords : pyval) :
  (forall xs r, forallb is_float xs = true -> transform o w xs = Ok r ->
                forallb (fun y => negb (is_seq y)) r = true) ->
  (forall xs, transform o w xs <> Raise IndexError) ->
  Forall (fun c => wf_coords c = true ->
                   forall v, convert_coordinates c o w = Ok v ->
                             same_nesting c v = true) (c0 :: l) ->
  (if is_seq c0 then forallb (fun c => is_seq c && wf_coords c) (c0 :: l)
   else forallb is_float (c0 :: l)) = true ->
  convert_items (c0 :: l) o w = Ok new_coords ->
  exists lb, new_coords = PList lb
             /\ (if is_seq c0 then forall2b same_nesting (c0 :: l) lb
                 else forallb (fun y => negb (is_seq y)) lb) = true.
Proof.
  intros Hflat Hidx IH Hwf Hconv. unfold convert_items in Hconv.
  cbn [first bind] in Hconv. destruct (is_seq c0) eqn:Hc0.
  - apply except_IndexError_ok in Hconv.
    + destruct (mapM _ (c0 :: l)) as [vs|e] eqn:Hvs; [|discriminate Hconv].
      inversion Hconv; subst. exists vs. split; [reflexivity|].
      apply (convert_elements_nesting (c0 :: l) o w IH Hwf vs Hvs).
    + pose proof (convert_elements_no_IndexError (c0 :: l) o w) as Hm.
      destruct (mapM _ (c0 :: l)) as [vs|e]; cbn [bind]; [discriminate|].
      intros E. apply Hm. inversion E. reflexivity.
  - assert (Hf0 : is_float c0 = true).
    { cbn [forallb] in Hwf. apply andb_prop in Hwf. apply Hwf. }
    rewrite Hf0 in Hconv.
    destruct (transform o w (c0 :: l)) as [r|e] eqn:Hr.
    + cbn [bind except_IndexError] in Hconv. inversion Hconv; subst.
      exists r. split; [reflexivity|]. apply (Hflat _ _ Hwf Hr).
    + destruct e; try discriminate Hconv. contradiction (Hidx _ Hr).
Qed.

(** Well-formed coordinates come back nested as they were, as lists. *)
Lemma convert_coordinates_nesting `{Externals} (coords : pyval) (o w : proj) :
  (forall xs r, forallb is_float xs = true -> transform o w xs = Ok r ->
                forallb (fun y => negb (is_seq y)) r = true) ->
  (forall xs, transform o w xs <> Raise IndexError) ->
  wf_coords coords = true ->
  forall new_coords,
    convert_coordinates coords o w = Ok new_coords ->
    same_nesting coords new_coords = true.
Proof.
  intros Hflat Hidx.
  induction coords as [v Hv | l IH | l IH] using pyval_seq_ind.
  - intros Hwf. destruct v; try discriminate Hwf; discriminate Hv.
  - intros Hwf new_coords Hconv.
    rewrite (convert_coordinates_seq (PList l) l o w eq_refl) in Hconv.
    destruct l as [|c0 l]; [discriminate Hwf|].
    destruct (convert_items_nesting c0 l o w new_coords Hflat Hidx IH Hwf Hconv)
      as [lb [-> Hlb]].
    exact Hlb.
  - intros Hwf new_coords Hconv.
    rewrite (convert_coordinates_seq (PTuple l) l o w eq_refl) in Hconv.
    destruct l as [|c0 l]; [discriminate Hwf|].
    destruct (convert_items_nesting c0 l o w new_coords Hflat Hidx IH Hwf Hconv)
      as [lb [-> Hlb]].
    exact Hlb.
Qed.

(** C5, as the code has it.  When the EPSG code is resolved and the
    coordinates convert, [to_latlon] looks at the truth value of the
    converted coordinates.  If they are [None] or empty the geometry is
    returned as it is.  Otherwise the coordinates are replaced by the
    converted ones and [crs.properties.name] is the WGS84 URN, the [crs]
    member being created when absent.  Well-formed coordinates come back with
    the same nesting, every sequence being a list, when [transform] returns
    plain numbers and raises no [IndexError]. *)
Theorem to_latlon_converted `{Externals} (d : odict pyval) (origin_espg : option Z)
        (n : Z) (o w : proj) (coords new_coords : pyval) :
  resolve_code (PDict d) origin_espg = Ok (Some n) ->
  n <> 0%Z ->
  Proj n = Ok o ->
  Proj 4326 = Ok w ->
  lookup "coordinates" d = Some coords ->
  convert_coordinates coords o w = Ok new_coords ->
  (truthy new_coords = false ->
   to_latlon (PDict d) origin_espg = (Ok (PDict d), PDict d))
  /\ (truthy new_coords = true -> crs_writable d = true ->
      exists g,
        to_latlon (PDict d) origin_espg = (Ok (PDict g), PDict g)
        /\ lookup "coordinates" g = Some new_coords
        /\ crs_name (PDict g) = Ok (PStr wgs84_urn)
        /\ (forall k, k <> "coordinates" -> k <> "crs" -> lookup k g = lookup k d))
  /\ (wf_coords coords = true ->
      (forall xs r, forallb is_float xs = true -> transform o w xs = Ok r ->
                    forallb (fun y => negb (is_seq y)) r = true) ->
      (forall xs, transform o w xs <> Raise IndexError) ->
      same_nesting coords new_coords = true).
Proof.
  intros Hcode Hn Ho Hw Hcoords Hconv. split; [|split].
  - intros Hfalsy.
    apply (to_latlon_falsy d origin_espg n o w coords new_coords); assumption.
  - intros Htruthy Hcrs.
    apply (to_latlon_rewrites d origin_espg n o w coords new_coords); assumption.
  - intros Hwf Hflat Hidx.
    apply (convert_coordinates_nesting coords o w Hflat Hidx Hwf new_coords Hconv).
Qed.

Lemma floats_hold_no_sequence (xs : list pyval) :
  forallb is_float xs = true -> forallb (fun y => negb (is_seq y)) xs = true.
Proof.
  induction xs as [|x xs IH]; simpl; intros Hx.
  - reflexivity.
  - apply andb_prop in Hx. destruct Hx as [Hx Hxs].
    rewrite (IH Hxs). destruct x; try discriminate Hx. reflexivity.
Qed.

Lemma to_latlon_converted_witness :
  (exists g,
      @to_latlon reference (PDict utm_polygon) None = (Ok (PDict g), PDict g)
      /\ lookup "coordinates" g = Some (as_lists utm_ring)
      /\ crs_name (PDict g) = Ok (PStr wgs84_urn)
      /\ (forall k, k <> "coordinates" -> k <> "crs" ->
                    lookup k g = lookup k utm_polygon))
  /\ same_nesting utm_ring (as_lists utm_ring) = true.
Proof.
  destruct (@to_latlon_converted reference utm_polygon None 32632%Z
              32632%Z 4326%Z utm_ring (as_lists utm_ring)) as [_ [Hg Hnest]];
    try reflexivity; try discriminate.
  split.
  - apply Hg; reflexivity.
  - apply Hnest.
    + reflexivity.
    + intros xs r Hxs Hr. inversion Hr; subst.
      apply floats_hold_no_sequence, Hxs.
    + intros xs. discriminate.
Defined.

(** C5 as stated fails: the code of the tag is resolved, yet whole-number
    coordinates convert to [None] and the tag stays as it was. *)
Lemma to_latlon_whole_numbers_unchanged :
  @epsg_code reference utm_whole_point = Ok (Some 32632%Z)
  /\ @to_latlon reference utm_whole_point None = (Ok utm_whole_point, utm_whole_point)
  /\ crs_name utm_whole_point = Ok (PStr "urn:ogc:def:crs:EPSG:8.9:32632")
  /\ crs_name utm_whole_point <> Ok (PStr wgs84_urn).
Proof.
  repeat split. discriminate.
Qed.

(** *** A geometry that is in WGS84 already *)

Lemma convert_elements_identity `{Externals} (l : list pyval) (w : proj) :
  Forall (fun c => wf_coords c = true ->
                   convert_coordinates c w w = Ok (as_lists c)) l ->
  forallb (fun c => is_seq c && wf_coords c) l = true ->
  mapM (fun c => x <- py_list c ;; convert_coordinates (PList x) w w) l
  = Ok (map as_lists l).
Proof.
  induction 1 as [|c l Hc Hl IH]; intros Hall.
  - reflexivity.
  - cbn [forallb] in Hall.
    apply andb_prop in Hall. destruct Hall as [Hcw Hall].
    apply andb_prop in Hcw. destruct Hcw as [Hseq Hwf].
    rewrite mapM_cons, (convert_seq_element c w w Hseq), (Hc Hwf), (IH Hall).
    reflexivity.
Qed.

Lemma convert_items_identity `{Externals} (c0 : pyval) (l : list pyval) (w : proj) :
  (forall xs, forallb is_float xs = true -> transform w w xs = Ok xs) ->
  Forall (fun c => wf_coords c = true ->
                   convert_coordinates c w w = Ok (as_lists c)) (c0 :: l) ->
  (if is_seq c0 then forallb (fun c => is_seq c && wf_coords c) (c0 :: l)
   else forallb is_float (c0 :: l)) = true ->
  convert_items (c0 :: l) w w
  = Ok (if is_seq c0 then PList (map as_lists (c0 :: l)) else PList (c0 :: l)).
Proof.
  intros Hid IH Hwf. unfold convert_items. cbn [first bind].
  destruct (is_seq c0).
  - rewrite (convert_elements_identity (c0 :: l) w IH Hwf). reflexivity.
  - assert (Hf0 : is_float c0 = true).
    { cbn [forallb] in Hwf. apply andb_prop in Hwf. apply Hwf. }
    rewrite Hf0, (Hid _ Hwf). reflexivity.
Qed.

(** With a [transform] that returns the position it is given, well-formed
    coordinates convert to themselves, as lists. *)
Lemma convert_coordinates_identity `{Externals} (coords : pyval) (w : proj) :
  (forall xs, forallb is_float xs = true -> transform w w xs = Ok xs) ->
  wf_coords coords = true ->
  convert_coordinates coords w w = Ok (as_lists coords).
Proof.
  intros Hid.
  induction coords as [v Hv | l IH | l IH] using pyval_seq_ind.
  - intros Hwf. destruct v; try discriminate Hwf; discriminate Hv.
  - intros Hwf.
    rewrite (convert_coordinates_seq (PList l) l w w eq_refl).
    destruct l as [|c0 l]; [discriminate Hwf|].
    apply (convert_items_identity c0 l w Hid IH Hwf).
  - intros Hwf.
    rewrite (convert_coordinates_seq (PTuple l) l w w eq_refl).
    destruct l as [|c0 l]; [discriminate Hwf|].
    apply (convert_items_identity c0 l w Hid IH Hwf).
Qed.

Lemma wf_coords_truthy (coords : pyval) :
  wf_coords coords = true -> truthy (as_lists coords) = true.
Proof.
  destruct coords as [ | | | | | l | l | ]; try discriminate;
    destruct l as [|c0 l]; try discriminate; intros _; simpl;
    destruct (is_seq c0); reflexivity.
Qed.

(** C2, as the code has it.  For a geometry whose tag resolves to EPSG code
    4326, with well-formed coordinates and a [transform] that returns a
    WGS84 position unchanged, [to_latlon] keeps every coordinate value (the
    sequences become lists) and every other member, and sets
    [crs.properties.name] to the WGS84 URN: the tag is unchanged exactly when
    it was spelled that way. *)
Theorem to_latlon_wgs84 `{Externals} (d : odict pyval) (w : proj) (coords : pyval) :
  epsg_code (PDict d) = Ok (Some 4326%Z) ->
  Proj 4326 = Ok w ->
  lookup "coordinates" d = Some coords ->
  wf_coords coords = true ->
  (forall xs, forallb is_float xs = true -> transform w w xs = Ok xs) ->
  exists g,
    to_latlon (PDict d) None = (Ok (PDict g), PDict g)
    /\ lookup "coordinates" g = Some (as_lists coords)
    /\ (forall k, k <> "coordinates" -> k <> "crs" -> lookup k g = lookup k d)
    /\ crs_name (PDict g) = Ok (PStr wgs84_urn)
    /\ (crs_name (PDict g) = crs_name (PDict d)
        <-> crs_name (PDict d) = Ok (PStr wgs84_urn)).
Proof.
  intros Hcode Hw Hcoords Hwf Hid.
  destruct (epsg_code_some d _ Hcode) as [c [p [s [Hcrs [Hprops Hname]]]]].
  assert (Hwr : crs_writable d = true).
  { unfold crs_writable. rewrite Hcrs, Hprops. reflexivity. }
  destruct (to_latlon_rewrites d None 4326%Z w w coords (as_lists coords))
    as [g [Hg [Hc [Hn Hk]]]]; try assumption.
  - discriminate.
  - apply (convert_coordinates_identity coords w Hid Hwf).
  - apply (wf_coords_truthy coords Hwf).
  - exists g. repeat split; try assumption.
    + intros E. rewrite <- E. exact Hn.
    + intros E. rewrite E. exact Hn.
Qed.

Lemma to_latlon_wgs84_witness :
  exists g,
    @to_latlon reference (PDict epsg4326_point) None = (Ok (PDict g), PDict g)
    /\ lookup "coordinates" g = Some (PList [PFloat f1; PFloat f2])
    /\ (forall k, k <> "coordinates" -> k <> "crs" ->
                  lookup k g = lookup k epsg4326_point)
    /\ crs_name (PDict g) = Ok (PStr wgs84_urn)
    /\ (crs_name (PDict g) = crs_name (PDict epsg4326_point)
        <-> crs_name (PDict epsg4326_point) = Ok (PStr wgs84_urn)).
Proof.
  apply (@to_latlon_wgs84 reference epsg4326_point 4326%Z
           (PList [PFloat f1; PFloat f2])); try reflexivity.
Defined.

(** C2 as stated fails: the tag names EPSG:4326 and the coordinates stay,
    but the tag is rewritten. *)
Lemma to_latlon_rewrites_wgs84_tag :
  @epsg_code reference (PDict epsg4326_point) = Ok (Some 4326%Z)
  /\ crs_name (PDict epsg4326_point) = Ok (PStr "EPSG:4326")
  /\ crs_name (snd (@to_latlon reference (PDict epsg4326_point) None))
     = Ok (PStr "urn:ogc:def:crs:EPSG:8.9:4326")
  /\ getitem (snd (@to_latlon reference (PDict epsg4326_point) None)) "coordinates"
     = Ok (PList [PFloat f1; PFloat f2]).
Proof. repeat split. Qed.

(** ** Tile metadata *)

Lemma bindM_ok {A B : Type} (m : M A) (k : A -> M B) (s s' : store) (b : B) :
  bindM m k s = (Ok b, s') ->
  exists a s1, m s = (Ok a, s1) /\ k a s1 = (Ok b, s').
Proof.
  unfold bindM. destruct (m s) as [[a|e] s1]; intros Hk.
  - exists a, s1. split; [reflexivity | exact Hk].
  - discriminate Hk.
Qed.

Lemma get_ok {V : Type} (k : string) (d : odict V) (v : V) :
  get k d = Ok v -> lookup k d = Some v.
Proof.
  unfold get. destruct (lookup k d); intros E; inversion E. reflexivity.
Qed.

Lemma tile_get_ok (k : string) (s s1 : store) (v : pyval) :
  tile_get k s = (Ok v, s1) -> lookup k (s_tile s) = Some v /\ s1 = s.
Proof.
  unfold tile_get. intros E. injection E as Hv Hs. split; [|symmetry; exact Hs].
  apply get_ok, Hv.
Qed.

Lemma product_get_ok (k : string) (s s1 : store) (v : pyval) :
  product_get k s = (Ok v, s1) -> lookup k (s_product s) = Some v /\ s1 = s.
Proof.
  unfold product_get. intros E. injection E as Hv Hs. split; [|symmetry; exact Hs].
  apply get_ok, Hv.
Qed.

Lemma lift_ok {A : Type} (r : result A) (s s1 : store) (a : A) :
  lift r s = (Ok a, s1) -> r = Ok a /\ s1 = s.
Proof.
  unfold lift. intros E. injection E as Hr Hs. split; [exact Hr | symmetry; exact Hs].
Qed.

Lemma tile_pop_ok (k : string) (s s1 : store) (v : pyval) :
  tile_pop k s = (Ok v, s1) ->
  lookup k (s_tile s) = Some v
  /\ s1 = {| s_tile := remove k (s_tile s); s_product := s_product s |}.
Proof.
  unfold tile_pop, pop. destruct (lookup k (s_tile s)); intros E;
    [|discriminate E].
  injection E as Hv Hs. subst. split; reflexivity.
Qed.

Lemma product_pop_ok (k : string) (s s1 : store) (v : pyval) :
  product_pop k s = (Ok v, s1) ->
  lookup k (s_product s) = Some v
  /\ s1 = {| s_tile := s_tile s; s_product := remove k (s_product s) |}.
Proof.
  unfold product_pop, pop. destruct (lookup k (s_product s)); intros E;
    [|discriminate E].
  injection E as Hv Hs. subst. split; reflexivity.
Qed.

(** The reprojection touches the geometry keys only. *)
Lemma reproject_keeps `{Externals} (ks : list string) (key : string) :
  ~ In key ks ->
  forall meta s meta' s',
    reproject ks meta s = (Ok meta', s') ->
    lookup key meta' = lookup key meta.
Proof.
  induction ks as [|k0 ks IH]; intros Hnot meta s meta' s' Hr.
  - inversion Hr. reflexivity.
  - assert (Hne : key <> k0) by (intros ->; apply Hnot; left; reflexivity).
    assert (Hnot' : ~ In key ks) by (intros Hin; apply Hnot; right; exact Hin).
    cbn [reproject] in Hr. destruct (mem k0 meta).
    + apply bindM_ok in Hr. destruct Hr as [g [s1 [_ Hr]]].
      destruct (to_latlon g None) as [r g'].
      apply bindM_ok in Hr. destruct Hr as [u [s2 [_ Hr]]].
      apply bindM_ok in Hr. destruct Hr as [v [s3 [_ Hr]]].
      rewrite (IH Hnot' _ _ _ _ Hr). apply lookup_set_ne, Hne.
    + apply (IH Hnot' _ _ _ _ Hr).
Qed.

Lemma mapM_total {A B : Type} (g : A -> B) (l : list A) :
  mapM (fun a => Ok (g a)) l = Ok (map g l).
Proof.
  induction l as [|a l IH]; simpl.
  - reflexivity.
  - rewrite IH. reflexivity.
Qed.

Lemma update_keeps {V : Type} (k : string) (e d : odict V) :
  lookup k e = None -> lookup k (update d e) = lookup k d.
Proof.
  unfold update. revert d. induction e as [|[k' v'] e IH]; intros d Hk.
  - reflexivity.
  - simpl in Hk. cbn [fold_left fst snd].
    destruct (String.eqb_spec k k') as [->|Hne]; [discriminate Hk|].
    rewrite (IH _ Hk). apply lookup_set_ne, Hne.
Qed.

Lemma lookup_In {V : Type} (k : string) (v : V) (d : odict V) :
  lookup k d = Some v -> In (k, v) d.
Proof.
  induction d as [|[k' v'] d IH]; simpl; intros Hk.
  - discriminate Hk.
  - destruct (String.eqb_spec k k') as [->|Hne].
    + inversion Hk. left. reflexivity.
    + right. apply IH, Hk.
Qed.

Lemma In_keys {V : Type} (k : string) (v : V) (d : odict V) :
  In (k, v) d -> In k (keys d).
Proof.
  intros Hin. unfold keys. apply (in_map fst d (k, v) Hin).
Qed.

Lemma In_lookup {V : Type} (k : string) (v : V) (d : odict V) :
  NoDup (keys d) -> In (k, v) d -> lookup k d = Some v.
Proof.
  induction d as [|[k' v'] d IH]; simpl; intros Hnd Hin.
  - contradiction.
  - inversion Hnd as [|? ? Hnotin Hnd']; subst.
    destruct Hin as [E|Hin].
    + inversion E; subst. rewrite String.eqb_refl. reflexivity.
    + destruct (String.eqb_spec k k') as [->|Hne].
      * exfalso. apply Hnotin. apply (In_keys _ _ _ Hin).
      * apply IH; assumption.
Qed.

Lemma In_remove {V : Type} (k k' : string) (v : V) (d : odict V) :
  In (k, v) (remove k' d) -> In (k, v) d.
Proof.
  induction d as [|[k0 v0] d IH]; simpl; intros Hin.
  - contradiction.
  - destruct (String.eqb k' k0).
    + right. exact Hin.
    + destruct Hin as [E|Hin]; [left; exact E | right; apply IH, Hin].
Qed.

(** The value a renamed key ends with, when every entry renamed to it holds
    the same value. *)
Lemma rename_into_lookup (key : string) (x : pyval) (tile : odict pyval) :
  (forall k v, In (k, v) tile -> camelcase_underscore k = key -> v = x) ->
  forall meta,
    lookup key meta = Some x
    \/ (exists k v, In (k, v) tile /\ camelcase_underscore k = key) ->
    lookup key (rename_into meta tile) = Some x.
Proof.
  unfold rename_into.
  induction tile as [|[k0 v0] tile IH]; intros Hall meta Hsrc.
  - destruct Hsrc as [Hm|[k [v [[] _]]]]. exact Hm.
  - cbn [fold_left fst snd]. apply IH.
    + intros k v Hin. apply Hall. right. exact Hin.
    + destruct (String.eqb_spec (camelcase_underscore k0) key) as [E|Hne].
      * left. rewrite <- E at 1. rewrite lookup_set_eq.
        f_equal. apply (Hall k0 v0); [left; reflexivity | exact E].
      * destruct Hsrc as [Hm|[k [v [[Ekv|Hin] Hk]]]].
        -- left. rewrite lookup_set_ne by (intros E; apply Hne; symmetry; exact E).
           exact Hm.
        -- inversion Ekv; subst. contradiction.
        -- right. exists k, v. split; assumption.
Qed.

Ltac inv_bind H a Ha :=
  cbv beta zeta in H; apply bindM_ok in H; destruct H as [a [?s [Ha H]]].

Ltac inv_tile_get H a Ha :=
  inv_bind H a Ha; apply tile_get_ok in Ha; destruct Ha as [Ha ->].

Ltac inv_product_get H a Ha :=
  inv_bind H a Ha; apply product_get_ok in Ha; destruct Ha as [Ha ->].

Ltac inv_lift H a Ha :=
  inv_bind H a Ha; apply lift_ok in Ha; destruct Ha as [Ha ->].

Ltac inv_tile_pop H a Ha :=
  inv_bind H a Ha; apply tile_pop_ok in Ha; destruct Ha as [Ha ->].

Ltac inv_product_pop H a Ha :=
  inv_bind H a Ha; apply product_pop_ok in Ha; destruct Ha as [Ha ->].

(** The path the links are built from is the one of the tile record. *)
Lemma merged_path (tile product meta0 : odict pyval) (path : pyval) :
  NoDup (keys tile) ->
  lookup "path" tile = Some path ->
  (forall k, In k (keys tile) -> camelcase_underscore k = "path" -> k = "path") ->
  lookup "path" product = None ->
  lookup "path"
         (update (rename_into meta0 (remove "datastrip" tile))
                 (remove "band_list" (remove "tiles" product)))
  = Some path.
Proof.
  intros Hnd Hpath Honly Hprod.
  rewrite update_keeps.
  - apply rename_into_lookup.
    + intros k v Hin Hk. apply In_remove in Hin.
      pose proof (Honly k (In_keys _ _ _ Hin) Hk) as ->.
      rewrite (In_lookup _ _ _ Hnd Hin) in Hpath. inversion Hpath. reflexivity.
    + right. exists "path", path. split; [|reflexivity].
      apply lookup_In. rewrite lookup_remove_ne by discriminate. exact Hpath.
  - rewrite !lookup_remove_ne by discriminate. exact Hprod.
Qed.

Lemma links_of_path `{Externals} (meta : odict pyval) (path : pyval)
      (items links : list pyval) (url : pyval -> pyval -> string) :
  lookup "path" meta = Some path ->
  mapM (fun b => p <- get "path" meta ;; Ok (PStr (url p b))) items = Ok links ->
  links = map (fun b => PStr (url path b)) items.
Proof.
  intros Hpath Hl. unfold get in Hl. rewrite Hpath in Hl. cbn [bind] in Hl.
  rewrite (mapM_total (fun b => PStr (url path b)) items) in Hl.
  inversion Hl. reflexivity.
Qed.

Lemma only_path_spec (l : list string) :
  only_path l = true ->
  forall k, In k l -> camelcase_underscore k = "path" -> k = "path".
Proof.
  unfold only_path. intros Hall k Hin Hk.
  rewrite forallb_forall in Hall. specialize (Hall k Hin).
  rewrite Hk, String.eqb_refl in Hall. simpl in Hall.
  apply String.eqb_eq, Hall.
Qed.

Lemma nodupb_spec (l : list string) : nodupb l = true -> NoDup l.
Proof.
  induction l as [|k l IH]; intros Hl.
  - constructor.
  - cbn [nodupb] in Hl. apply andb_prop in Hl. destruct Hl as [Hk Hl].
    constructor; [|apply IH, Hl].
    intros Hin. apply negb_true_iff in Hk.
    unfold str_in in Hk.
    assert (Hex : existsb (String.eqb k) l = true).
    { apply existsb_exists. exists k. split; [exact Hin | apply String.eqb_refl]. }
    rewrite Hex in Hk. discriminate Hk.
Qed.

(** C10.  When the grid code is not a key of [product['tiles']], either
    [tile_metadata] raises [KeyError], and it does so before any key is
    popped: both dictionaries are as they were passed in, so [tiles],
    [band_list] and [datastrip] are still where they were. *)
Theorem tile_metadata_lookup_miss `{Externals} (tile product tiles : odict pyval)
        (zone band square : pyval) :
  lookup "utmZone" tile = Some zone ->
  lookup "latitudeBand" tile = Some band ->
  lookup "gridSquare" tile = Some square ->
  lookup "tiles" product = Some (PDict tiles) ->
  (lookup (grid_code zone band square) tiles = None ->
   tile_metadata {| s_tile := tile; s_product := product |}
   = (Raise KeyError, {| s_tile := tile; s_product := product |}))
  /\ (lookup (Scrawler.grid_code zone band square) tiles = None ->
      Scrawler.tile_metadata {| s_tile := tile; s_product := product |}
      = (Raise KeyError, {| s_tile := tile; s_product := product |})).
Proof.
  intros Hzone Hband Hsquare Htiles. split; intros Hmiss.
  - unfold tile_metadata, bindM, tile_get, product_get, lift, get.
    cbn [s_tile s_product]. rewrite Hzone, Hband, Hsquare, Htiles.
    cbn [getitem]. unfold get. rewrite Hmiss. reflexivity.
  - unfold Scrawler.tile_metadata, bindM, tile_get, product_get, lift, get.
    cbn [s_tile s_product]. rewrite Hzone, Hband, Hsquare, Htiles.
    cbn [getitem]. unfold get. rewrite Hmiss. reflexivity.
Qed.

Lemma tile_metadata_lookup_miss_witness :
  @tile_metadata reference stray = (Raise KeyError, stray)
  /\ @Scrawler.tile_metadata reference stray = (Raise KeyError, stray)
  /\ mem "tiles" (s_product stray) = true
  /\ mem "band_list" (s_product stray) = true
  /\ mem "datastrip" (s_tile stray) = true.
Proof.
  destruct (@tile_metadata_lookup_miss reference zone7_tile scenario_product
              [("T32TQM", PStr scenario_granule)] (PInt 7) (PStr "V") (PStr "EL")
              eq_refl eq_refl eq_refl eq_refl) as [Hs3 Hscrawler].
  split; [apply Hs3; reflexivity|].
  split; [apply Hscrawler; reflexivity|].
  repeat split.
Defined.

(** Every exception before the pops leaves the two dictionaries alone; one
    raised later does not: without [datastrip] the product has lost
    [tiles]. *)
Example tile_metadata_without_datastrip :
  let s := {| s_tile := remove "datastrip" scenario_tile;
              s_product := scenario_product |} in
  fst (@tile_metadata reference s) = Raise KeyError
  /\ mem "tiles" (s_product (snd (@tile_metadata reference s))) = false.
Proof. split; reflexivity. Qed.

(** * Further properties of the code *)

(** ** The normalizer, pass by pass *)

Lemma re_sub_from_skip (m : string -> option (string * nat)) (s : string) (k : nat) :
  re_sub_from m k s = re_sub_from m 0 (drop k s).
Proof.
  revert k. induction s as [|c t IH]; intros [|k]; try reflexivity.
  cbn [re_sub_from drop]. apply IH.
Qed.

Lemma upper_not_lower_or_digit (u : ascii) :
  is_upper u = true -> is_lower u || is_digit u = false.
Proof.
  destruct u as [[] [] [] [] [] [] [] []]; simpl; intros Hu;
    try reflexivity; discriminate Hu.
Qed.

Lemma lower_not_upper (l : ascii) : is_lower l = true -> is_upper l = false.
Proof.
  destruct l as [[] [] [] [] [] [] [] []]; simpl; intros Hl;
    try reflexivity; discriminate Hl.
Qed.

Lemma re_sub_step_none (m : string -> option (string * nat)) (c : ascii) (t : string) :
  m (String c t) = None -> re_sub m (String c t) = String c (re_sub m t).
Proof.
  intros Hm. unfold re_sub. cbn [re_sub_from]. rewrite Hm. reflexivity.
Qed.

Lemma re_sub_step_some (m : string -> option (string * nat)) (c : ascii) (t r : string)
      (n : nat) :
  m (String c t) = Some (r, n) ->
  re_sub m (String c t) = (r ++ re_sub m (drop (Nat.pred n) t))%string.
Proof.
  intros Hm. unfold re_sub. cbn [re_sub_from]. rewrite Hm.
  rewrite (re_sub_from_skip m t (Nat.pred n)). reflexivity.
Qed.

(** The second pattern puts an underscore between a lower-case letter or a
    digit and a capital, everywhere. *)
Lemma re_sub_match_hump (s : string) : re_sub match_hump s = humps s.
Proof.
  assert (Hn : forall n s, (String.length s <= n)%nat -> re_sub match_hump s = humps s).
  { clear s. induction n as [|n IH]; intros s Hlen.
    - destruct s; [reflexivity | simpl in Hlen; lia].
    - destruct s as [|c t]; [reflexivity|].
      cbn [humps].
      destruct (match_hump (String c t)) as [[r k]|] eqn:Hm.
      + rewrite (re_sub_step_some _ _ _ _ _ Hm).
        destruct t as [|u t]; [discriminate Hm|].
        cbn [match_hump] in Hm. cbn [starts_upper].
        destruct ((is_lower c || is_digit c) && is_upper u) eqn:Hcu;
          [|discriminate Hm].
        inversion Hm; subst.
        apply andb_prop in Hcu. destruct Hcu as [_ Hu].
        cbn [Nat.pred drop String.append humps].
        rewrite (upper_not_lower_or_digit u Hu). cbn [andb].
        rewrite (IH t) by (simpl in Hlen; lia). reflexivity.
      + rewrite (re_sub_step_none _ _ _ Hm).
        rewrite (IH t) by (simpl in Hlen; lia).
        destruct t as [|u t].
        * cbn [starts_upper]. rewrite andb_false_r. reflexivity.
        * cbn [match_hump] in Hm. cbn [starts_upper].
          destruct ((is_lower c || is_digit c) && is_upper u);
            [discriminate Hm | reflexivity]. }
  apply (Hn (String.length s)). lia.
Qed.

Lemma lower_run_split (x : string) :
  x = (lower_run x ++ drop (String.length (lower_run x)) x)%string.
Proof.
  induction x as [|c t IH]; simpl.
  - reflexivity.
  - destruct (is_lower c); simpl; [f_equal; exact IH | reflexivity].
Qed.

Lemma lower_run_all_lower (x : string) : all_lower (lower_run x) = true.
Proof.
  induction x as [|c t IH]; simpl.
  - reflexivity.
  - destruct (is_lower c) eqn:Hc; simpl; [rewrite Hc; exact IH | reflexivity].
Qed.

Lemma drop_length_le (k : nat) (s : string) :
  (String.length (drop k s) <= String.length s)%nat.
Proof.
  revert s. induction k as [|k IH]; intros [|c t]; simpl; try lia.
  specialize (IH t). lia.
Qed.

(** The first pattern, one step: no match at the head, or a match that takes
    a character, a capital and the lower-case run after it. *)
Lemma re_sub_match_word_none (c : ascii) (t : string) :
  match_word (String c t) = None ->
  re_sub match_word (String c t) = String c (re_sub match_word t).
Proof.
  intros Hm. unfold re_sub. cbn [re_sub_from]. rewrite Hm. reflexivity.
Qed.

Lemma re_sub_match_word_some (c u l : ascii) (rest : string) :
  negb (Ascii.eqb c newline) && is_upper u && is_lower l = true ->
  let run := lower_run (String l rest) in
  re_sub match_word (String c (String u (String l rest)))
  = String c (String "_" (String u
       (run ++ re_sub match_word (drop (String.length run) (String l rest)))))%string.
Proof.
  intros Hm run.
  rewrite (re_sub_step_some match_word c (String u (String l rest))
             (String c (String "_" (String u run))) (2 + String.length run)).
  - reflexivity.
  - cbn [match_word]. rewrite Hm. reflexivity.
Qed.

Lemma re_sub_match_word_head (s : string) :
  starts_upper (re_sub match_word s) = starts_upper s.
Proof.
  destruct s as [|c t]; [reflexivity|].
  unfold re_sub. cbn [re_sub_from].
  destruct (match_word (String c t)) as [[r n]|] eqn:Hm; [|reflexivity].
  destruct t as [|u [|l rest]]; try discriminate Hm.
  cbn [match_word] in Hm.
  destruct (negb (Ascii.eqb c newline) && is_upper u && is_lower l);
    [|discriminate Hm].
  inversion Hm; subst. reflexivity.
Qed.

(** After a lower-case run, an underscore comes exactly before a capital. *)
Lemma humps_after_run (a : ascii) (run x : string) :
  all_lower (String a run) = true ->
  humps (String a run ++ x)
  = (String a run ++ (if starts_upper x then String "_" (humps x) else humps x))%string.
Proof.
  revert a. induction run as [|b run IH]; intros a Hall.
  - cbn [all_lower] in Hall. apply andb_prop in Hall. destruct Hall as [Ha _].
    cbn [String.append humps]. rewrite Ha. reflexivity.
  - cbn [all_lower] in Hall. apply andb_prop in Hall. destruct Hall as [Ha Hall].
    assert (Hb : is_lower b = true).
    { cbn [all_lower] in Hall. apply andb_prop in Hall. apply Hall. }
    change (String a (String b run) ++ x)%string
      with (String a (String b run ++ x))%string.
    cbn [humps]. rewrite (IH b Hall).
    cbn [String.append starts_upper]. rewrite (lower_not_upper b Hb), andb_false_r.
    reflexivity.
Qed.

Lemma underscored_after_run (a : ascii) (run x : string) :
  all_lower (String a run) = true ->
  underscored (String a run ++ x)
  = (String a run
     ++ (if starts_upper x then String "_" (underscored x) else underscored x))%string.
Proof.
  revert a. induction run as [|b run IH]; intros a Hall.
  - cbn [all_lower] in Hall. apply andb_prop in Hall. destruct Hall as [Ha _].
    cbn [String.append underscored]. unfold hump. rewrite Ha.
    cbn [orb]. rewrite andb_true_r. reflexivity.
  - cbn [all_lower] in Hall. apply andb_prop in Hall. destruct Hall as [Ha Hall].
    assert (Hb : is_lower b = true).
    { cbn [all_lower] in Hall. apply andb_prop in Hall. apply Hall. }
    change (String a (String b run) ++ x)%string
      with (String a (String b run ++ x))%string.
    cbn [underscored]. rewrite (IH b Hall).
    unfold hump at 1. cbn [String.append starts_upper].
    rewrite (lower_not_upper b Hb). reflexivity.
Qed.

Lemma hump_without_word (c : ascii) (t : string) :
  match_word (String c t) = None ->
  hump c t = (is_lower c || is_digit c) && starts_upper t.
Proof.
  unfold hump. destruct t as [|u [|l rest]]; cbn [match_word starts_upper second_lower].
  - intros _. cbn [andb]. rewrite andb_false_r. reflexivity.
  - intros _. rewrite andb_false_r, orb_false_r. apply andb_comm.
  - destruct (negb (Ascii.eqb c newline)), (is_upper u), (is_lower l),
      (is_lower c || is_digit c); simpl; intros Hm;
      try reflexivity; discriminate Hm.
Qed.

Lemma two_passes (s : string) :
  humps (re_sub match_word s) = underscored s.
Proof.
  assert (Hn : forall n s, (String.length s <= n)%nat ->
                           humps (re_sub match_word s) = underscored s).
  { clear s. induction n as [|n IH]; intros s Hlen.
    - destruct s; [reflexivity | simpl in Hlen; lia].
    - destruct s as [|c t]; [reflexivity|].
      destruct (match_word (String c t)) as [[r k]|] eqn:Hm.
      + destruct t as [|u [|l rest]]; try discriminate Hm.
        cbn [match_word] in Hm.
        destruct (negb (Ascii.eqb c newline) && is_upper u && is_lower l) eqn:Hc;
          [|discriminate Hm].
        clear Hm r k.
        rewrite (re_sub_match_word_some c u l rest Hc). cbv zeta.
        apply andb_prop in Hc. destruct Hc as [Hc Hl].
        apply andb_prop in Hc. destruct Hc as [Hc Hu].
        pose proof (lower_run_split (String l rest)) as Hsplit.
        pose proof (lower_run_all_lower (String l rest)) as Hall.
        pose proof (drop_length_le (String.length (lower_run (String l rest)))
                                   (String l rest)) as Hdrop.
        set (rest' := drop (String.length (lower_run (String l rest)))
                           (String l rest)) in *.
        assert (Hrun : exists run', lower_run (String l rest) = String l run').
        { cbn [lower_run]. rewrite Hl. eexists. reflexivity. }
        destruct Hrun as [run' Hrun]. rewrite Hrun in *.
        (* the side of the code *)
        cbn [humps starts_upper].
        rewrite andb_false_r.
        replace (is_upper "_") with false by reflexivity.
        replace (is_lower "_" || is_digit "_") with false by reflexivity.
        cbn [andb].
        rewrite (upper_not_lower_or_digit u Hu). cbn [andb].
        rewrite (humps_after_run l run' _ Hall).
        rewrite (re_sub_match_word_head rest').
        rewrite (IH rest') by (simpl in Hlen, Hdrop; lia).
        (* the side of the one-pass reading *)
        cbn [underscored]. unfold hump at 1 2.
        cbn [starts_upper second_lower].
        rewrite Hu, Hc, Hl, (lower_not_upper l Hl).
        rewrite !orb_true_r. cbn [andb].
        change (String l (if hump l rest then String "_" (underscored rest)
                          else underscored rest))
          with (underscored (String l rest)).
        rewrite Hsplit.
        rewrite (underscored_after_run l run' rest' Hall).
        reflexivity.
      + rewrite (re_sub_step_none _ _ _ Hm).
        cbn [humps underscored].
        rewrite (re_sub_match_word_head t), (hump_without_word c t Hm).
        rewrite (IH t) by (simpl in Hlen; lia). reflexivity. }
  apply (Hn (String.length s)). lia.
Qed.

Lemma camelcase_underscore_underscored (s : string) :
  camelcase_underscore s = lower (underscored s).
Proof.
  unfold camelcase_underscore. cbv zeta.
  rewrite re_sub_match_hump, two_passes. reflexivity.
Qed.

(** The two substitutions amount to one pass: an underscore goes before
    every capital that follows a lower-case letter or a digit, and before
    every capital that is followed by a lower-case letter and follows a
    character other than a newline; then the name is lower-cased. *)
Theorem camelcase_underscore_one_pass (s : string) :
  camelcase_underscore s = lower (underscored s).
Proof.
  apply camelcase_underscore_underscored.
Qed.

Lemma lower_char_underscore (c : ascii) :
  Ascii.eqb (lower_char c) "_" = Ascii.eqb c "_".
Proof.
  destruct c as [[] [] [] [] [] [] [] []]; reflexivity.
Qed.

Lemma remove_underscore_lower (s : string) :
  remove_char "_" (lower s) = lower (remove_char "_" s).
Proof.
  induction s as [|c t IH]; simpl.
  - reflexivity.
  - rewrite lower_char_underscore. destruct (Ascii.eqb c "_"); simpl; rewrite IH;
      reflexivity.
Qed.

Lemma remove_underscore_underscored (s : string) :
  remove_char "_" (underscored s) = remove_char "_" s.
Proof.
  induction s as [|c t IH]; simpl.
  - reflexivity.
  - destruct (hump c t); simpl; rewrite IH; reflexivity.
Qed.

Lemma underscored_length (s : string) :
  (String.length s <= String.length (underscored s))%nat.
Proof.
  induction s as [|c t IH]; simpl.
  - lia.
  - destruct (hump c t); simpl; lia.
Qed.

Lemma lower_length (s : string) : String.length (lower s) = String.length s.
Proof.
  induction s as [|c t IH]; simpl; [reflexivity | rewrite IH; reflexivity].
Qed.

(** The normalizer adds underscores and lower-cases, nothing else: without
    its underscores the output is the lower-cased input without its own, it
    holds no capital and is at least as long as the input. *)
Theorem camelcase_underscore_only_underscores (s : string) :
  remove_char "_" (camelcase_underscore s) = lower (remove_char "_" s)
  /\ no_upper (camelcase_underscore s) = true
  /\ (String.length s <= String.length (camelcase_underscore s))%nat.
Proof.
  split; [|split].
  - rewrite camelcase_underscore_underscored, remove_underscore_lower,
      remove_underscore_underscored. reflexivity.
  - apply camelcase_underscore_no_upper.
  - rewrite camelcase_underscore_underscored, lower_length.
    apply underscored_length.
Qed.

(** *** Camel-case names *)

Lemma lower_app (a b : string) : lower (a ++ b) = (lower a ++ lower b)%string.
Proof.
  induction a as [|c t IH]; simpl; [reflexivity | rewrite IH; reflexivity].
Qed.

Lemma all_lower_no_upper (w : string) : all_lower w = true -> no_upper w = true.
Proof.
  induction w as [|c t IH]; simpl; intros Hw.
  - reflexivity.
  - apply andb_prop in Hw. destruct Hw as [Hc Ht].
    rewrite (lower_not_upper c Hc), (IH Ht). reflexivity.
Qed.

Lemma camel_words_head (ws : list (ascii * string)) :
  forallb capitalised ws = true ->
  starts_upper (camel_words ws) = match ws with [] => false | _ => true end.
Proof.
  destruct ws as [|[u w] ws]; simpl; intros Hws.
  - reflexivity.
  - apply andb_prop in Hws. destruct Hws as [Hu _].
    unfold capitalised in Hu. apply andb_prop in Hu. apply Hu.
Qed.

Lemma underscored_camel_words (ws : list (ascii * string)) :
  forallb capitalised ws = true ->
  lower (match ws with
         | [] => underscored (camel_words ws)
         | _ => String "_" (underscored (camel_words ws))
         end)
  = snake_words ws.
Proof.
  induction ws as [|[u w] ws IH]; intros Hws.
  - reflexivity.
  - cbn [forallb] in Hws. apply andb_prop in Hws. destruct Hws as [Huw Hws].
    unfold capitalised in Huw. cbn [fst snd] in Huw.
    apply andb_prop in Huw. destruct Huw as [Hu Hw].
    destruct w as [|a w]; [discriminate Hw|].
    assert (Ha : is_lower a = true).
    { cbn [all_lower] in Hw. apply andb_prop in Hw. apply Hw. }
    cbn [camel_words snake_words underscored].
    unfold hump at 1. cbn [String.append starts_upper].
    rewrite (lower_not_upper a Ha). cbn [andb].
    change (String a (w ++ camel_words ws))%string
      with (String a w ++ camel_words ws)%string.
    rewrite (underscored_after_run a w _ Hw), (camel_words_head ws Hws).
    cbn [lower]. rewrite lower_app.
    rewrite (lower_fixed _ (all_lower_no_upper _ Hw)).
    specialize (IH Hws). destruct ws as [|uw ws]; rewrite IH; reflexivity.
Qed.

(** A camel-case name, a lower-case word followed by capitalised words,
    becomes the same words in lower case joined by underscores. *)
Theorem camelcase_underscore_words (w0 : string) (ws : list (ascii * string)) :
  w0 <> EmptyString ->
  all_lower w0 = true ->
  forallb capitalised ws = true ->
  camelcase_underscore (w0 ++ camel_words ws) = (w0 ++ snake_words ws)%string.
Proof.
  intros Hne Hw0 Hws. rewrite camelcase_underscore_underscored.
  destruct w0 as [|a w]; [contradiction Hne; reflexivity|].
  rewrite (underscored_after_run a w _ Hw0), (camel_words_head ws Hws).
  rewrite lower_app, (lower_fixed _ (all_lower_no_upper _ Hw0)).
  f_equal. rewrite <- (underscored_camel_words ws Hws).
  destruct ws; reflexivity.
Qed.

Lemma camelcase_underscore_words_witness :
  camelcase_underscore "tileDataGeometry" = "tile_data_geometry".
Proof.
  apply (camelcase_underscore_words "tile"
           [("D"%char, "ata"); ("G"%char, "eometry")]);
    [discriminate | reflexivity | reflexivity].
Defined.

(** ** The EPSG code of a geometry *)

Lemma item_m1_last {A : Type} (l : list A) (d : A) :
  l <> [] -> item_m1 l = Ok (last l d).
Proof.
  intros Hl. unfold item_m1.
  destruct (exists_last Hl) as [l' [a ->]].
  rewrite rev_app_distr, last_last. reflexivity.
Qed.

Lemma epsg_code_string_name `{Externals} (d : odict pyval) (s : string) :
  crs_name (PDict d) = Ok (PStr s) ->
  epsg_code (PDict d)
  = Ok (if str_in "EPSG" (split ":" s)
        then py_int (last (split ":" s) EmptyString)
        else None).
Proof.
  intros Hn.
  assert (Hm : mem "crs" d = true).
  { unfold crs_name in Hn. cbn [getitem] in Hn. unfold get, mem in *.
    destruct (lookup "crs" d); [reflexivity | discriminate Hn]. }
  rewrite (epsg_code_crs d Hm), Hn. cbn [bind split_method].
  destruct (str_in "EPSG" (split ":" s)); [|reflexivity].
  rewrite (item_m1_last _ EmptyString (split_nonempty ":" s)).
  cbn [bind int_of]. destruct (py_int _); reflexivity.
Qed.

(** When [crs.properties.name] is a string, [epsg_code] returns: the value
    is what [int] reads in the last segment of the name between colons when
    one of the segments is [EPSG], in capitals, and [None] otherwise, also
    when [int] cannot read the last segment. *)
Theorem epsg_code_of_name `{Externals} (d : odict pyval) (s : string) :
  crs_name (PDict d) = Ok (PStr s) ->
  epsg_code (PDict d)
  = Ok (if str_in "EPSG" (split ":" s)
        then py_int (last (split ":" s) EmptyString)
        else None).
Proof.
  apply epsg_code_string_name.
Qed.

Lemma epsg_code_of_name_witness :
  @epsg_code reference (PDict utm_polygon) = Ok (Some 32632%Z)
  /\ @epsg_code reference
       (PDict [("crs", named_crs "urn:ogc:def:crs:epsg:8.9:32632")]) = Ok None
  /\ @epsg_code reference
       (PDict [("crs", named_crs "urn:ogc:def:crs:EPSG:8.9:CRS84")]) = Ok None.
Proof.
  split; [|split].
  - apply (@epsg_code_of_name reference utm_polygon
             "urn:ogc:def:crs:EPSG:8.9:32632"). reflexivity.
  - apply (@epsg_code_of_name reference
             [("crs", named_crs "urn:ogc:def:crs:epsg:8.9:32632")]
             "urn:ogc:def:crs:epsg:8.9:32632"). reflexivity.
  - apply (@epsg_code_of_name reference
             [("crs", named_crs "urn:ogc:def:crs:EPSG:8.9:CRS84")]
             "urn:ogc:def:crs:EPSG:8.9:CRS84"). reflexivity.
Defined.

(** With a [crs] member whose name cannot be reached, [epsg_code] raises the
    exception of the failing subscript; with a name that is no string it
    raises [AttributeError]. *)
Theorem epsg_code_malformed_crs `{Externals} (d : odict pyval) :
  mem "crs" d = true ->
  (forall e, crs_name (PDict d) = Raise e -> epsg_code (PDict d) = Raise e)
  /\ (forall v, crs_name (PDict d) = Ok v ->
                match v with PStr _ => False | _ => True end ->
                epsg_code (PDict d) = Raise AttributeError).
Proof.
  intros Hm. rewrite (epsg_code_crs d Hm). split.
  - intros e ->. reflexivity.
  - intros v -> Hv. destruct v; try reflexivity. contradiction.
Qed.

Lemma epsg_code_malformed_crs_witness :
  @epsg_code reference null_crs_point = Raise TypeError
  /\ @epsg_code reference
       (PDict [("crs", PDict [("properties", PDict [("name", PInt 4326)])])])
     = Raise AttributeError.
Proof.
  split.
  - apply (proj1 (@epsg_code_malformed_crs reference
                    [ ("type", PStr "Point"); ("crs", PNone);
                      ("coordinates", PList [PFloat f1; PFloat f2]) ] eq_refl)).
    reflexivity.
  - apply (proj2 (@epsg_code_malformed_crs reference
                    [("crs", PDict [("properties", PDict [("name", PInt 4326)])])]
                    eq_refl) (PInt 4326)); [reflexivity | exact I].
Defined.

(** ** What reprojection leaves alone *)

Lemma mem_set_keeps {V : Type} (k k' : string) (v : V) (d : odict V) :
  mem k d = true -> mem k (set k' v d) = true.
Proof.
  intros Hk. destruct (String.eqb_spec k k') as [->|Hne].
  - unfold mem. rewrite lookup_set_eq. reflexivity.
  - rewrite (mem_set_ne k k' v d Hne). exact Hk.
Qed.

Lemma to_latlon_invariant `{Externals} (d : odict pyval) (origin_espg : option Z)
        (r : result pyval) (g' : pyval) :
  to_latlon (PDict d) origin_espg = (r, g') ->
  exists d',
    g' = PDict d'
    /\ (forall k, k <> "coordinates" -> k <> "crs" -> lookup k d' = lookup k d)
    /\ (forall k, mem k d = true -> mem k d' = true)
    /\ (forall v, r = Ok v -> v = g').
Proof.
  assert (Hsame : forall r0 : result pyval,
             (r0 = Ok (PDict d) \/ exists e, r0 = Raise e) ->
             (r0, PDict d) = (r, g') ->
             exists d', g' = PDict d'
               /\ (forall k, k <> "coordinates" -> k <> "crs" ->
                             lookup k d' = lookup k d)
               /\ (forall k, mem k d = true -> mem k d' = true)
               /\ (forall v, r = Ok v -> v = g')).
  { intros r0 Hr0 E. inversion E; subst. exists d. repeat split; try tauto.
    intros v Hv. destruct Hr0 as [->|[e ->]]; [|discriminate Hv].
    inversion Hv. reflexivity. }
  unfold to_latlon.
  destruct (if truthy_code origin_espg then Ok origin_espg
            else epsg_code (PDict d)) as [code|e];
    [|apply Hsame; right; eexists; reflexivity].
  destruct code as [n|]; [|apply Hsame; left; reflexivity].
  destruct (n =? 0)%Z; [apply Hsame; left; reflexivity|].
  destruct (origin <- Proj n ;; wgs84 <- Proj 4326 ;;
            coords <- get "coordinates" d ;;
            convert_coordinates coords origin wgs84) as [new_coords|e];
    [|apply Hsame; right; eexists; reflexivity].
  destruct (truthy new_coords); [|apply Hsame; left; reflexivity].
  destruct (negb (mem "crs" (set "coordinates" new_coords d))).
  - intros E. inversion E; subst. eexists. split; [reflexivity|].
    repeat split.
    + intros k Hk1 Hk2. rewrite !lookup_set_ne by assumption. reflexivity.
    + intros k Hk. apply mem_set_keeps, mem_set_keeps, Hk.
    + intros v Hv. inversion Hv. reflexivity.
  - destruct (get "crs" (set "coordinates" new_coords d)) as [crs|e];
      cbn [bind].
    + destruct (getitem crs "properties") as [props|e]; cbn [bind].
      * destruct (setitem props "name" (PStr wgs84_urn)) as [props'|e]; cbn [bind].
        -- destruct (setitem crs "properties" props') as [crs'|e]; cbn [bind].
           ++ intros E. inversion E; subst. eexists. split; [reflexivity|].
              repeat split.
              ** intros k Hk1 Hk2. rewrite !lookup_set_ne by assumption.
                 reflexivity.
              ** intros k Hk. apply mem_set_keeps, mem_set_keeps, Hk.
              ** intros v Hv. inversion Hv. reflexivity.
           ++ intros E. inversion E; subst. eexists. split; [reflexivity|].
              repeat split.
              ** intros k Hk1 Hk2. rewrite !lookup_set_ne by assumption.
                 reflexivity.
              ** intros k Hk. apply mem_set_keeps, Hk.
              ** intros v Hv. discriminate Hv.
        -- intros E. inversion E; subst. eexists. split; [reflexivity|].
           repeat split.
           ++ intros k Hk1 Hk2. rewrite !lookup_set_ne by assumption.
              reflexivity.
           ++ intros k Hk. apply mem_set_keeps, Hk.
           ++ intros v Hv. discriminate Hv.
      * intros E. inversion E; subst. eexists. split; [reflexivity|].
        repeat split.
        -- intros k Hk1 Hk2. rewrite !lookup_set_ne by assumption. reflexivity.
        -- intros k Hk. apply mem_set_keeps, Hk.
        -- intros v Hv. discriminate Hv.
    + intros E. inversion E; subst. eexists. split; [reflexivity|].
      repeat split.
      * intros k Hk1 Hk2. rewrite !lookup_set_ne by assumption. reflexivity.
      * intros k Hk. apply mem_set_keeps, Hk.
      * intros v Hv. discriminate Hv.
Qed.

(** Whatever the outcome, [to_latlon] leaves a dictionary that has every
    member it had, with the same value for all but [coordinates] and [crs];
    and what it returns is that dictionary. *)
Theorem to_latlon_frame `{Externals} (d : odict pyval) (origin_espg : option Z)
        (r : result pyval) (g' : pyval) :
  to_latlon (PDict d) origin_espg = (r, g') ->
  exists d',
    g' = PDict d'
    /\ (forall k, k <> "coordinates" -> k <> "crs" -> lookup k d' = lookup k d)
    /\ (forall k, mem k d = true -> mem k d' = true)
    /\ (forall v, r = Ok v -> v = g').
Proof.
  apply to_latlon_invariant.
Qed.

Lemma to_latlon_frame_witness :
  exists d',
    snd (@to_latlon reference (PDict utm_polygon) None) = PDict d'
    /\ (forall k, k <> "coordinates" -> k <> "crs" ->
                  lookup k d' = lookup k utm_polygon)
    /\ (forall k, mem k utm_polygon = true -> mem k d' = true)
    /\ (forall v, fst (@to_latlon reference (PDict utm_polygon) None) = Ok v ->
                  v = snd (@to_latlon reference (PDict utm_polygon) None)).
Proof.
  apply (@to_latlon_frame reference utm_polygon None).
  apply surjective_pairing.
Defined.

(** ** Exceptions of the reprojection *)

(** An exception raised before the new coordinates are stored, by [Proj], by
    a missing [coordinates] member or by the conversion, leaves the geometry
    as it was. *)
Theorem to_latlon_raises_untouched `{Externals} (d : odict pyval)
        (origin_espg : option Z) (n : Z) :
  resolve_code (PDict d) origin_espg = Ok (Some n) ->
  n <> 0%Z ->
  (forall e, Proj n = Raise e ->
             to_latlon (PDict d) origin_espg = (Raise e, PDict d))
  /\ (forall o e, Proj n = Ok o -> Proj 4326 = Raise e ->
                  to_latlon (PDict d) origin_espg = (Raise e, PDict d))
  /\ (forall o w, Proj n = Ok o -> Proj 4326 = Ok w ->
                  lookup "coordinates" d = None ->
                  to_latlon (PDict d) origin_espg = (Raise KeyError, PDict d))
  /\ (forall o w coords e,
         Proj n = Ok o -> Proj 4326 = Ok w ->
         lookup "coordinates" d = Some coords ->
         convert_coordinates coords o w = Raise e ->
         to_latlon (PDict d) origin_espg = (Raise e, PDict d)).
Proof.
  intros Hcode Hn. unfold resolve_code in Hcode.
  assert (Hz : (n =? 0)%Z = false) by (apply Z.eqb_neq, Hn).
  repeat split.
  - intros e He. unfold to_latlon. rewrite Hcode, Hz, He. reflexivity.
  - intros o e Ho He. unfold to_latlon. rewrite Hcode, Hz, Ho, He. reflexivity.
  - intros o w Ho Hw Hc. unfold to_latlon, get.
    rewrite Hcode, Hz, Ho, Hw, Hc. reflexivity.
  - intros o w coords e Ho Hw Hc He. unfold to_latlon, get.
    rewrite Hcode, Hz, Ho, Hw, Hc. cbn [bind]. rewrite He. reflexivity.
Qed.

Lemma to_latlon_raises_untouched_witness :
  @to_latlon reference (PDict utm_collection) None
  = (Raise KeyError, PDict utm_collection).
Proof.
  apply (proj1 (proj2 (proj2 (@to_latlon_raises_untouched reference
                                utm_collection None 32632%Z eq_refl
                                ltac:(discriminate))))
           32632%Z 4326%Z); reflexivity.
Defined.

(** With an explicit code and a [crs] member in which no name can be stored,
    the call raises after the coordinates have been replaced: the geometry
    is left with the new coordinates and the old tag. *)
Theorem to_latlon_half_done `{Externals} (d : odict pyval) (origin_espg : option Z)
        (n : Z) (o w : proj) (coords new_coords : pyval) :
  resolve_code (PDict d) origin_espg = Ok (Some n) ->
  n <> 0%Z ->
  Proj n = Ok o ->
  Proj 4326 = Ok w ->
  lookup "coordinates" d = Some coords ->
  convert_coordinates coords o w = Ok new_coords ->
  truthy new_coords = true ->
  crs_writable d = false ->
  exists e,
    to_latlon (PDict d) origin_espg
    = (Raise e, PDict (set "coordinates" new_coords d))
    /\ (e = TypeError \/ e = KeyError).
Proof.
  intros Hcode Hn Ho Hw Hcoords Hconv Htruthy Hcrs.
  unfold resolve_code in Hcode. unfold to_latlon.
  rewrite Hcode.
  destruct (Z.eqb_spec n 0) as [E|_]; [contradiction|].
  rewrite Ho, Hw. cbn [bind]. unfold get at 1. rewrite Hcoords. cbn [bind].
  rewrite Hconv, Htruthy.
  assert (Hne : "crs" <> "coordinates") by discriminate.
  rewrite (mem_set_ne "crs" "coordinates" new_coords d Hne).
  unfold crs_writable in Hcrs. unfold mem, get.
  rewrite (lookup_set_ne "crs" "coordinates" new_coords d Hne).
  destruct (lookup "crs" d) as [crs|] eqn:Hlk; [|discriminate Hcrs].
  cbn [negb bind].
  destruct crs as [ | | | | | | | c];
    try (exists TypeError; split; [reflexivity | left; reflexivity]).
  cbn [getitem]. unfold get.
  destruct (lookup "properties" c) as [props|] eqn:Hprops.
  - cbn [bind].
    destruct props as [ | | | | | | | p]; try discriminate Hcrs;
      exists TypeError; split; try reflexivity; left; reflexivity.
  - exists KeyError. split; [reflexivity | right; reflexivity].
Qed.

Lemma to_latlon_half_done_witness :
  exists e,
    @to_latlon reference (PDict loose_crs_polygon) (Some 32632%Z)
    = (Raise e, PDict (set "coordinates" (as_lists utm_ring) loose_crs_polygon))
    /\ (e = TypeError \/ e = KeyError).
Proof.
  apply (@to_latlon_half_done reference loose_crs_polygon (Some 32632%Z)
           32632%Z 32632%Z 4326%Z utm_ring (as_lists utm_ring));
    try reflexivity; discriminate.
Defined.

(** ** Reprojecting twice *)

(** After a conversion the tag of the geometry reads as EPSG code 4326, so a
    second call takes WGS84 as the origin. *)
Theorem to_latlon_then_epsg_code `{Externals} (d : odict pyval)
        (origin_espg : option Z) (n : Z) (o w : proj) (coords new_coords : pyval) :
  py_int "4326" = Some 4326%Z ->
  resolve_code (PDict d) origin_espg = Ok (Some n) ->
  n <> 0%Z ->
  Proj n = Ok o ->
  Proj 4326 = Ok w ->
  lookup "coordinates" d = Some coords ->
  convert_coordinates coords o w = Ok new_coords ->
  truthy new_coords = true ->
  crs_writable d = true ->
  exists g,
    to_latlon (PDict d) origin_espg = (Ok g, g)
    /\ epsg_code g = Ok (Some 4326%Z)
    /\ resolve_code g None = Ok (Some 4326%Z).
Proof.
  intros Hint Hcode Hn Ho Hw Hcoords Hconv Htruthy Hcrs.
  destruct (to_latlon_rewrites d origin_espg n o w coords new_coords)
    as [g [Hg [_ [Hname _]]]]; try assumption.
  exists (PDict g). split; [exact Hg|].
  assert (Hc : epsg_code (PDict g) = Ok (Some 4326%Z)).
  { rewrite (epsg_code_string_name g wgs84_urn Hname).
    replace (str_in "EPSG" (split ":" wgs84_urn)) with true by reflexivity.
    replace (last (split ":" wgs84_urn) EmptyString) with "4326" by reflexivity.
    rewrite Hint. reflexivity. }
  split; [exact Hc|]. unfold resolve_code. exact Hc.
Qed.

Lemma to_latlon_then_epsg_code_witness :
  exists g,
    @to_latlon reference (PDict utm_polygon) None = (Ok g, g)
    /\ @epsg_code reference g = Ok (Some 4326%Z)
    /\ @resolve_code reference g None = Ok (Some 4326%Z).
Proof.
  apply (@to_latlon_then_epsg_code reference utm_polygon None 32632%Z
           32632%Z 4326%Z utm_ring (as_lists utm_ring));
    try reflexivity; discriminate.
Defined.

(** ** Exceptions and shape of the coordinate conversion *)

Lemma mapM_raise {A B : Type} (f : A -> result B) (l : list A) (e : exn) :
  mapM f l = Raise e -> exists a, In a l /\ f a = Raise e.
Proof.
  induction l as [|a l IH]; intros Hm.
  - discriminate Hm.
  - rewrite mapM_cons in Hm. destruct (f a) as [b|e'] eqn:Hfa.
    + cbn [bind] in Hm. destruct (mapM f l) as [bs|e'']; [discriminate Hm|].
      cbn [bind] in Hm. inversion Hm; subst.
      destruct (IH eq_refl) as [a' [Hin Ha']].
      exists a'. split; [right; exact Hin | exact Ha'].
    + cbn [bind] in Hm. inversion Hm; subst.
      exists a. split; [left; reflexivity | exact Hfa].
Qed.

Lemma mapM_length {A B : Type} (f : A -> result B) (l : list A) (r : list B) :
  mapM f l = Ok r -> List.length r = List.length l.
Proof.
  revert r. induction l as [|a l IH]; intros r Hr.
  - inversion Hr. reflexivity.
  - rewrite mapM_cons in Hr.
    destruct (f a) as [b|e]; cbn [bind] in Hr; [|discriminate Hr].
    destruct (mapM f l) as [bs|e]; cbn [bind] in Hr; [|discriminate Hr].
    inversion Hr. cbn [List.length]. f_equal. apply IH. reflexivity.
Qed.

Lemma except_IndexError_raise {A : Type} (m h : result A) (a : A) (e : exn) :
  except_IndexError m (Ok a) = Raise e -> m = Raise e /\ e <> IndexError.
Proof.
  destruct m as [x|[]]; intros E; try discriminate E;
    inversion E; subst; split; try reflexivity; discriminate.
Qed.

Lemma convert_items_raise `{Externals} (l : list pyval) (o w : proj) (e : exn) :
  Forall (fun c => forall e', convert_coordinates c o w = Raise e' ->
                              e' = TypeError
                              \/ exists xs, transform o w xs = Raise e') l ->
  convert_items l o w = Raise e ->
  e = TypeError \/ exists xs, transform o w xs = Raise e.
Proof.
  intros IH Hr. unfold convert_items in Hr.
  apply (except_IndexError_raise _ (Ok PNone)) in Hr. destruct Hr as [Hr Hidx].
  destruct l as [|c0 l]; [inversion Hr; subst; contradiction Hidx; reflexivity|].
  cbn [first bind] in Hr. destruct (is_seq c0).
  - destruct (mapM _ (c0 :: l)) as [vs|e'] eqn:Hm; [discriminate Hr|].
    cbn [bind] in Hr. inversion Hr; subst e'.
    apply mapM_raise in Hm. destruct Hm as [c [Hin Hc]].
    rewrite <- convert_element_list in Hc.
    rewrite Forall_forall in IH.
    destruct c; cbn [convert_element] in Hc;
      try discriminate Hc;
      try (inversion Hc; left; reflexivity);
      apply (IH _ Hin _ Hc).
  - destruct (is_float c0); [|discriminate Hr].
    destruct (transform o w (c0 :: l)) as [r|e'] eqn:Ht; [discriminate Hr|].
    cbn [bind] in Hr. inversion Hr; subst e'.
    right. exists (c0 :: l). exact Ht.
Qed.

(** [convert_coordinates] never raises [IndexError]; what it raises is the
    [TypeError] of [list] on an element that cannot be iterated, or an
    exception that [transform] raised on one of the positions. *)
Theorem convert_coordinates_exceptions `{Externals} (coords : pyval) (o w : proj)
        (e : exn) :
  convert_coordinates coords o w = Raise e ->
  e <> IndexError
  /\ (e = TypeError \/ exists xs, transform o w xs = Raise e).
Proof.
  intros Hr. split.
  - intros ->. apply (convert_coordinates_no_IndexError coords o w Hr).
  - revert e Hr.
    induction coords as [v Hv | l IH | l IH] using pyval_seq_ind; intros e Hr.
    + rewrite convert_coordinates_not_seq in Hr; [discriminate Hr|].
      destruct v; try reflexivity; discriminate Hv.
    + rewrite (convert_coordinates_seq (PList l) l o w eq_refl) in Hr.
      apply (convert_items_raise l o w e IH Hr).
    + rewrite (convert_coordinates_seq (PTuple l) l o w eq_refl) in Hr.
      apply (convert_items_raise l o w e IH Hr).
Qed.

Lemma convert_coordinates_exceptions_witness :
  TypeError <> IndexError
  /\ (TypeError = TypeError
      \/ exists xs, @transform reference 32632%Z 4326%Z xs = Raise TypeError).
Proof.
  apply (@convert_coordinates_exceptions reference
           (PList [PList []; PFloat f1]) 32632%Z 4326%Z TypeError).
  reflexivity.
Defined.

(** What [convert_coordinates] returns is [None] or a list, never a tuple;
    for a sequence of sequences the list has one entry per element. *)
Theorem convert_coordinates_one_per_element `{Externals} (coords : pyval)
        (o w : proj) (v : pyval) :
  convert_coordinates coords o w = Ok v ->
  v = PNone
  \/ exists vs,
      v = PList vs
      /\ (forall c0 l, seq_items coords = Some (c0 :: l) -> is_seq c0 = true ->
                       List.length vs = List.length (c0 :: l)).
Proof.
  intros Hv. destruct (seq_items coords) as [l|] eqn:Hl.
  - rewrite (convert_coordinates_seq coords l o w Hl) in Hv.
    unfold convert_items in Hv.
    destruct l as [|c0 l].
    + inversion Hv. left. reflexivity.
    + cbn [first bind] in Hv. destruct (is_seq c0) eqn:Hc0.
      * destruct (mapM _ (c0 :: l)) as [vs|e] eqn:Hm.
        -- cbn [bind except_IndexError] in Hv. inversion Hv; subst.
           right. exists vs. split; [reflexivity|].
           intros c1 l1 E _. inversion E; subst.
           apply (mapM_length _ _ _ Hm).
        -- cbn [bind] in Hv. destruct e; inversion Hv. left. reflexivity.
      * destruct (is_float c0).
        -- destruct (transform o w (c0 :: l)) as [r|e].
           ++ cbn [bind except_IndexError] in Hv. inversion Hv; subst.
              right. exists r. split; [reflexivity|].
              intros c1 l1 E Hc1. inversion E; subst.
              rewrite Hc0 in Hc1. discriminate Hc1.
           ++ cbn [bind] in Hv. destruct e; inversion Hv. left. reflexivity.
        -- inversion Hv. left. reflexivity.
  - rewrite (convert_coordinates_not_seq coords o w Hl) in Hv.
    inversion Hv. left. reflexivity.
Qed.

Lemma convert_coordinates_one_per_element_witness :
  PList [ PList [PFloat f1; PFloat f2]; PNone; PNone ] = PNone
  \/ exists vs,
      PList [ PList [PFloat f1; PFloat f2]; PNone; PNone ] = PList vs
      /\ (forall c0 l, seq_items ragged_ring = Some (c0 :: l) -> is_seq c0 = true ->
                       List.length vs = List.length (c0 :: l)).
Proof.
  apply (@convert_coordinates_one_per_element reference ragged_ring
           32632%Z 4326%Z).
  reflexivity.
Defined.

(** ** The tile list *)

Lemma tiles_loop_entries (els : list element) (tiles : odict pyval) :
  tiles_loop els tiles
  = (es <- mapM tile_entry els ;; Ok (add_entries es tiles)).
Proof.
  revert tiles. induction els as [|el els IH]; intros tiles.
  - reflexivity.
  - cbn [tiles_loop]. rewrite mapM_cons. unfold tile_entry at 1.
    destruct (first (findall "Granules" el)) as [g|e]; [|reflexivity].
    cbn [bind]. destruct (get "granuleIdentifier" (attrib g)) as [name|e];
      [|reflexivity].
    cbn [bind]. destruct (item_m2 (split "_" name)) as [mgs|e]; [|reflexivity].
    cbn [bind]. rewrite IH.
    destruct (mapM tile_entry els) as [es|e]; reflexivity.
Qed.

Lemma mapM_app {A B : Type} (f : A -> result B) (l1 l2 : list A) (r : list B) :
  mapM f (l1 ++ l2) = Ok r ->
  exists r1 r2, mapM f l1 = Ok r1 /\ mapM f l2 = Ok r2 /\ r = r1 ++ r2.
Proof.
  revert r. induction l1 as [|a l1 IH]; intros r Hr.
  - exists [], r. repeat split. exact Hr.
  - cbn [app] in Hr. rewrite mapM_cons in Hr.
    destruct (f a) as [b|e] eqn:Hfa; [|discriminate Hr]. cbn [bind] in Hr.
    destruct (mapM f (l1 ++ l2)) as [bs|e] eqn:Hm; [|discriminate Hr].
    cbn [bind] in Hr. inversion Hr; subst.
    destruct (IH bs eq_refl) as [r1 [r2 [H1 [H2 ->]]]].
    exists (b :: r1), r2. rewrite mapM_cons, Hfa, H1. repeat split. exact H2.
Qed.

Lemma mapM_In {A B : Type} (f : A -> result B) (l : list A) (r : list B) (b : B) :
  mapM f l = Ok r -> In b r -> exists a, In a l /\ f a = Ok b.
Proof.
  revert r. induction l as [|a l IH]; intros r Hr Hin.
  - inversion Hr; subst. contradiction.
  - rewrite mapM_cons in Hr.
    destruct (f a) as [b'|e] eqn:Hfa; [|discriminate Hr]. cbn [bind] in Hr.
    destruct (mapM f l) as [bs|e]; [|discriminate Hr].
    cbn [bind] in Hr. inversion Hr; subst.
    destruct Hin as [->|Hin].
    + exists a. split; [left; reflexivity | exact Hfa].
    + destruct (IH bs eq_refl Hin) as [a' [Ha' Hfa']].
      exists a'. split; [right; exact Ha' | exact Hfa'].
Qed.

Lemma mapM_In_ok {A B : Type} (f : A -> result B) (l : list A) (r : list B) (a : A) :
  mapM f l = Ok r -> In a l -> exists b, f a = Ok b /\ In b r.
Proof.
  revert r. induction l as [|a' l IH]; intros r Hr Hin.
  - contradiction.
  - rewrite mapM_cons in Hr.
    destruct (f a') as [b'|e] eqn:Hfa; [|discriminate Hr]. cbn [bind] in Hr.
    destruct (mapM f l) as [bs|e]; [|discriminate Hr].
    cbn [bind] in Hr. inversion Hr; subst.
    destruct Hin as [->|Hin].
    + exists b'. split; [exact Hfa | left; reflexivity].
    + destruct (IH bs eq_refl Hin) as [b [Hb Hbin]].
      exists b. split; [exact Hb | right; exact Hbin].
Qed.

Lemma add_entries_other (k : string) (es : list (string * string))
      (tiles : odict pyval) :
  (forall kn, In kn es -> fst kn <> k) ->
  lookup k (add_entries es tiles) = lookup k tiles.
Proof.
  unfold add_entries. revert tiles.
  induction es as [|[k' n'] es IH]; intros tiles Hes.
  - reflexivity.
  - cbn [fold_left fst snd]. rewrite IH.
    + apply lookup_set_ne. intros E. apply (Hes (k', n')); [left; reflexivity|].
      symmetry. exact E.
    + intros kn Hin. apply Hes. right. exact Hin.
Qed.

Lemma add_entries_from (k : string) (es : list (string * string))
      (tiles : odict pyval) (v : pyval) :
  lookup k (add_entries es tiles) = Some v ->
  lookup k tiles = Some v \/ exists name, In (k, name) es /\ v = PStr name.
Proof.
  unfold add_entries. revert tiles.
  induction es as [|[k' n'] es IH]; intros tiles Hv.
  - left. exact Hv.
  - cbn [fold_left fst snd] in Hv.
    destruct (IH _ Hv) as [Hset|[name [Hin ->]]].
    + destruct (String.eqb_spec k k') as [->|Hne].
      * rewrite lookup_set_eq in Hset. inversion Hset.
        right. exists n'. split; [left; reflexivity | reflexivity].
      * rewrite (lookup_set_ne k k' _ tiles Hne) in Hset. left. exact Hset.
    + right. exists name. split; [right; exact Hin | reflexivity].
Qed.

(** The tile list maps the grid code of every child to the identifier of
    the last child with that code, and holds nothing else. *)
Theorem get_tiles_list_last_wins (e : element) (tiles : odict pyval) :
  get_tiles_list e = Ok tiles ->
  (forall before el after k name,
      children e = before ++ el :: after ->
      tile_entry el = Ok (k, name) ->
      (forall el' k' name', In el' after -> tile_entry el' = Ok (k', name') ->
                            k' <> k) ->
      lookup k tiles = Some (PStr name))
  /\ (forall k v, lookup k tiles = Some v ->
                  exists el name, In el (children e)
                                  /\ tile_entry el = Ok (k, name)
                                  /\ v = PStr name).
Proof.
  unfold get_tiles_list. rewrite tiles_loop_entries.
  destruct (mapM tile_entry (children e)) as [es|err] eqn:Hes;
    [|discriminate]. cbn [bind]. intros E. inversion E; subst. clear E.
  split.
  - intros before el after k name Hsplit Hel Hafter.
    rewrite Hsplit in Hes.
    apply mapM_app in Hes. destruct Hes as [r1 [r2 [H1 [H2 ->]]]].
    rewrite mapM_cons, Hel in H2. cbn [bind] in H2.
    destruct (mapM tile_entry after) as [r3|err] eqn:H3; [|discriminate H2].
    cbn [bind] in H2. inversion H2; subst. clear H2.
    unfold add_entries. rewrite fold_left_app. cbn [fold_left fst snd].
    fold (add_entries r3
            (set k (PStr name)
                 (fold_left (fun t kn => set (fst kn) (PStr (snd kn)) t) r1 []))).
    rewrite add_entries_other; [apply lookup_set_eq|].
    intros [k' n'] Hin. cbn [fst].
    destruct (mapM_In _ _ _ _ H3 Hin) as [el' [Hel' Hentry]].
    apply (Hafter el' k' n' Hel' Hentry).
  - intros k v Hv.
    destruct (add_entries_from k es [] v Hv) as [Hnil|[name [Hin ->]]];
      [discriminate Hnil|].
    destruct (mapM_In _ _ _ _ Hes Hin) as [el [Hel Hentry]].
    exists el, name. repeat split; assumption.
Qed.

Lemma get_tiles_list_last_wins_witness :
  lookup "T32TQM" [("T32TQM", PStr scenario_granule)]
  = Some (PStr scenario_granule).
Proof.
  apply (proj1 (get_tiles_list_last_wins twice_T32TQM
                  [("T32TQM", PStr scenario_granule)] eq_refl)
           [granule "S2A_OPER_MSI_L1C_TL_SGS__20160101T135017_A002701_T32TQM_N02.00"]
           (granule scenario_granule) []).
  - reflexivity.
  - reflexivity.
  - intros el' k' name' [].
Defined.

Lemma mapM_first_failure {A B : Type} (f : A -> result B) (before after : list A)
      (a : A) (r : list B) (e : exn) :
  mapM f before = Ok r -> f a = Raise e ->
  mapM f (before ++ a :: after) = Raise e.
Proof.
  revert r. induction before as [|b before IH]; intros r Hr Ha.
  - cbn [app]. rewrite mapM_cons, Ha. reflexivity.
  - cbn [app]. rewrite mapM_cons in *.
    destruct (f b) as [x|e']; [|discriminate Hr]. cbn [bind] in *.
    destruct (mapM f before) as [xs|e'] eqn:Hb; [|discriminate Hr].
    rewrite (IH xs eq_refl Ha). reflexivity.
Qed.

Lemma split_without_separator (sep : ascii) (s : string) :
  occurs sep s = false -> split sep s = [s].
Proof.
  induction s as [|c t IH]; simpl; intros Hs.
  - reflexivity.
  - apply orb_false_iff in Hs. destruct Hs as [Hc Ht].
    rewrite Hc, (IH Ht). reflexivity.
Qed.

(** The tile list fails at the first child that gives no entry: a child
    without [Granules] element below it or with an identifier without
    underscore raises [IndexError], a [Granules] element without
    [granuleIdentifier] attribute raises [KeyError]. *)
Theorem get_tiles_list_first_failure (e : element) (before after : list element)
        (el : element) (entries : list (string * string)) :
  children e = before ++ el :: after ->
  mapM tile_entry before = Ok entries ->
  (findall "Granules" el = [] -> get_tiles_list e = Raise IndexError)
  /\ (forall g gs, findall "Granules" el = g :: gs ->
                   lookup "granuleIdentifier" (attrib g) = None ->
                   get_tiles_list e = Raise KeyError)
  /\ (forall g gs name, findall "Granules" el = g :: gs ->
                        lookup "granuleIdentifier" (attrib g) = Some name ->
                        occurs "_" name = false ->
                        get_tiles_list e = Raise IndexError).
Proof.
  intros Hsplit Hbefore.
  assert (Hfail : forall err, tile_entry el = Raise err ->
                              get_tiles_list e = Raise err).
  { intros err Hel. unfold get_tiles_list.
    rewrite tiles_loop_entries, Hsplit.
    rewrite (mapM_first_failure _ _ _ _ _ _ Hbefore Hel). reflexivity. }
  repeat split.
  - intros Hnone. apply Hfail. unfold tile_entry. rewrite Hnone. reflexivity.
  - intros g gs Hg Hattr. apply Hfail. unfold tile_entry, get.
    rewrite Hg. cbn [first bind]. rewrite Hattr. reflexivity.
  - intros g gs name Hg Hattr Hname. apply Hfail. unfold tile_entry, get.
    rewrite Hg. cbn [first bind]. rewrite Hattr. cbn [bind].
    rewrite (split_without_separator "_" name Hname). reflexivity.
Qed.

Lemma get_tiles_list_first_failure_witness :
  get_tiles_list
    (Element "Product_Organisation" [] None
       [ granule scenario_granule; granule "T32TQM" ])
  = Raise IndexError.
Proof.
  apply (proj2 (proj2 (get_tiles_list_first_failure
                         (Element "Product_Organisation" [] None
                            [ granule scenario_granule; granule "T32TQM" ])
                         [granule scenario_granule] [] (granule "T32TQM")
                         [("T32TQM", scenario_granule)] eq_refl eq_refl))
           (Element "Granules" [("granuleIdentifier", "T32TQM")] None []) []
           "T32TQM"); reflexivity.
Defined.

(** ** The product record *)

(** [metadata_to_dict] of [sentinel_s3] returns exactly when the two numbers
    can be read and both containers are there with well-formed children, and
    the record it returns has these eleven keys in this order: eight scalar
    texts (or [None]), the orbit number as an integer, the cloud coverage
    as a float under its new name, the tile list and the band list. *)
Theorem metadata_to_dict_record `{Externals} (root : element) (meta : odict pyval) :
  metadata_to_dict root = Ok meta
  <-> exists f n po tiles bands band_list,
      float_of (scalar root "Cloud_Coverage_Assessment") = Ok f
      /\ int_of (scalar root "SENSING_ORBIT_NUMBER") = Ok n
      /\ first (findall "Product_Organisation" root) = Ok po
      /\ get_tiles_list po = Ok tiles
      /\ first (findall "Band_List" root) = Ok bands
      /\ mapM band_entry (children bands) = Ok band_list
      /\ meta
         = [ ("spacecraft_name", scalar root "SPACECRAFT_NAME");
             ("product_stop_time", scalar root "PRODUCT_STOP_TIME");
             ("processing_level", scalar root "PROCESSING_LEVEL");
             ("product_type", scalar root "PRODUCT_TYPE");
             ("processing_baseline", scalar root "PROCESSING_BASELINE");
             ("sensing_orbit_number", PInt n);
             ("sensing_orbit_direction", scalar root "SENSING_ORBIT_DIRECTION");
             ("product_format", scalar root "PRODUCT_FORMAT");
             ("product_cloud_coverage_assessment", PFloat f);
             ("tiles", PDict tiles);
             ("band_list", PList band_list) ].
Proof.
  unfold metadata_to_dict. rewrite grab_keys_entries.
  cbn -[float_of int_of scalar get_tiles_list findall band_entry mapM first].
  split.
  - intros Hm.
    destruct (float_of (scalar root "Cloud_Coverage_Assessment")) as [f|e] eqn:Heq1;
      [|discriminate Hm].
    destruct (int_of (scalar root "SENSING_ORBIT_NUMBER")) as [n|e] eqn:Heq2;
      [|discriminate Hm].
    destruct (first (findall "Product_Organisation" root)) as [po|e] eqn:Heq3;
      [|discriminate Hm].
    cbn [bind] in Hm.
    destruct (get_tiles_list po) as [tiles|e] eqn:Heq4; [|discriminate Hm].
    destruct (first (findall "Band_List" root)) as [bands|e] eqn:Heq5;
      [|discriminate Hm].
    cbn [bind] in Hm.
    destruct (mapM band_entry (children bands)) as [band_list|e] eqn:Heq6;
      [|discriminate Hm].
    cbn [bind] in Hm. inversion Hm; subst.
    exists f, n, po, tiles, bands, band_list. repeat split; assumption.
  - intros [f [n [po [tiles [bands [band_list
             [Hf [Hn [Hpo [Htiles [Hbands [Hlist ->]]]]]]]]]]]].
    rewrite Hf, Hn, Hpo. cbn [bind]. rewrite Htiles, Hbands. cbn [bind].
    rewrite Hlist. reflexivity.
Qed.

(** The older copy keeps the orbit number as the text it found, and every
    band text as it is, also a missing one. *)
Theorem scrawler_metadata_to_dict_record `{Externals} (root : element)
        (meta : odict pyval) :
  Scrawler.metadata_to_dict root = Ok meta
  <-> exists f po tiles bands,
      float_of (scalar root "Cloud_Coverage_Assessment") = Ok f
      /\ first (findall "Product_Organisation" root) = Ok po
      /\ get_tiles_list po = Ok tiles
      /\ first (findall "Band_List" root) = Ok bands
      /\ meta
         = [ ("spacecraft_name", scalar root "SPACECRAFT_NAME");
             ("product_stop_time", scalar root "PRODUCT_STOP_TIME");
             ("processing_level", scalar root "PROCESSING_LEVEL");
             ("product_type", scalar root "PRODUCT_TYPE");
             ("processing_baseline", scalar root "PROCESSING_BASELINE");
             ("sensing_orbit_number", scalar root "SENSING_ORBIT_NUMBER");
             ("sensing_orbit_direction", scalar root "SENSING_ORBIT_DIRECTION");
             ("product_format", scalar root "PRODUCT_FORMAT");
             ("product_cloud_coverage_assessment", PFloat f);
             ("tiles", PDict tiles);
             ("band_list",
              PList (map (fun b => text_value (text b)) (children bands))) ].
Proof.
  unfold Scrawler.metadata_to_dict. rewrite grab_keys_entries.
  cbn -[float_of scalar get_tiles_list findall first].
  split.
  - intros Hm.
    destruct (float_of (scalar root "Cloud_Coverage_Assessment")) as [f|e] eqn:Heq7;
      [|discriminate Hm].
    destruct (first (findall "Product_Organisation" root)) as [po|e] eqn:Heq8;
      [|discriminate Hm].
    cbn [bind] in Hm.
    destruct (get_tiles_list po) as [tiles|e] eqn:Heq9; [|discriminate Hm].
    destruct (first (findall "Band_List" root)) as [bands|e] eqn:Heq10;
      [|discriminate Hm].
    cbn [bind] in Hm. inversion Hm; subst.
    exists f, po, tiles, bands. repeat split; assumption.
  - intros [f [po [tiles [bands [Hf [Hpo [Htiles [Hbands ->]]]]]]]].
    rewrite Hf, Hpo. cbn [bind]. rewrite Htiles, Hbands. reflexivity.
Qed.

Lemma metadata_to_dict_record_witness :
  exists f n po tiles bands band_list,
    @float_of reference (scalar scenario_xml "Cloud_Coverage_Assessment") = Ok f
    /\ @int_of reference (scalar scenario_xml "SENSING_ORBIT_NUMBER") = Ok n
    /\ first (findall "Product_Organisation" scenario_xml) = Ok po
    /\ get_tiles_list po = Ok tiles
    /\ first (findall "Band_List" scenario_xml) = Ok bands
    /\ mapM (@band_entry reference) (children bands) = Ok band_list
    /\ scenario_product
       = [ ("spacecraft_name", scalar scenario_xml "SPACECRAFT_NAME");
           ("product_stop_time", scalar scenario_xml "PRODUCT_STOP_TIME");
           ("processing_level", scalar scenario_xml "PROCESSING_LEVEL");
           ("product_type", scalar scenario_xml "PRODUCT_TYPE");
           ("processing_baseline", scalar scenario_xml "PROCESSING_BASELINE");
           ("sensing_orbit_number", PInt n);
           ("sensing_orbit_direction", scalar scenario_xml "SENSING_ORBIT_DIRECTION");
           ("product_format", scalar scenario_xml "PRODUCT_FORMAT");
           ("product_cloud_coverage_assessment", PFloat f);
           ("tiles", PDict tiles);
           ("band_list", PList band_list) ].
Proof.
  apply (proj1 (@metadata_to_dict_record reference scenario_xml scenario_product)).
  reflexivity.
Defined.

Lemma scrawler_metadata_to_dict_record_witness :
  exists meta, @Scrawler.metadata_to_dict reference scenario_xml = Ok meta
               /\ lookup "sensing_orbit_number" meta = Some (PStr "22")
               /\ lookup "band_list" meta = Some (PList [PStr "B4"]).
Proof.
  eexists. split; [|split].
  - apply (proj2 (@scrawler_metadata_to_dict_record reference scenario_xml _)).
    do 4 eexists. repeat split; reflexivity.
  - reflexivity.
  - reflexivity.
Defined.

(** *** Errors of the key extractor *)

(** A cloud coverage text that [float] cannot read stops both extractors
    with [ValueError]; an orbit number that [int] cannot read stops the one
    of [sentinel_s3]. *)
Theorem metadata_to_dict_unreadable_number `{Externals} (root : element) :
  (forall s, scalar root "Cloud_Coverage_Assessment" = PStr s ->
             py_float s = None ->
             metadata_to_dict root = Raise ValueError
             /\ Scrawler.metadata_to_dict root = Raise ValueError)
  /\ (forall f s, float_of (scalar root "Cloud_Coverage_Assessment") = Ok f ->
                  scalar root "SENSING_ORBIT_NUMBER" = PStr s ->
                  py_int s = None ->
                  metadata_to_dict root = Raise ValueError).
Proof.
  split.
  - intros s Hs Hf.
    unfold metadata_to_dict, Scrawler.metadata_to_dict.
    rewrite grab_keys_entries, Hs. cbn -[scalar findall first get_tiles_list].
    rewrite Hf. split; reflexivity.
  - intros f s Hf Hs Hn. unfold metadata_to_dict.
    rewrite grab_keys_entries, Hs.
    cbn -[float_of scalar findall first get_tiles_list mapM].
    rewrite Hf. cbn -[scalar findall first get_tiles_list mapM].
    rewrite Hn. reflexivity.
Qed.

Lemma metadata_to_dict_unreadable_number_witness :
  @metadata_to_dict reference
    (Element "Product" [] None [leaf "Cloud_Coverage_Assessment" "N/A"])
  = Raise ValueError
  /\ @Scrawler.metadata_to_dict reference
       (Element "Product" [] None [leaf "Cloud_Coverage_Assessment" "N/A"])
     = Raise ValueError.
Proof.
  apply (proj1 (@metadata_to_dict_unreadable_number reference
                  (Element "Product" [] None
                     [leaf "Cloud_Coverage_Assessment" "N/A"])) "N/A");
    reflexivity.
Defined.

Lemma band_entry_no_text `{Externals} (l : list element) :
  (exists b, In b l /\ text b = None) ->
  mapM band_entry l = Raise AttributeError.
Proof.
  induction l as [|b l IH]; intros [b0 [Hin Hb0]].
  - contradiction.
  - rewrite mapM_cons. unfold band_entry at 1.
    destruct (text b) as [t|] eqn:Hb; [|reflexivity].
    destruct (String.length (remove_char "B" t) =? 1)%nat; cbn [bind];
      (rewrite IH; [reflexivity|]);
      (destruct Hin as [->|Hin];
       [rewrite Hb0 in Hb; discriminate Hb | exists b0; split; assumption]).
Qed.

(** Once the two numbers are read, a document without
    [Product_Organisation] or without [Band_List] stops [metadata_to_dict]
    with [IndexError], and a band element without text stops it with
    [AttributeError]. *)
Theorem metadata_to_dict_missing_container `{Externals} (root : element)
        (f : spec_float) (n : Z) :
  float_of (scalar root "Cloud_Coverage_Assessment") = Ok f ->
  int_of (scalar root "SENSING_ORBIT_NUMBER") = Ok n ->
  (findall "Product_Organisation" root = [] ->
   metadata_to_dict root = Raise IndexError)
  /\ (forall po tiles, first (findall "Product_Organisation" root) = Ok po ->
                       get_tiles_list po = Ok tiles ->
                       findall "Band_List" root = [] ->
                       metadata_to_dict root = Raise IndexError)
  /\ (forall po tiles bands b,
         first (findall "Product_Organisation" root) = Ok po ->
         get_tiles_list po = Ok tiles ->
         first (findall "Band_List" root) = Ok bands ->
         In b (children bands) -> text b = None ->
         metadata_to_dict root = Raise AttributeError).
Proof.
  intros Hf Hn.
  unfold metadata_to_dict. rewrite grab_keys_entries.
  cbn -[float_of int_of scalar get_tiles_list findall band_entry mapM first].
  rewrite Hf, Hn.
  cbn -[float_of int_of scalar get_tiles_list findall band_entry mapM first].
  repeat split.
  - intros ->. reflexivity.
  - intros po tiles -> Hpo Hb. cbn [bind]. rewrite Hpo, Hb. reflexivity.
  - intros po tiles bands b -> Hpo -> Hin Hb. cbn [bind]. rewrite Hpo.
    cbn [bind]. rewrite band_entry_no_text; [reflexivity|].
    exists b. split; assumption.
Qed.

Lemma metadata_to_dict_missing_container_witness :
  @metadata_to_dict reference (prune "Band_List" scenario_xml) = Raise IndexError.
Proof.
  apply (proj1 (proj2 (@metadata_to_dict_missing_container reference
                         (prune "Band_List" scenario_xml) f12_5 22%Z
                         eq_refl eq_refl))
           (Element "Product_Organisation" [] None [granule scenario_granule])
           [("T32TQM", PStr scenario_granule)]); reflexivity.
Defined.

(** ** Tile metadata: what a call leaves behind *)

(** The steps of a successful call, read back from its result. *)
Lemma tile_metadata_run `{Externals} (s s' : store) (meta : odict pyval) :
  tile_metadata s = (Ok meta, s') ->
  exists zone band square tiles name timestamp parts date path bands items links,
    let m := merged [ ("tile_name", name); ("date", PStr date);
                      ("thumbnail",
                       PStr (s3_url ++ "/" ++ py_str path ++ "/preview.jp2")%string) ]
                    s in
    lookup "utmZone" (s_tile s) = Some zone
    /\ lookup "latitudeBand" (s_tile s) = Some band
    /\ lookup "gridSquare" (s_tile s) = Some square
    /\ lookup "tiles" (s_product s) = Some tiles
    /\ getitem tiles (grid_code zone band square) = Ok name
    /\ lookup "timestamp" (s_tile s) = Some timestamp
    /\ split_method timestamp "T" = Ok parts
    /\ first parts = Ok date
    /\ lookup "path" (s_tile s) = Some path
    /\ lookup "band_list" (remove "tiles" (s_product s)) = Some bands
    /\ py_list bands = Ok items
    /\ mapM (fun b => p <- get "path" m ;; Ok (PStr (band_url p b))) items = Ok links
    /\ reproject geometry_keys
                 (set "download_links" (PDict [("aws_s3", PList links)]) m)
                 (drained s)
       = (Ok meta, s').
Proof.
  intros Hrun. unfold tile_metadata in Hrun.
  inv_tile_get Hrun zone Hzone.
  inv_tile_get Hrun band Hband.
  inv_tile_get Hrun square Hsquare.
  inv_product_get Hrun tiles Htiles.
  inv_lift Hrun name Hname.
  inv_lift Hrun line Hline.
  inv_tile_get Hrun timestamp Htimestamp.
  inv_lift Hrun parts Hparts.
  inv_lift Hrun date Hdate.
  inv_tile_get Hrun path Hpath.
  inv_product_pop Hrun popped Hpopped.
  inv_tile_pop Hrun datastrip Hdatastrip.
  inv_product_pop Hrun bands Hbands.
  cbn [s_tile s_product] in *.
  inv_bind Hrun tile Htile. inversion Htile; subst; clear Htile.
  inv_bind Hrun product Hproduct. inversion Hproduct; subst; clear Hproduct.
  cbn [s_tile s_product] in *.
  inv_lift Hrun items Hitems.
  inv_lift Hrun links Hlinks.
  cbv beta zeta in Hrun.
  exists zone, band, square, tiles, name, timestamp, parts, date, path, bands,
    items, links.
  cbv zeta. repeat split; assumption.
Qed.

Lemma scrawler_tile_metadata_run `{Externals} (s s' : store) (meta : odict pyval) :
  Scrawler.tile_metadata s = (Ok meta, s') ->
  exists zone band square tiles name timestamp parts date bands items links,
    let m := merged [ ("tile_name", name); ("date", PStr date) ] s in
    lookup "utmZone" (s_tile s) = Some zone
    /\ lookup "latitudeBand" (s_tile s) = Some band
    /\ lookup "gridSquare" (s_tile s) = Some square
    /\ lookup "tiles" (s_product s) = Some tiles
    /\ getitem tiles (Scrawler.grid_code zone band square) = Ok name
    /\ lookup "timestamp" (s_tile s) = Some timestamp
    /\ split_method timestamp "T" = Ok parts
    /\ first parts = Ok date
    /\ lookup "band_list" (remove "tiles" (s_product s)) = Some bands
    /\ py_list bands = Ok items
    /\ mapM (fun b => p <- get "path" m ;; Ok (PStr (band_url p b))) items = Ok links
    /\ meta = set "download_links" (PDict [("aws_s3", PList links)]) m
    /\ s' = drained s.
Proof.
  intros Hrun. unfold Scrawler.tile_metadata in Hrun.
  inv_tile_get Hrun zone Hzone.
  inv_tile_get Hrun band Hband.
  inv_tile_get Hrun square Hsquare.
  inv_product_get Hrun tiles Htiles.
  inv_lift Hrun name Hname.
  inv_tile_get Hrun timestamp Htimestamp.
  inv_lift Hrun parts Hparts.
  inv_lift Hrun date Hdate.
  inv_product_pop Hrun popped Hpopped.
  inv_tile_pop Hrun datastrip Hdatastrip.
  inv_product_pop Hrun bands Hbands.
  cbn [s_tile s_product] in *.
  inv_bind Hrun tile Htile. inversion Htile; subst; clear Htile.
  inv_bind Hrun product Hproduct. inversion Hproduct; subst; clear Hproduct.
  cbn [s_tile s_product] in *.
  inv_lift Hrun items Hitems.
  inv_lift Hrun links Hlinks.
  cbv beta zeta in Hrun. inversion Hrun; subst.
  exists zone, band, square, tiles, name, timestamp, parts, date, bands,
    items, links.
  cbv zeta. repeat split; assumption.
Qed.

Lemma keys_set_present {V : Type} (k : string) (v : V) (d : odict V) :
  mem k d = true -> keys (set k v d) = keys d.
Proof.
  unfold mem. induction d as [|[k' v'] d IH]; simpl; intros Hk.
  - discriminate Hk.
  - destruct (String.eqb k k'); simpl; [reflexivity|].
    f_equal. apply IH, Hk.
Qed.

Lemma In_keys_mem {V : Type} (k : string) (d : odict V) :
  In k (keys d) -> mem k d = true.
Proof.
  unfold mem. induction d as [|[k' v'] d IH]; simpl; intros Hin.
  - contradiction.
  - destruct (String.eqb_spec k k') as [E|Hne]; [reflexivity|].
    destruct Hin as [E|Hin]; [symmetry in E; contradiction | apply IH, Hin].
Qed.

Lemma mem_In_keys {V : Type} (k : string) (d : odict V) :
  mem k d = true -> In k (keys d).
Proof.
  unfold mem. induction d as [|[k' v'] d IH]; simpl; intros Hk.
  - discriminate Hk.
  - destruct (String.eqb_spec k k') as [E|Hne]; [left; symmetry; exact E|].
    right. apply IH, Hk.
Qed.

Lemma last_source_from (key : string) (tile : odict pyval) (acc : option string)
      (k : string) :
  fold_left (fun acc kv =>
               if String.eqb (camelcase_underscore (fst kv)) key
               then Some (fst kv) else acc) tile acc = Some k ->
  acc = Some k \/ (In k (keys tile) /\ camelcase_underscore k = key).
Proof.
  revert acc. induction tile as [|[k0 v0] tile IH]; intros acc Hk.
  - left. exact Hk.
  - cbn [fold_left fst] in Hk. destruct (IH _ Hk) as [Hacc|[Hin Hc]].
    + destruct (String.eqb_spec (camelcase_underscore k0) key) as [E|Hne].
      * inversion Hacc; subst. right. split; [left; reflexivity | reflexivity].
      * left. exact Hacc.
    + right. split; [right; exact Hin | exact Hc].
Qed.

Lemma last_source_key (key : string) (tile : odict pyval) (k : string) :
  last_source key tile = Some k ->
  In k (keys tile) /\ camelcase_underscore k = key.
Proof.
  intros Hk. destruct (last_source_from key tile None k Hk) as [E|Hin];
    [discriminate E | exact Hin].
Qed.

Lemma write_back_keys (key : string) (g : pyval) (s s' : store) (r : result unit) :
  write_back key g s = (r, s') ->
  r = Ok tt
  /\ keys (s_tile s') = keys (s_tile s)
  /\ keys (s_product s') = keys (s_product s).
Proof.
  unfold write_back. destruct (mem key (s_product s)) eqn:Hm.
  - intros E. inversion E; subst. cbn [s_tile s_product].
    rewrite (keys_set_present _ _ _ Hm). repeat split.
  - destruct (last_source key (s_tile s)) as [k|] eqn:Hk.
    + intros E. inversion E; subst. cbn [s_tile s_product].
      apply last_source_key in Hk. destruct Hk as [Hin _].
      rewrite (keys_set_present _ _ _ (In_keys_mem _ _ Hin)). repeat split.
    + intros E. inversion E; subst. repeat split.
Qed.

(** The reprojection keeps the keys of both dictionaries. *)
Lemma reproject_store_keys `{Externals} (ks : list string) :
  forall meta s meta' s',
    reproject ks meta s = (Ok meta', s') ->
    keys (s_tile s') = keys (s_tile s)
    /\ keys (s_product s') = keys (s_product s).
Proof.
  induction ks as [|k0 ks IH]; intros meta s meta' s' Hr.
  - inversion Hr; subst. split; reflexivity.
  - cbn [reproject] in Hr. destruct (mem k0 meta).
    + apply bindM_ok in Hr. destruct Hr as [g [s1 [Hg Hr]]].
      apply lift_ok in Hg. destruct Hg as [_ ->].
      destruct (to_latlon g None) as [r g'].
      apply bindM_ok in Hr. destruct Hr as [u [s2 [Hw Hr]]].
      apply write_back_keys in Hw. destruct Hw as [_ [Ht Hp]].
      apply bindM_ok in Hr. destruct Hr as [v [s3 [Hv Hr]]].
      apply lift_ok in Hv. destruct Hv as [_ ->].
      destruct (IH _ _ _ _ Hr) as [Ht' Hp'].
      rewrite Ht', Hp', Ht, Hp. split; reflexivity.
    + apply (IH _ _ _ _ Hr).
Qed.

Lemma lookup_remove_same {V : Type} (k : string) (d : odict V) :
  NoDup (keys d) -> lookup k (remove k d) = None.
Proof.
  induction d as [|[k' v'] d IH]; simpl; intros Hnd.
  - reflexivity.
  - inversion Hnd as [|? ? Hnotin Hnd']; subst.
    destruct (String.eqb_spec k k') as [->|Hne].
    + destruct (lookup k' d) eqn:Hl; [|reflexivity].
      exfalso. apply Hnotin. apply (In_keys _ _ _ (lookup_In _ _ _ Hl)).
    + simpl. destruct (String.eqb_spec k k'); [contradiction|]. apply IH, Hnd'.
Qed.

Lemma mem_keys_eq {V W : Type} (k : string) (d : odict V) (d' : odict W) :
  keys d' = keys d -> mem k d' = mem k d.
Proof.
  intros Hk.
  destruct (mem k d) eqn:Hd.
  - apply In_keys_mem. rewrite Hk. apply mem_In_keys, Hd.
  - destruct (mem k d') eqn:Hd'; [|reflexivity].
    apply mem_In_keys in Hd'. rewrite Hk in Hd'.
    apply In_keys_mem in Hd'. rewrite Hd' in Hd. discriminate Hd.
Qed.

Lemma In_keys_remove {V : Type} (x k : string) (d : odict V) :
  In x (keys (remove k d)) -> In x (keys d).
Proof.
  induction d as [|[k' v'] d IH]; cbn [remove]; intros Hin.
  - contradiction.
  - destruct (String.eqb k k').
    + right. exact Hin.
    + destruct Hin as [E|Hin]; [left; exact E | right; apply IH, Hin].
Qed.

Lemma NoDup_remove {V : Type} (k : string) (d : odict V) :
  NoDup (keys d) -> NoDup (keys (remove k d)).
Proof.
  induction d as [|[k' v'] d IH]; cbn [remove]; intros Hnd.
  - constructor.
  - inversion Hnd as [|? ? Hnotin Hnd']; subst.
    destruct (String.eqb k k'); [exact Hnd'|].
    constructor; [|apply IH, Hnd'].
    intros Hin. apply Hnotin. apply (In_keys_remove _ _ _ Hin).
Qed.

Lemma tile_metadata_store_keys `{Externals} (s s' : store) (meta : odict pyval) :
  tile_metadata s = (Ok meta, s') \/ Scrawler.tile_metadata s = (Ok meta, s') ->
  keys (s_tile s') = keys (s_tile (drained s))
  /\ keys (s_product s') = keys (s_product (drained s)).
Proof.
  intros [Hrun|Hrun].
  - destruct (tile_metadata_run s s' meta Hrun)
      as (zone & band & square & tiles & name & timestamp & parts & date & path
          & bands & items & links & Hfacts).
    cbv zeta in Hfacts. do 12 (destruct Hfacts as [_ Hfacts]).
    apply (reproject_store_keys _ _ _ _ _ Hfacts).
  - destruct (scrawler_tile_metadata_run s s' meta Hrun)
      as (zone & band & square & tiles & name & timestamp & parts & date
          & bands & items & links & Hfacts).
    cbv zeta in Hfacts. do 12 (destruct Hfacts as [_ Hfacts]).
    subst. split; reflexivity.
Qed.

(** A successful call of either [tile_metadata] drains its arguments: the
    tile record is left with its keys but [datastrip], the product record
    with its keys but [tiles] and [band_list]. *)
Theorem tile_metadata_drains `{Externals} (s s' : store) (meta : odict pyval) :
  tile_metadata s = (Ok meta, s') \/ Scrawler.tile_metadata s = (Ok meta, s') ->
  NoDup (keys (s_tile s)) ->
  NoDup (keys (s_product s)) ->
  keys (s_tile s') = keys (remove "datastrip" (s_tile s))
  /\ keys (s_product s') = keys (remove "band_list" (remove "tiles" (s_product s)))
  /\ mem "datastrip" (s_tile s') = false
  /\ mem "tiles" (s_product s') = false
  /\ mem "band_list" (s_product s') = false.
Proof.
  intros Hrun Hnt Hnp.
  destruct (tile_metadata_store_keys s s' meta Hrun) as [Ht Hp].
  cbn [drained s_tile s_product] in Ht, Hp.
  split; [exact Ht|]. split; [exact Hp|].
  rewrite (mem_keys_eq "datastrip" _ _ Ht), (mem_keys_eq "tiles" _ _ Hp),
    (mem_keys_eq "band_list" _ _ Hp).
  unfold mem.
  rewrite (lookup_remove_same "datastrip" _ Hnt).
  rewrite (lookup_remove_ne "tiles" "band_list") by discriminate.
  rewrite (lookup_remove_same "tiles" _ Hnp).
  repeat split.
  pose proof (NoDup_remove "tiles" _ Hnp) as Hnp'.
  rewrite (lookup_remove_same "band_list" _ Hnp'). reflexivity.
Qed.

Lemma tile_metadata_drains_witness :
  keys (s_tile (snd (@tile_metadata reference scenario)))
  = keys (remove "datastrip" scenario_tile)
  /\ keys (s_product (snd (@tile_metadata reference scenario)))
     = keys (remove "band_list" (remove "tiles" scenario_product))
  /\ mem "datastrip" (s_tile (snd (@tile_metadata reference scenario))) = false
  /\ mem "tiles" (s_product (snd (@tile_metadata reference scenario))) = false
  /\ mem "band_list" (s_product (snd (@tile_metadata reference scenario))) = false.
Proof.
  destruct (@tile_metadata reference scenario) as [[meta|e] s'] eqn:Hrun;
    [|vm_compute in Hrun; discriminate Hrun].
  cbn [snd].
  apply (@tile_metadata_drains reference scenario s' meta (or_introl Hrun));
    apply nodupb_spec; reflexivity.
Defined.

Lemma get_raises_KeyError {V : Type} (k : string) (d : odict V) (e : exn) :
  get k d = Raise e -> e = KeyError.
Proof.
  unfold get. destruct (lookup k d); intros E; inversion E. reflexivity.
Qed.

Lemma drained_without_tiles `{Externals} (s s' : store) (meta : odict pyval) :
  tile_metadata s = (Ok meta, s') \/ Scrawler.tile_metadata s = (Ok meta, s') ->
  NoDup (keys (s_product s)) ->
  get "tiles" (s_product s') = Raise KeyError.
Proof.
  intros Hrun Hnp.
  destruct (tile_metadata_store_keys s s' meta Hrun) as [_ Hp].
  cbn [drained s_product] in Hp.
  pose proof (mem_keys_eq "tiles" _ _ Hp) as Hm. unfold mem in Hm.
  rewrite (lookup_remove_ne "tiles" "band_list") in Hm by discriminate.
  rewrite (lookup_remove_same "tiles" _ Hnp) in Hm.
  unfold get. destruct (lookup "tiles" (s_product s')); [discriminate Hm|].
  reflexivity.
Qed.

(** Neither [tile_metadata] can be called again on the dictionaries a
    successful call leaves: without [tiles] in the product record the second
    call raises [KeyError]. *)
Theorem tile_metadata_not_reusable `{Externals} (s s' : store) (meta : odict pyval) :
  tile_metadata s = (Ok meta, s') \/ Scrawler.tile_metadata s = (Ok meta, s') ->
  NoDup (keys (s_product s)) ->
  fst (tile_metadata s') = Raise KeyError
  /\ fst (Scrawler.tile_metadata s') = Raise KeyError.
Proof.
  intros Hrun Hnp.
  pose proof (drained_without_tiles s s' meta Hrun Hnp) as Htiles.
  split.
  - unfold tile_metadata, bindM, tile_get, product_get.
    destruct (get "utmZone" (s_tile s')) as [zone|e] eqn:Hz;
      [|rewrite (get_raises_KeyError _ _ _ Hz); reflexivity].
    destruct (get "latitudeBand" (s_tile s')) as [band|e] eqn:Hb;
      [|rewrite (get_raises_KeyError _ _ _ Hb); reflexivity].
    destruct (get "gridSquare" (s_tile s')) as [square|e] eqn:Hq;
      [|rewrite (get_raises_KeyError _ _ _ Hq); reflexivity].
    rewrite Htiles. reflexivity.
  - unfold Scrawler.tile_metadata, bindM, tile_get, product_get.
    destruct (get "utmZone" (s_tile s')) as [zone|e] eqn:Hz;
      [|rewrite (get_raises_KeyError _ _ _ Hz); reflexivity].
    destruct (get "latitudeBand" (s_tile s')) as [band|e] eqn:Hb;
      [|rewrite (get_raises_KeyError _ _ _ Hb); reflexivity].
    destruct (get "gridSquare" (s_tile s')) as [square|e] eqn:Hq;
      [|rewrite (get_raises_KeyError _ _ _ Hq); reflexivity].
    rewrite Htiles. reflexivity.
Qed.

Lemma tile_metadata_not_reusable_witness :
  fst (@tile_metadata reference (snd (@tile_metadata reference scenario)))
  = Raise KeyError
  /\ fst (@Scrawler.tile_metadata reference (snd (@tile_metadata reference scenario)))
     = Raise KeyError.
Proof.
  destruct (@tile_metadata reference scenario) as [[meta|e] s'] eqn:Hrun;
    [|vm_compute in Hrun; discriminate Hrun].
  cbn [snd].
  apply (@tile_metadata_not_reusable reference scenario s' meta (or_introl Hrun)).
  apply nodupb_spec. reflexivity.
Defined.

(** ** Tile metadata: the keys of the record *)

Lemma keys_set {V : Type} (k k0 : string) (v : V) (d : odict V) :
  In k (keys (set k0 v d)) <-> k = k0 \/ In k (keys d).
Proof.
  induction d as [|[k' v'] d IH]; cbn [set keys map fst].
  - cbn [In]. intuition.
  - destruct (String.eqb_spec k0 k') as [->|Hne]; cbn [keys map fst In].
    + intuition.
    + fold (keys (set k0 v d)). fold (keys d). rewrite IH. intuition.
Qed.

Lemma keys_rename_into (k : string) (tile meta : odict pyval) :
  In k (keys (rename_into meta tile))
  <-> In k (keys meta)
      \/ exists k', In k' (keys tile) /\ camelcase_underscore k' = k.
Proof.
  unfold rename_into. revert meta.
  induction tile as [|[k0 v0] tile IH]; intros meta; cbn [fold_left fst snd].
  - split; [intros Hin; left; exact Hin|].
    intros [Hin|[k' [[] _]]]. exact Hin.
  - rewrite IH, keys_set. cbn [keys map fst In]. fold (keys tile). split.
    + intros [[->|Hin]|[k' [Hin Hk']]].
      * right. exists k0. split; [left; reflexivity | reflexivity].
      * left. exact Hin.
      * right. exists k'. split; [right; exact Hin | exact Hk'].
    + intros [Hin|[k' [[->|Hin] Hk']]].
      * left. right. exact Hin.
      * left. left. symmetry. exact Hk'.
      * right. exists k'. split; assumption.
Qed.

Lemma keys_update {V : Type} (k : string) (d e : odict V) :
  In k (keys (update d e)) <-> In k (keys d) \/ In k (keys e).
Proof.
  unfold update. revert d.
  induction e as [|[k0 v0] e IH]; intros d; cbn [fold_left fst snd].
  - cbn [keys map In]. intuition.
  - rewrite IH, keys_set. cbn [keys map fst In]. fold (keys e).
    intuition (subst; auto).
Qed.

Lemma reproject_meta_keys `{Externals} (ks : list string) :
  forall meta s meta' s',
    reproject ks meta s = (Ok meta', s') -> keys meta' = keys meta.
Proof.
  induction ks as [|k0 ks IH]; intros meta s meta' s' Hr.
  - inversion Hr; subst. reflexivity.
  - cbn [reproject] in Hr. destruct (mem k0 meta) eqn:Hm.
    + apply bindM_ok in Hr. destruct Hr as [g [s1 [_ Hr]]].
      destruct (to_latlon g None) as [r g'].
      apply bindM_ok in Hr. destruct Hr as [u [s2 [_ Hr]]].
      apply bindM_ok in Hr. destruct Hr as [v [s3 [_ Hr]]].
      rewrite (IH _ _ _ _ Hr). apply keys_set_present, Hm.
    + apply (IH _ _ _ _ Hr).
Qed.

Lemma merged_keys (k : string) (computed : odict pyval) (s : store) :
  In k (keys (merged computed s))
  <-> In k (keys computed)
      \/ (exists k', In k' (keys (remove "datastrip" (s_tile s)))
                     /\ camelcase_underscore k' = k)
      \/ In k (keys (remove "band_list" (remove "tiles" (s_product s)))).
Proof.
  unfold merged. cbn [drained s_tile s_product].
  rewrite keys_update, keys_rename_into. tauto.
Qed.

Lemma record_keys `{Externals} (s s' : store) (meta : odict pyval)
        (k : string) :
  (tile_metadata s = (Ok meta, s') ->
   (In k (keys meta)
    <-> In k ["tile_name"; "date"; "thumbnail"; "download_links"]
        \/ (exists k', In k' (keys (remove "datastrip" (s_tile s)))
                       /\ camelcase_underscore k' = k)
        \/ In k (keys (remove "band_list" (remove "tiles" (s_product s))))))
  /\ (Scrawler.tile_metadata s = (Ok meta, s') ->
      (In k (keys meta)
       <-> In k ["tile_name"; "date"; "download_links"]
           \/ (exists k', In k' (keys (remove "datastrip" (s_tile s)))
                          /\ camelcase_underscore k' = k)
           \/ In k (keys (remove "band_list" (remove "tiles" (s_product s)))))).
Proof.
  split; intros Hrun.
  - destruct (tile_metadata_run s s' meta Hrun)
      as (zone & band & square & tiles & name & timestamp & parts & date & path
          & bands & items & links & Hfacts).
    cbv zeta in Hfacts. do 12 (destruct Hfacts as [_ Hfacts]).
    rewrite (reproject_meta_keys _ _ _ _ _ Hfacts), keys_set, merged_keys.
    cbn [keys map fst In]. intuition.
  - destruct (scrawler_tile_metadata_run s s' meta Hrun)
      as (zone & band & square & tiles & name & timestamp & parts & date
          & bands & items & links & Hfacts).
    cbv zeta in Hfacts. do 11 (destruct Hfacts as [_ Hfacts]).
    destruct Hfacts as [-> _].
    rewrite keys_set, merged_keys. cbn [keys map fst In]. intuition.
Qed.

(** The keys of the assembled record: the computed ones ([tile_name],
    [date], [download_links], and [thumbnail] in [sentinel_s3]), every key
    left in the tile record under its underscore name, and every key left in
    the product record. *)
Theorem tile_metadata_keys `{Externals} (s s' : store) (meta : odict pyval)
        (k : string) :
  (tile_metadata s = (Ok meta, s') ->
   (In k (keys meta)
    <-> In k ["tile_name"; "date"; "thumbnail"; "download_links"]
        \/ (exists k', In k' (keys (remove "datastrip" (s_tile s)))
                       /\ camelcase_underscore k' = k)
        \/ In k (keys (remove "band_list" (remove "tiles" (s_product s))))))
  /\ (Scrawler.tile_metadata s = (Ok meta, s') ->
      (In k (keys meta)
       <-> In k ["tile_name"; "date"; "download_links"]
           \/ (exists k', In k' (keys (remove "datastrip" (s_tile s)))
                          /\ camelcase_underscore k' = k)
           \/ In k (keys (remove "band_list" (remove "tiles" (s_product s)))))).
Proof.
  apply record_keys.
Qed.

Lemma tile_metadata_keys_witness :
  In "utm_zone" (keys (match fst (@tile_metadata reference scenario) with
                       | Ok meta => meta
                       | Raise _ => []
                       end)).
Proof.
  destruct (@tile_metadata reference scenario) as [[meta|e] s'] eqn:Hrun;
    [|vm_compute in Hrun; discriminate Hrun].
  cbn [fst].
  apply (proj1 (@tile_metadata_keys reference scenario s' meta "utm_zone") Hrun).
  right. left. exists "utmZone". split; [|reflexivity].
  cbn. tauto.
Defined.

(** The record has no [datastrip] key, unless another key of the tile record
    is renamed to it or the product record has one. *)
Theorem tile_metadata_no_datastrip `{Externals} (s s' : store) (meta : odict pyval) :
  tile_metadata s = (Ok meta, s') \/ Scrawler.tile_metadata s = (Ok meta, s') ->
  NoDup (keys (s_tile s)) ->
  (forall k, In k (keys (s_tile s)) -> camelcase_underscore k = "datastrip" ->
             k = "datastrip") ->
  lookup "datastrip" (s_product s) = None ->
  lookup "datastrip" meta = None.
Proof.
  intros Hrun Hnd Honly Hprod.
  assert (Hnot : ~ In "datastrip" (keys meta)).
  { intros Hin.
    assert (Hcases :
              (exists k', In k' (keys (remove "datastrip" (s_tile s)))
                          /\ camelcase_underscore k' = "datastrip")
              \/ In "datastrip"
                    (keys (remove "band_list" (remove "tiles" (s_product s))))).
    { destruct Hrun as [Hrun|Hrun].
      - apply (proj1 (record_keys s s' meta "datastrip") Hrun) in Hin.
        destruct Hin as [Hin|Hin]; [|exact Hin].
        cbn [In] in Hin. intuition discriminate.
      - apply (proj2 (record_keys s s' meta "datastrip") Hrun) in Hin.
        destruct Hin as [Hin|Hin]; [|exact Hin].
        cbn [In] in Hin. intuition discriminate. }
    destruct Hcases as [[k' [Hk' Hc]]|Hp].
    - pose proof (Honly k' (In_keys_remove _ _ _ Hk') Hc) as ->.
      apply In_keys_mem in Hk'. unfold mem in Hk'.
      rewrite (lookup_remove_same "datastrip" _ Hnd) in Hk'. discriminate Hk'.
    - apply In_keys_remove, In_keys_remove, In_keys_mem in Hp.
      unfold mem in Hp. rewrite Hprod in Hp. discriminate Hp. }
  destruct (lookup "datastrip" meta) as [v|] eqn:Hl; [|reflexivity].
  exfalso. apply Hnot. apply (In_keys _ _ _ (lookup_In _ _ _ Hl)).
Qed.

Lemma tile_metadata_no_datastrip_witness :
  bind (fst (@tile_metadata reference scenario))
       (fun meta => Ok (lookup "datastrip" meta))
  = Ok None.
Proof.
  destruct (@tile_metadata reference scenario) as [[meta|e] s'] eqn:Hrun;
    [|vm_compute in Hrun; discriminate Hrun].
  cbn [fst bind]. f_equal.
  apply (@tile_metadata_no_datastrip reference scenario s' meta (or_introl Hrun)).
  - apply nodupb_spec. reflexivity.
  - intros k Hin Hk. cbn in Hin.
    repeat (destruct Hin as [<-|Hin]; [try reflexivity; discriminate Hk|]).
    contradiction.
  - reflexivity.
Defined.

(** ** Tile metadata: the values of the record *)

Lemma update_lookup {V : Type} (k : string) (v : V) (d e : odict V) :
  NoDup (keys e) -> lookup k e = Some v -> lookup k (update d e) = Some v.
Proof.
  unfold update. revert d.
  induction e as [|[k0 v0] e IH]; intros d Hnd Hk.
  - discriminate Hk.
  - cbn [fold_left fst snd]. cbn [keys map fst] in Hnd.
    inversion Hnd as [|? ? Hnotin Hnd']; subst.
    cbn [lookup] in Hk. destruct (String.eqb_spec k k0) as [->|Hne].
    + inversion Hk; subst.
      fold (update (set k0 v d) e). rewrite update_keeps.
      * apply lookup_set_eq.
      * destruct (lookup k0 e) eqn:Hl; [|reflexivity].
        exfalso. apply Hnotin. apply (In_keys _ _ _ (lookup_In _ _ _ Hl)).
    + apply IH; assumption.
Qed.

(** A field of the product record, other than the two that are popped,
    reaches the record with its value, whatever the tile record holds under
    that name: the product fields are merged last. *)
Theorem product_fields_override `{Externals} (s s' : store) (meta : odict pyval)
        (k : string) (v : pyval) :
  tile_metadata s = (Ok meta, s') \/ Scrawler.tile_metadata s = (Ok meta, s') ->
  NoDup (keys (s_product s)) ->
  lookup k (s_product s) = Some v ->
  k <> "tiles" -> k <> "band_list" -> k <> "download_links" ->
  ~ In k geometry_keys ->
  lookup k meta = Some v.
Proof.
  intros Hrun Hnd Hk Ht Hb Hd Hg.
  assert (Hm : forall computed, lookup k (merged computed s) = Some v).
  { intros computed. unfold merged. cbn [drained s_tile s_product].
    apply update_lookup.
    - apply NoDup_remove, NoDup_remove, Hnd.
    - rewrite !lookup_remove_ne by assumption. exact Hk. }
  destruct Hrun as [Hrun|Hrun].
  - destruct (tile_metadata_run s s' meta Hrun)
      as (zone & band & square & tiles & name & timestamp & parts & date & path
          & bands & items & links & Hfacts).
    cbv zeta in Hfacts. do 12 (destruct Hfacts as [_ Hfacts]).
    rewrite (reproject_keeps geometry_keys k Hg _ _ _ _ Hfacts).
    rewrite lookup_set_ne by assumption. apply Hm.
  - destruct (scrawler_tile_metadata_run s s' meta Hrun)
      as (zone & band & square & tiles & name & timestamp & parts & date
          & bands & items & links & Hfacts).
    cbv zeta in Hfacts. do 11 (destruct Hfacts as [_ Hfacts]).
    destruct Hfacts as [-> _].
    rewrite lookup_set_ne by assumption. apply Hm.
Qed.

Lemma product_fields_override_witness :
  bind (fst (@tile_metadata reference
               {| s_tile := ("spacecraftName", PStr "S2B") :: scenario_tile;
                  s_product := scenario_product |}))
       (get "spacecraft_name")
  = Ok (PStr "Sentinel-2A").
Proof.
  destruct (@tile_metadata reference
              {| s_tile := ("spacecraftName", PStr "S2B") :: scenario_tile;
                 s_product := scenario_product |}) as [[meta|e] s'] eqn:Hrun;
    [|vm_compute in Hrun; discriminate Hrun].
  cbn [fst bind]. unfold get.
  rewrite (@product_fields_override reference _ s' meta "spacecraft_name"
             (PStr "Sentinel-2A") (or_introl Hrun)); try reflexivity;
    try discriminate.
  - apply nodupb_spec. reflexivity.
  - cbn. intuition discriminate.
Defined.

Lemma lookup_remove_none {V : Type} (k k' : string) (d : odict V) :
  lookup k d = None -> lookup k (remove k' d) = None.
Proof.
  induction d as [|[k0 v0] d IH]; cbn [remove lookup]; intros Hk.
  - reflexivity.
  - destruct (String.eqb k k0) eqn:E; [discriminate Hk|].
    destruct (String.eqb k' k0); [exact Hk|].
    cbn [lookup]. rewrite E. apply IH, Hk.
Qed.

Lemma rename_into_keeps (key : string) (tile meta : odict pyval) :
  (forall k', In k' (keys tile) -> camelcase_underscore k' <> key) ->
  lookup key (rename_into meta tile) = lookup key meta.
Proof.
  unfold rename_into. revert meta.
  induction tile as [|[k0 v0] tile IH]; intros meta Hall.
  - reflexivity.
  - cbn [fold_left fst snd]. rewrite IH.
    + apply lookup_set_ne. intros E. apply (Hall k0); [left; reflexivity|].
      symmetry. exact E.
    + intros k' Hin. apply Hall. right. exact Hin.
Qed.

Lemma merged_computed (key : string) (v : pyval) (computed : odict pyval)
      (s : store) :
  lookup key computed = Some v ->
  (forall k', In k' (keys (s_tile s)) -> camelcase_underscore k' <> key) ->
  lookup key (s_product s) = None ->
  lookup key (merged computed s) = Some v.
Proof.
  intros Hc Htile Hprod. unfold merged. cbn [drained s_tile s_product].
  rewrite update_keeps by (apply lookup_remove_none, lookup_remove_none, Hprod).
  rewrite rename_into_keeps; [exact Hc|].
  intros k' Hin. apply Htile. apply (In_keys_remove _ _ _ Hin).
Qed.

Lemma merged_tile_field (k : string) (v : pyval) (computed : odict pyval)
      (s : store) :
  NoDup (keys (s_tile s)) ->
  lookup k (s_tile s) = Some v ->
  k <> "datastrip" ->
  (forall k', In k' (keys (s_tile s)) ->
              camelcase_underscore k' = camelcase_underscore k -> k' = k) ->
  lookup (camelcase_underscore k) (s_product s) = None ->
  lookup (camelcase_underscore k) (merged computed s) = Some v.
Proof.
  intros Hnd Hk Hds Honly Hprod. unfold merged. cbn [drained s_tile s_product].
  rewrite update_keeps by (apply lookup_remove_none, lookup_remove_none, Hprod).
  apply rename_into_lookup.
  - intros k' v' Hin Hk'. apply In_remove in Hin.
    pose proof (Honly k' (In_keys _ _ _ Hin) Hk') as ->.
    rewrite (In_lookup _ _ _ Hnd Hin) in Hk. inversion Hk. reflexivity.
  - right. exists k, v. split; [|reflexivity].
    apply lookup_In. rewrite lookup_remove_ne by assumption. exact Hk.
Qed.

(** A field of the tile record other than [datastrip] reaches the record
    under its underscore name with its value, when no other tile key is
    renamed to that name, the product record has no field of that name, and
    the name is neither [download_links] nor a geometry key. *)
Theorem tile_fields_renamed `{Externals} (s s' : store) (meta : odict pyval)
        (k : string) (v : pyval) :
  tile_metadata s = (Ok meta, s') \/ Scrawler.tile_metadata s = (Ok meta, s') ->
  NoDup (keys (s_tile s)) ->
  lookup k (s_tile s) = Some v ->
  k <> "datastrip" ->
  (forall k', In k' (keys (s_tile s)) ->
              camelcase_underscore k' = camelcase_underscore k -> k' = k) ->
  lookup (camelcase_underscore k) (s_product s) = None ->
  camelcase_underscore k <> "download_links" ->
  ~ In (camelcase_underscore k) geometry_keys ->
  lookup (camelcase_underscore k) meta = Some v.
Proof.
  intros Hrun Hnd Hk Hds Honly Hprod Hdl Hg.
  destruct Hrun as [Hrun|Hrun].
  - destruct (tile_metadata_run s s' meta Hrun)
      as (zone & band & square & tiles & name & timestamp & parts & date & path
          & bands & items & links & Hfacts).
    cbv zeta in Hfacts. do 12 (destruct Hfacts as [_ Hfacts]).
    rewrite (reproject_keeps geometry_keys _ Hg _ _ _ _ Hfacts).
    rewrite lookup_set_ne by assumption.
    apply merged_tile_field; assumption.
  - destruct (scrawler_tile_metadata_run s s' meta Hrun)
      as (zone & band & square & tiles & name & timestamp & parts & date
          & bands & items & links & Hfacts).
    cbv zeta in Hfacts. do 11 (destruct Hfacts as [_ Hfacts]).
    destruct Hfacts as [-> _].
    rewrite lookup_set_ne by assumption.
    apply merged_tile_field; assumption.
Qed.

Lemma tile_fields_renamed_witness :
  bind (fst (@tile_metadata reference scenario)) (get "utm_zone") = Ok (PInt 32).
Proof.
  destruct (@tile_metadata reference scenario) as [[meta|e] s'] eqn:Hrun;
    [|vm_compute in Hrun; discriminate Hrun].
  cbn [fst bind]. unfold get.
  change "utm_zone" with (camelcase_underscore "utmZone").
  rewrite (@tile_fields_renamed reference scenario s' meta "utmZone" (PInt 32)
             (or_introl Hrun)); try reflexivity; try discriminate.
  - apply nodupb_spec. reflexivity.
  - intros k' Hin Hk'. cbn in Hin.
    repeat (destruct Hin as [<-|Hin]; [try reflexivity; discriminate Hk'|]).
    contradiction.
  - cbn. intuition discriminate.
Defined.

(** The computed fields of [sentinel_s3]: the tile name is the entry of the
    tile list under the grid code, the date is the timestamp up to its first
    [T], and the thumbnail is the preview below the path of the tile;
    unless a tile key is renamed to one of the three names or the product
    record has a field of that name. *)
Theorem tile_metadata_computed_fields `{Externals} (s s' : store)
        (meta : odict pyval) (zone band square tiles path : pyval) (ts : string) :
  tile_metadata s = (Ok meta, s') ->
  lookup "utmZone" (s_tile s) = Some zone ->
  lookup "latitudeBand" (s_tile s) = Some band ->
  lookup "gridSquare" (s_tile s) = Some square ->
  lookup "tiles" (s_product s) = Some tiles ->
  lookup "timestamp" (s_tile s) = Some (PStr ts) ->
  lookup "path" (s_tile s) = Some path ->
  (forall k', In k' (keys (s_tile s)) ->
              ~ In (camelcase_underscore k') ["tile_name"; "date"; "thumbnail"]) ->
  (forall k, In k ["tile_name"; "date"; "thumbnail"] ->
             lookup k (s_product s) = None) ->
  (exists name, getitem tiles (grid_code zone band square) = Ok name
                /\ lookup "tile_name" meta = Some name)
  /\ lookup "date" meta = Some (PStr (hd EmptyString (split "T" ts)))
  /\ lookup "thumbnail" meta
     = Some (PStr (s3_url ++ "/" ++ py_str path ++ "/preview.jp2")%string).
Proof.
  intros Hrun Hzone Hband Hsquare Htiles Hts Hpath Htile Hprod.
  destruct (tile_metadata_run s s' meta Hrun)
    as (zone' & band' & square' & tiles' & name & timestamp & parts & date & path'
        & bands & items & links & Hfacts).
  cbv zeta in Hfacts.
  destruct Hfacts as (Hz & Hb & Hq & Ht & Hname & Hstamp & Hparts & Hdate & Hp
                      & _ & _ & _ & Hrep).
  rewrite Hzone in Hz. rewrite Hband in Hb. rewrite Hsquare in Hq.
  rewrite Htiles in Ht. rewrite Hts in Hstamp. rewrite Hpath in Hp.
  inversion Hz; inversion Hb; inversion Hq; inversion Ht; inversion Hstamp;
    inversion Hp; subst. clear Hz Hb Hq Ht Hstamp Hp.
  cbn [split_method] in Hparts. inversion Hparts; subst. clear Hparts.
  assert (Hd : date = hd EmptyString (split "T" ts)).
  { destruct (split "T" ts); [discriminate Hdate|]. inversion Hdate. reflexivity. }
  subst date.
  assert (Hkeep : forall key v,
             In key ["tile_name"; "date"; "thumbnail"] ->
             lookup key
                    [ ("tile_name", name);
                      ("date", PStr (hd EmptyString (split "T" ts)));
                      ("thumbnail",
                       PStr (s3_url ++ "/" ++ py_str path' ++ "/preview.jp2")%string) ]
             = Some v ->
             lookup key meta = Some v).
  { intros key v Hin Hv.
    assert (Hg : ~ In key geometry_keys).
    { cbn [In geometry_keys] in *. intuition (subst; discriminate). }
    rewrite (reproject_keeps geometry_keys key Hg _ _ _ _ Hrep).
    rewrite lookup_set_ne.
    - apply merged_computed; [exact Hv | | apply Hprod, Hin].
      intros k' Hk' E. apply (Htile k' Hk'). rewrite E. exact Hin.
    - cbn [In] in Hin. intuition (subst; discriminate). }
  split; [|split].
  - exists name. split; [exact Hname|].
    apply Hkeep; [cbn; tauto | reflexivity].
  - apply Hkeep; [cbn; tauto | reflexivity].
  - apply Hkeep; [cbn; tauto | reflexivity].
Qed.

Lemma tile_metadata_computed_fields_witness :
  exists meta,
    fst (@tile_metadata reference scenario) = Ok meta
    /\ lookup "tile_name" meta = Some (PStr scenario_granule)
    /\ lookup "date" meta = Some (PStr "2016-01-01")
    /\ lookup "thumbnail" meta
       = Some (PStr "http://sentinel-s2-l1c.s3.amazonaws.com/tiles/32/T/QM/2016/1/1/0/preview.jp2").
Proof.
  destruct (@tile_metadata reference scenario) as [[meta|e] s'] eqn:Hrun;
    [|vm_compute in Hrun; discriminate Hrun].
  exists meta. split; [reflexivity|].
  destruct (@tile_metadata_computed_fields reference scenario s' meta
              (PInt 32) (PStr "T") (PStr "QM")
              (PDict [("T32TQM", PStr scenario_granule)])
              (PStr "tiles/32/T/QM/2016/1/1/0") "2016-01-01T10:20:23.456Z" Hrun)
    as [Hname [Hdate Hthumb]]; try reflexivity.
  - intros k' Hin Hk'. cbn in Hin.
    repeat (destruct Hin as [<-|Hin];
            [cbn in Hk'; intuition discriminate|]).
    contradiction.
  - intros k Hin. cbn in Hin.
    repeat (destruct Hin as [<-|Hin]; [reflexivity|]). contradiction.
  - destruct Hname as [name [Hname Hmeta]].
    cbn in Hname. inversion Hname; subst.
    split; [exact Hmeta|]. split; [exact Hdate | exact Hthumb].
Defined.

(** ** Tile metadata: the geometries *)

Lemma to_latlon_same_object `{Externals} (g : pyval) (origin_espg : option Z)
      (v g' : pyval) :
  to_latlon g origin_espg = (Ok v, g') -> v = g'.
Proof.
  intros Hr. destruct g as [ | | | | | | | d];
    try (inversion Hr; reflexivity).
  destruct (to_latlon_invariant d origin_espg (Ok v) g' Hr) as [d' [_ [_ [_ Hv]]]].
  apply Hv. reflexivity.
Qed.

Lemma last_source_keys (key : string) (t t' : odict pyval) :
  keys t = keys t' -> last_source key t = last_source key t'.
Proof.
  unfold last_source. generalize (@None string).
  revert t'. induction t as [|[k v] t IH]; intros [|[k' v'] t'] acc Hk;
    try discriminate Hk; [reflexivity|].
  cbn [keys map fst] in Hk. inversion Hk; subst.
  cbn [fold_left fst]. apply IH. assumption.
Qed.

Lemma last_source_unique (key k : string) (t : odict pyval) :
  In k (keys t) ->
  camelcase_underscore k = key ->
  (forall k', In k' (keys t) -> camelcase_underscore k' = key -> k' = k) ->
  last_source key t = Some k.
Proof.
  unfold last_source. intros Hin Hk Honly.
  assert (Hgen : forall acc,
             (acc = Some k \/ In k (keys t)) ->
             fold_left (fun acc kv =>
                          if String.eqb (camelcase_underscore (fst kv)) key
                          then Some (fst kv) else acc) t acc = Some k).
  { clear Hin. induction t as [|[k0 v0] t IH]; intros acc Hacc.
    - destruct Hacc as [->|[]]. reflexivity.
    - cbn [fold_left fst]. apply IH.
      + intros k' Hk'. apply Honly. right. exact Hk'.
      + destruct (String.eqb_spec (camelcase_underscore k0) key) as [E|Hne].
        * left. f_equal. apply Honly; [left; reflexivity | exact E].
        * destruct Hacc as [->|[E|Hin]].
          -- left. reflexivity.
          -- cbn [fst] in E. subst k0. contradiction.
          -- right. exact Hin. }
  apply Hgen. right. exact Hin.
Qed.

Lemma write_back_tile_other (key k : string) (g : pyval) (s s' : store)
      (r : result unit) :
  write_back key g s = (r, s') ->
  camelcase_underscore k <> key ->
  lookup k (s_tile s') = lookup k (s_tile s).
Proof.
  unfold write_back. intros Hw Hne. destruct (mem key (s_product s)).
  - inversion Hw; subst. reflexivity.
  - destruct (last_source key (s_tile s)) as [k2|] eqn:Hk2.
    + inversion Hw; subst. cbn [s_tile].
      apply last_source_key in Hk2. destruct Hk2 as [_ Hc].
      apply lookup_set_ne. intros ->. contradiction.
    + inversion Hw; subst. reflexivity.
Qed.

Lemma reproject_tile_keeps `{Externals} (ks : list string) (k : string) :
  ~ In (camelcase_underscore k) ks ->
  forall meta s meta' s',
    reproject ks meta s = (Ok meta', s') ->
    lookup k (s_tile s') = lookup k (s_tile s).
Proof.
  induction ks as [|k0 ks IH]; intros Hnot meta s meta' s' Hr.
  - inversion Hr; subst. reflexivity.
  - assert (Hne : camelcase_underscore k <> k0)
      by (intros E; apply Hnot; left; symmetry; exact E).
    assert (Hnot' : ~ In (camelcase_underscore k) ks)
      by (intros Hin; apply Hnot; right; exact Hin).
    cbn [reproject] in Hr. destruct (mem k0 meta).
    + apply bindM_ok in Hr. destruct Hr as [g [s1 [Hg Hr]]].
      apply lift_ok in Hg. destruct Hg as [_ ->].
      destruct (to_latlon g None) as [r g'].
      apply bindM_ok in Hr. destruct Hr as [u [s2 [Hw Hr]]].
      apply bindM_ok in Hr. destruct Hr as [v [s3 [Hv Hr]]].
      apply lift_ok in Hv. destruct Hv as [_ ->].
      rewrite (IH Hnot' _ _ _ _ Hr).
      apply (write_back_tile_other k0 k g' s s2 (Ok u) Hw Hne).
    + apply (IH Hnot' _ _ _ _ Hr).
Qed.

Lemma reproject_tile_key `{Externals} (ks : list string) (key k : string) (g : pyval) :
  NoDup ks -> In key ks -> camelcase_underscore k = key ->
  forall meta s meta' s',
    reproject ks meta s = (Ok meta', s') ->
    lookup key meta = Some g ->
    mem key (s_product s) = false ->
    last_source key (s_tile s) = Some k ->
    exists g', to_latlon g None = (Ok g', g')
               /\ lookup key meta' = Some g'
               /\ lookup k (s_tile s') = Some g'.
Proof.
  intros Hnd Hin Hk.
  induction ks as [|k0 ks IH]; intros meta s meta' s' Hr Hg Hprod Hsrc;
    [contradiction|].
  inversion Hnd as [|? ? Hnotin Hnd']; subst.
  cbn [reproject] in Hr.
  destruct (String.eqb_spec k0 (camelcase_underscore k)) as [->|Hne].
  - unfold mem in Hr. rewrite Hg in Hr.
    apply bindM_ok in Hr. destruct Hr as [g0 [s1 [Hg0 Hr]]].
    apply lift_ok in Hg0. destruct Hg0 as [Hg0 ->].
    unfold get in Hg0. rewrite Hg in Hg0. inversion Hg0; subst g0.
    destruct (to_latlon g None) as [r g'] eqn:Hll.
    apply bindM_ok in Hr. destruct Hr as [u [s2 [Hw Hr]]].
    apply bindM_ok in Hr. destruct Hr as [v [s3 [Hv Hr]]].
    apply lift_ok in Hv. destruct Hv as [-> ->].
    pose proof (to_latlon_same_object g None v g' Hll) as ->.
    unfold write_back in Hw. rewrite Hprod, Hsrc in Hw. inversion Hw; subst.
    exists g'. split; [reflexivity|]. split.
    + rewrite (reproject_keeps ks _ Hnotin _ _ _ _ Hr). apply lookup_set_eq.
    + rewrite (reproject_tile_keeps ks k Hnotin _ _ _ _ Hr).
      cbn [s_tile]. apply lookup_set_eq.
  - destruct Hin as [E|Hin]; [contradiction|].
    destruct (mem k0 meta).
    + apply bindM_ok in Hr. destruct Hr as [g0 [s1 [Hg0 Hr]]].
      apply lift_ok in Hg0. destruct Hg0 as [_ ->].
      destruct (to_latlon g0 None) as [r g'].
      apply bindM_ok in Hr. destruct Hr as [u [s2 [Hw Hr]]].
      apply bindM_ok in Hr. destruct Hr as [v [s3 [Hv Hr]]].
      apply lift_ok in Hv. destruct Hv as [_ ->].
      apply write_back_keys in Hw. destruct Hw as [_ [Ht Hp]].
      apply (IH Hnd' Hin _ _ _ _ Hr).
      * rewrite lookup_set_ne; [exact Hg|].
        intros E. apply Hne. symmetry. exact E.
      * rewrite (mem_keys_eq _ _ _ Hp). exact Hprod.
      * rewrite (last_source_keys _ _ _ Ht). exact Hsrc.
    + apply (IH Hnd' Hin _ _ _ _ Hr); assumption.
Qed.

(** A geometry of the tile record ([tileOrigin], [tileGeometry] or
    [tileDataGeometry]) is reprojected by [to_latlon] with the code of its
    own tag, and the record holds the result under the underscore name. The
    conversion is done in place: the tile record that was passed in holds
    the reprojected geometry too. *)
Theorem tile_geometry_reprojected `{Externals} (s s' : store) (meta : odict pyval)
        (k : string) (g : pyval) :
  tile_metadata s = (Ok meta, s') ->
  NoDup (keys (s_tile s)) ->
  lookup k (s_tile s) = Some g ->
  In (camelcase_underscore k) geometry_keys ->
  (forall k', In k' (keys (s_tile s)) ->
              camelcase_underscore k' = camelcase_underscore k -> k' = k) ->
  lookup (camelcase_underscore k) (s_product s) = None ->
  exists g',
    to_latlon g None = (Ok g', g')
    /\ lookup (camelcase_underscore k) meta = Some g'
    /\ lookup k (s_tile s') = Some g'.
Proof.
  intros Hrun Hnd Hk Hgeo Honly Hprod.
  assert (Hds : k <> "datastrip").
  { intros ->. cbn in Hgeo. intuition discriminate. }
  destruct (tile_metadata_run s s' meta Hrun)
    as (zone & band & square & tiles & name & timestamp & parts & date & path
        & bands & items & links & Hfacts).
  cbv zeta in Hfacts. do 12 (destruct Hfacts as [_ Hfacts]).
  apply (reproject_tile_key geometry_keys (camelcase_underscore k) k g)
    with (4 := Hfacts).
  - unfold geometry_keys. repeat constructor; cbn; intuition discriminate.
  - exact Hgeo.
  - reflexivity.
  - rewrite lookup_set_ne.
    + apply merged_tile_field; assumption.
    + intros E. rewrite E in Hgeo. cbn in Hgeo. intuition discriminate.
  - cbn [drained s_product]. unfold mem.
    rewrite (lookup_remove_none _ _ _ (lookup_remove_none _ "tiles" _ Hprod)).
    reflexivity.
  - cbn [drained s_tile]. apply last_source_unique.
    + apply (In_keys _ g). apply lookup_In.
      rewrite lookup_remove_ne by assumption. exact Hk.
    + reflexivity.
    + intros k' Hin. apply Honly. apply (In_keys_remove _ _ _ Hin).
Qed.

Lemma tile_geometry_reprojected_witness :
  exists g',
    @to_latlon reference scenario_origin None = (Ok g', g')
    /\ bind (fst (@tile_metadata reference scenario_with_origin))
            (get "tile_origin") = Ok g'
    /\ lookup "tileOrigin" (s_tile (snd (@tile_metadata reference scenario_with_origin)))
       = Some g'
    /\ crs_name g' = Ok (PStr wgs84_urn).
Proof.
  destruct (@tile_metadata reference scenario_with_origin) as [[meta|e] s'] eqn:Hrun;
    [|vm_compute in Hrun; discriminate Hrun].
  destruct (@tile_geometry_reprojected reference scenario_with_origin s' meta
              "tileOrigin" scenario_origin Hrun) as [g' [Hg' [Hmeta Htile]]].
  - apply nodupb_spec. reflexivity.
  - reflexivity.
  - cbn. tauto.
  - intros k' Hin Hk'. cbn in Hin.
    repeat (destruct Hin as [<-|Hin]; [try reflexivity; discriminate Hk'|]).
    contradiction.
  - reflexivity.
  - exists g'. cbn [fst snd bind]. unfold get.
    change "tile_origin" with (camelcase_underscore "tileOrigin").
    rewrite Hmeta. repeat split; try assumption.
    vm_compute in Hg'. inversion Hg'; subst. reflexivity.
Defined.

(** ** Tile metadata: a call that fails half way *)

(** The pops are not undone: when the tile record has no [datastrip], or the
    product record no [band_list], [tile_metadata] of [sentinel_s3] raises
    [KeyError] and leaves the product record without [tiles], and in the
    second case the tile record without [datastrip]. *)
Theorem tile_metadata_partial_drain `{Externals} (tile product : odict pyval)
        (zone band square tiles name path : pyval) (line ts : string) :
  lookup "utmZone" tile = Some zone ->
  lookup "latitudeBand" tile = Some band ->
  lookup "gridSquare" tile = Some square ->
  lookup "tiles" product = Some tiles ->
  getitem tiles (grid_code zone band square) = Ok name ->
  processing_tile name = Ok line ->
  lookup "timestamp" tile = Some (PStr ts) ->
  lookup "path" tile = Some path ->
  (lookup "datastrip" tile = None ->
   tile_metadata {| s_tile := tile; s_product := product |}
   = (Raise KeyError, {| s_tile := tile; s_product := remove "tiles" product |}))
  /\ (forall d, lookup "datastrip" tile = Some d ->
                lookup "band_list" (remove "tiles" product) = None ->
                tile_metadata {| s_tile := tile; s_product := product |}
                = (Raise KeyError,
                   {| s_tile := remove "datastrip" tile;
                      s_product := remove "tiles" product |})).
Proof.
  intros Hzone Hband Hsquare Htiles Hname Hline Hts Hpath.
  assert (Hsplit : exists date, first (split "T" ts) = Ok date).
  { destruct (split "T" ts) as [|date rest] eqn:E.
    - exfalso. apply (split_nonempty "T" ts E).
    - exists date. reflexivity. }
  destruct Hsplit as [date Hdate].
  split.
  - intros Hds.
    unfold tile_metadata, bindM, tile_get, product_get, lift, product_pop,
      tile_pop, pop, get.
    cbn [s_tile s_product].
    rewrite Hzone, Hband, Hsquare, Htiles, Hname, Hline, Hts.
    cbn [split_method]. rewrite Hdate, Hpath.
    cbn [s_tile s_product]. rewrite Hds. reflexivity.
  - intros d Hds Hbl.
    unfold tile_metadata, bindM, tile_get, product_get, lift, product_pop,
      tile_pop, pop, get.
    cbn [s_tile s_product].
    rewrite Hzone, Hband, Hsquare, Htiles, Hname, Hline, Hts.
    cbn [split_method]. rewrite Hdate, Hpath.
    cbn [s_tile s_product]. rewrite Hds.
    cbn [s_tile s_product]. rewrite Hbl. reflexivity.
Qed.

Lemma tile_metadata_partial_drain_witness :
  @tile_metadata reference
    {| s_tile := remove "datastrip" scenario_tile; s_product := scenario_product |}
  = (Raise KeyError,
     {| s_tile := remove "datastrip" scenario_tile;
        s_product := remove "tiles" scenario_product |}).
Proof.
  apply (proj1 (@tile_metadata_partial_drain reference
                  (remove "datastrip" scenario_tile) scenario_product
                  (PInt 32) (PStr "T") (PStr "QM")
                  (PDict [("T32TQM", PStr scenario_granule)])
                  (PStr scenario_granule) (PStr "tiles/32/T/QM/2016/1/1/0")
                  ("Processing tile " ++ scenario_granule)%string
                  "2016-01-01T10:20:23.456Z"
                  eq_refl eq_refl eq_refl eq_refl eq_refl eq_refl eq_refl eq_refl)).
  reflexivity.
Defined.

(** ** The grid code in the two modules *)

Lemma pad_zone_text `{Externals} (z : Z) :
  (0 <= z < 100)%Z ->
  pad (PInt z) 2
  = (if (z <? 10)%Z then String "0" (str_of_Z z) else str_of_Z z).
Proof.
  intros Hz. rewrite <- (Z2Nat.id z) by lia.
  assert (Hn : (Z.to_nat z < 100)%nat) by lia.
  generalize dependent (Z.to_nat z). clear Hz z. intros n Hn.
  do 100 (destruct n as [|n]; [reflexivity|]).
  lia.
Qed.

(** For a zone of two digits both modules compute the same grid code; for a
    zone of one digit [sentinel_s3] has a zero after the [T] that [scrawler]
    does not have. *)
Theorem grid_code_of_both_modules `{Externals} (z : Z) (band square : pyval) :
  (0 <= z < 100)%Z ->
  grid_code (PInt z) band square
  = (if (z <? 10)%Z
     then String "T" (String "0" (str_of_Z z ++ py_str band ++ py_str square))
     else Scrawler.grid_code (PInt z) band square)
  /\ Scrawler.grid_code (PInt z) band square
     = String "T" (str_of_Z z ++ py_str band ++ py_str square).
Proof.
  intros Hz. split; [|reflexivity].
  unfold grid_code, Scrawler.grid_code. rewrite (pad_zone_text z Hz).
  destruct (z <? 10)%Z; reflexivity.
Qed.

Lemma grid_code_of_both_modules_witness :
  @grid_code reference (PInt 7) (PStr "V") (PStr "EL") = "T07VEL"
  /\ @Scrawler.grid_code reference (PInt 7) (PStr "V") (PStr "EL") = "T7VEL".
Proof.
  apply (@grid_code_of_both_modules reference 7 (PStr "V") (PStr "EL")). lia.
Defined.

(** ** The download links *)

Lemma reproject_nothing `{Externals} (ks : list string) (meta : odict pyval)
      (s : store) :
  (forall key, In key ks -> mem key meta = false) ->
  reproject ks meta s = (Ok meta, s).
Proof.
  induction ks as [|k0 ks IH]; intros Hno.
  - reflexivity.
  - cbn [reproject]. rewrite (Hno k0) by (left; reflexivity).
    apply IH. intros key Hin. apply Hno. right. exact Hin.
Qed.

(** A record without geometry: no tile key is renamed to a geometry key and
    the product record has none. *)
Lemma no_geometry_in_record (s : store) (computed : odict pyval) (x : pyval) :
  (forall key, In key geometry_keys -> lookup key computed = None) ->
  (forall k, In k (keys (s_tile s)) ->
             ~ In (camelcase_underscore k) geometry_keys) ->
  (forall key, In key geometry_keys -> lookup key (s_product s) = None) ->
  forall key, In key geometry_keys ->
              mem key (set "download_links" x (merged computed s)) = false.
Proof.
  intros Hcomputed Htile Hprod key Hkey.
  destruct (mem key (set "download_links" x (merged computed s))) eqn:Hm;
    [|reflexivity].
  exfalso. apply mem_In_keys in Hm. apply keys_set in Hm.
  destruct Hm as [->|Hm].
  - cbn in Hkey. intuition discriminate.
  - apply merged_keys in Hm. destruct Hm as [Hm|[[k' [Hk' Hc]]|Hm]].
    + apply In_keys_mem in Hm. unfold mem in Hm.
      rewrite (Hcomputed key Hkey) in Hm. discriminate Hm.
    + apply (Htile k' (In_keys_remove _ _ _ Hk')). rewrite Hc. exact Hkey.
    + apply In_keys_remove, In_keys_remove, In_keys_mem in Hm.
      unfold mem in Hm. rewrite (Hprod key Hkey) in Hm. discriminate Hm.
Qed.

(** The links of a run that returned: one per band, built from the path
    the merged record holds. *)
Lemma links_of_run `{Externals} (s s' : store) (meta : odict pyval)
      (bands : pyval) (items : list pyval) :
  tile_metadata s = (Ok meta, s') \/ Scrawler.tile_metadata s = (Ok meta, s') ->
  lookup "band_list" (s_product s) = Some bands ->
  py_list bands = Ok items ->
  exists links,
    lookup "download_links" meta = Some (PDict [("aws_s3", PList links)])
    /\ List.length links = List.length items
    /\ forall p, lookup "path" meta = Some p ->
                 links = map (fun b => PStr (band_url p b)) items.
Proof.
  intros Hrun Hbands Hitems.
  destruct Hrun as [Hrun|Hrun].
  - destruct (tile_metadata_run s s' meta Hrun)
      as (zone & band & square & tiles & name & timestamp & parts & date & path
          & bands' & items' & links & Hfacts).
    cbv zeta in Hfacts.
    destruct Hfacts as (_ & _ & _ & _ & _ & _ & _ & _ & _ & Hb & Hi & Hl & Hrep).
    rewrite lookup_remove_ne in Hb by discriminate.
    rewrite Hbands in Hb. inversion Hb; subst bands'.
    rewrite Hitems in Hi. inversion Hi; subst items'.
    exists links. split; [|split].
    + rewrite (reproject_keeps geometry_keys "download_links"
                 ltac:(simpl; intuition discriminate) _ _ _ _ Hrep).
      apply lookup_set_eq.
    + apply (mapM_length _ _ _ Hl).
    + intros p Hp.
      rewrite (reproject_keeps geometry_keys "path"
                 ltac:(simpl; intuition discriminate) _ _ _ _ Hrep) in Hp.
      rewrite lookup_set_ne in Hp by discriminate.
      apply (links_of_path _ p items links (fun q b => band_url q b) Hp Hl).
  - destruct (scrawler_tile_metadata_run s s' meta Hrun)
      as (zone & band & square & tiles & name & timestamp & parts & date
          & bands' & items' & links & Hfacts).
    cbv zeta in Hfacts.
    destruct Hfacts as (_ & _ & _ & _ & _ & _ & _ & _ & Hb & Hi & Hl & Hmeta & _).
    rewrite lookup_remove_ne in Hb by discriminate.
    rewrite Hbands in Hb. inversion Hb; subst bands'.
    rewrite Hitems in Hi. inversion Hi; subst items'.
    subst meta.
    exists links. split; [|split].
    + apply lookup_set_eq.
    + apply (mapM_length _ _ _ Hl).
    + intros p Hp.
      rewrite lookup_set_ne in Hp by discriminate.
      apply (links_of_path _ p items links (fun q b => band_url q b) Hp Hl).
Qed.

Lemma first_split (sep : ascii) (s : string) :
  first (split sep s) = Ok (hd EmptyString (split sep s)).
Proof.
  destruct (split sep s) as [|w ws] eqn:E; [|reflexivity].
  exfalso. apply (split_nonempty sep s E).
Qed.

(** [scrawler]'s [tile_metadata] returns on a complete tile record. *)
Lemma scrawler_tile_metadata_returns `{Externals} (s : store)
      (zone band square tiles name d path bands : pyval) (ts : string)
      (items : list pyval) :
  lookup "utmZone" (s_tile s) = Some zone ->
  lookup "latitudeBand" (s_tile s) = Some band ->
  lookup "gridSquare" (s_tile s) = Some square ->
  lookup "tiles" (s_product s) = Some tiles ->
  getitem tiles (Scrawler.grid_code zone band square) = Ok name ->
  lookup "timestamp" (s_tile s) = Some (PStr ts) ->
  lookup "datastrip" (s_tile s) = Some d ->
  lookup "band_list" (s_product s) = Some bands ->
  py_list bands = Ok items ->
  NoDup (keys (s_tile s)) ->
  lookup "path" (s_tile s) = Some path ->
  (forall k, In k (keys (s_tile s)) -> camelcase_underscore k = "path" -> k = "path") ->
  lookup "path" (s_product s) = None ->
  exists meta,
    Scrawler.tile_metadata s = (Ok meta, drained s)
    /\ lookup "download_links" meta
       = Some (PDict [("aws_s3", PList (map (fun b => PStr (band_url path b)) items))]).
Proof.
  intros Hzone Hband Hsquare Htiles Hname Hts Hds Hbands Hitems
         Hnd Hpath Honly Hprod.
  destruct s as [tile product]. cbn [s_tile s_product] in *.
  eexists. split.
  - unfold Scrawler.tile_metadata, bindM, tile_get, product_get, lift,
      product_pop, tile_pop, pop, read_tile, read_product, ret.
    cbn [s_tile s_product]. unfold get at 1 2 3 4.
    rewrite Hzone, Hband, Hsquare, Htiles, Hname.
    unfold get at 1. rewrite Hts. cbn [split_method].
    rewrite first_split. cbn [s_tile s_product].
    rewrite Hds. cbn [s_tile s_product].
    rewrite (lookup_remove_ne "band_list" "tiles") by discriminate.
    rewrite Hbands. cbn [s_tile s_product]. rewrite Hitems.
    unfold get. rewrite (merged_path tile product _ path Hnd Hpath Honly Hprod).
    cbn [bind].
    rewrite (mapM_total
               (fun b => PStr ("http://sentinel-s2-l1c.s3.amazonaws.com/"
                               ++ py_str path ++ "/" ++ py_str b ++ ".jp2")%string)
               items).
    reflexivity.
  - rewrite lookup_set_eq. reflexivity.
Qed.

(** [sentinel_s3]'s [tile_metadata] returns on a complete tile record
    without geometry. *)
Lemma tile_metadata_returns `{Externals} (s : store)
      (zone band square tiles name d path bands : pyval) (line ts : string)
      (items : list pyval) :
  lookup "utmZone" (s_tile s) = Some zone ->
  lookup "latitudeBand" (s_tile s) = Some band ->
  lookup "gridSquare" (s_tile s) = Some square ->
  lookup "tiles" (s_product s) = Some tiles ->
  getitem tiles (grid_code zone band square) = Ok name ->
  processing_tile name = Ok line ->
  lookup "timestamp" (s_tile s) = Some (PStr ts) ->
  lookup "datastrip" (s_tile s) = Some d ->
  lookup "band_list" (s_product s) = Some bands ->
  py_list bands = Ok items ->
  NoDup (keys (s_tile s)) ->
  lookup "path" (s_tile s) = Some path ->
  (forall k, In k (keys (s_tile s)) -> camelcase_underscore k = "path" -> k = "path") ->
  lookup "path" (s_product s) = None ->
  (forall k, In k (keys (s_tile s)) ->
             ~ In (camelcase_underscore k) geometry_keys) ->
  (forall key, In key geometry_keys -> lookup key (s_product s) = None) ->
  exists meta,
    tile_metadata s = (Ok meta, drained s)
    /\ lookup "download_links" meta
       = Some (PDict [("aws_s3", PList (map (fun b => PStr (band_url path b)) items))]).
Proof.
  intros Hzone Hband Hsquare Htiles Hname Hline Hts Hds Hbands Hitems
         Hnd Hpath Honly Hprod Hgt Hgp.
  eexists. split.
  - unfold tile_metadata, bindM, tile_get, product_get, lift,
      product_pop, tile_pop, pop, read_tile, read_product.
    unfold get at 1 2 3 4.
    rewrite Hzone, Hband, Hsquare, Htiles, Hname, Hline.
    unfold get at 1. rewrite Hts. cbn [split_method].
    rewrite first_split. unfold get at 1. rewrite Hpath.
    cbn [s_tile s_product].
    rewrite Hds. cbn [s_tile s_product].
    rewrite (lookup_remove_ne "band_list" "tiles") by discriminate.
    rewrite Hbands. cbn [s_tile s_product]. rewrite Hitems.
    unfold get.
    rewrite (merged_path (s_tile s) (s_product s) _ path Hnd Hpath Honly Hprod).
    cbn [bind].
    rewrite (mapM_total
               (fun b => PStr (s3_url ++ "/" ++ py_str path ++ "/"
                               ++ py_str b ++ ".jp2")%string)
               items).
    apply (reproject_nothing geometry_keys).
    apply (no_geometry_in_record s
             [ ("tile_name", name);
               ("date", PStr (hd EmptyString (split "T" ts)));
               ("thumbnail",
                PStr (s3_url ++ "/" ++ py_str path ++ "/preview.jp2")%string) ]);
      try assumption.
    intros key Hkey. cbn in Hkey.
    repeat (destruct Hkey as [<-|Hkey]; [reflexivity|]). contradiction.
  - rewrite lookup_set_eq. reflexivity.
Qed.

Lemma path_of_tile_spec (s : store) :
  path_of_tile s = true ->
  NoDup (keys (s_tile s))
  /\ (forall k, In k (keys (s_tile s)) ->
                camelcase_underscore k = "path" -> k = "path")
  /\ lookup "path" (s_product s) = None.
Proof.
  unfold path_of_tile. intros Hp.
  apply andb_prop in Hp. destruct Hp as [Hp Hprod].
  apply andb_prop in Hp. destruct Hp as [Hnd Honly].
  split; [apply nodupb_spec, Hnd|].
  split; [apply only_path_spec, Honly|].
  unfold mem in Hprod.
  destruct (lookup "path" (s_product s)); [discriminate Hprod | reflexivity].
Qed.

Lemma no_geometry_spec (s : store) :
  no_geometry s = true ->
  (forall k, In k (keys (s_tile s)) ->
             ~ In (camelcase_underscore k) geometry_keys)
  /\ (forall key, In key geometry_keys -> lookup key (s_product s) = None).
Proof.
  unfold no_geometry. intros Hg.
  apply andb_prop in Hg. destruct Hg as [Ht Hp].
  rewrite forallb_forall in Ht, Hp. split.
  - intros k Hk Hin. specialize (Ht k Hk). apply negb_true_iff in Ht.
    unfold str_in in Ht.
    assert (Hex : existsb (String.eqb (camelcase_underscore k)) geometry_keys
                  = true).
    { apply existsb_exists. exists (camelcase_underscore k).
      split; [exact Hin | apply String.eqb_refl]. }
    rewrite Hex in Ht. discriminate Ht.
  - intros key Hkey. specialize (Hp key Hkey). unfold mem in Hp.
    destruct (lookup key (s_product s)); [discriminate Hp | reflexivity].
Qed.

(** The path of a record that was returned is the one of the tile. *)
Lemma path_of_run `{Externals} (s s' : store) (meta : odict pyval) (path : pyval) :
  tile_metadata s = (Ok meta, s') \/ Scrawler.tile_metadata s = (Ok meta, s') ->
  lookup "path" (s_tile s) = Some path ->
  path_of_tile s = true ->
  lookup "path" meta = Some path.
Proof.
  intros Hrun Hpath Htile.
  destruct (path_of_tile_spec s Htile) as (Hnd & Honly & Hprod).
  destruct Hrun as [Hrun|Hrun].
  - destruct (tile_metadata_run s s' meta Hrun)
      as (zone & band & square & tiles & name & timestamp & parts & date & path'
          & bands' & items' & links & Hfacts).
    cbv zeta in Hfacts.
    destruct Hfacts as (_ & _ & _ & _ & _ & _ & _ & _ & _ & _ & _ & _ & Hrep).
    rewrite (reproject_keeps geometry_keys "path"
               ltac:(simpl; intuition discriminate) _ _ _ _ Hrep).
    rewrite lookup_set_ne by discriminate.
    unfold merged, drained. cbn [s_tile s_product].
    apply merged_path; assumption.
  - destruct (scrawler_tile_metadata_run s s' meta Hrun)
      as (zone & band & square & tiles & name & timestamp & parts & date
          & bands' & items' & links & Hfacts).
    cbv zeta in Hfacts.
    destruct Hfacts as (_ & _ & _ & _ & _ & _ & _ & _ & _ & _ & _ & Hmeta & _).
    subst meta.
    rewrite lookup_set_ne by discriminate.
    unfold merged, drained. cbn [s_tile s_product].
    apply merged_path; assumption.
Qed.

(** C8, as the code has it.  Both modules build the links after the tile
    fields were renamed into the record and the product fields merged over
    them, from [meta['path']].  Whenever [tile_metadata] of either module
    returns a record, its [download_links.aws_s3] list has exactly one entry
    per entry of the product's [band_list], in band-list order, and each is
    the base URL [http://sentinel-s2-l1c.s3.amazonaws.com], then the [path]
    of the returned record, then the band identifier with the [.jp2]
    suffix.  That path is the [path] of the tile record when no other key
    of the tile is renamed to [path] and the product record has no [path]
    field.  In that case the call does return, with the links built from
    the tile's path and the three keys popped: in [scrawler] on a tile
    with [utmZone], [latitudeBand], [gridSquare], a text [timestamp] and
    [datastrip] whose grid code is a key of the product's [tiles]; in
    [sentinel_s3] when moreover the tile name can be logged and there is no
    geometry to reproject. *)
Theorem download_links_per_band `{Externals} (s : store) (bands : pyval)
        (items : list pyval) :
  lookup "band_list" (s_product s) = Some bands ->
  py_list bands = Ok items ->
  (forall meta s',
      tile_metadata s = (Ok meta, s')
      \/ Scrawler.tile_metadata s = (Ok meta, s') ->
      exists links,
        lookup "download_links" meta = Some (PDict [("aws_s3", PList links)])
        /\ List.length links = List.length items
        /\ forall p, lookup "path" meta = Some p ->
                     links = map (fun b => PStr (band_url p b)) items)
  /\ (forall path,
         lookup "path" (s_tile s) = Some path ->
         path_of_tile s = true ->
         (forall meta s',
             tile_metadata s = (Ok meta, s')
             \/ Scrawler.tile_metadata s = (Ok meta, s') ->
             lookup "path" meta = Some path
             /\ lookup "download_links" meta
                = Some (PDict [("aws_s3",
                                PList (map (fun b => PStr (band_url path b))
                                           items))]))
         /\ (forall zone band square tiles d ts,
                lookup "utmZone" (s_tile s) = Some zone ->
                lookup "latitudeBand" (s_tile s) = Some band ->
                lookup "gridSquare" (s_tile s) = Some square ->
                lookup "tiles" (s_product s) = Some tiles ->
                lookup "timestamp" (s_tile s) = Some (PStr ts) ->
                lookup "datastrip" (s_tile s) = Some d ->
                (forall name,
                    getitem tiles (Scrawler.grid_code zone band square)
                    = Ok name ->
                    exists meta,
                      Scrawler.tile_metadata s = (Ok meta, drained s)
                      /\ lookup "download_links" meta
                         = Some (PDict [("aws_s3",
                                         PList (map (fun b =>
                                                       PStr (band_url path b))
                                                    items))]))
                /\ (forall name line,
                       getitem tiles (grid_code zone band square) = Ok name ->
                       processing_tile name = Ok line ->
                       no_geometry s = true ->
                       exists meta,
                         tile_metadata s = (Ok meta, drained s)
                         /\ lookup "download_links" meta
                            = Some (PDict [("aws_s3",
                                            PList (map (fun b =>
                                                          PStr (band_url path b))
                                                       items))])))).
Proof.
  intros Hbands Hitems. split.
  - intros meta s' Hrun.
    apply (links_of_run s s' meta bands items Hrun Hbands Hitems).
  - intros path Hpath Htile.
    destruct (path_of_tile_spec s Htile) as (Hnd & Honly & Hprod).
    split.
    + intros meta s' Hrun.
      pose proof (path_of_run s s' meta path Hrun Hpath Htile) as Hp.
      split; [exact Hp|].
      destruct (links_of_run s s' meta bands items Hrun Hbands Hitems)
        as (links & Hl & _ & Hall).
      rewrite Hl, (Hall path Hp). reflexivity.
    + intros zone band square tiles d ts Hzone Hband Hsquare Htiles Hts Hds.
      split.
      * intros name Hname.
        apply (scrawler_tile_metadata_returns s zone band square tiles name d
                 path bands ts items); assumption.
      * intros name line Hname Hline Hgeo.
        destruct (no_geometry_spec s Hgeo) as [Hgt Hgp].
        apply (tile_metadata_returns s zone band square tiles name d path
                 bands line ts items); assumption.
Qed.

Lemma download_links_per_band_witness :
  (exists meta,
      @Scrawler.tile_metadata reference scenario = (Ok meta, drained scenario)
      /\ lookup "download_links" meta
         = Some (PDict [("aws_s3",
                         PList [PStr "http://sentinel-s2-l1c.s3.amazonaws.com/tiles/32/T/QM/2016/1/1/0/B04.jp2"])]))
  /\ (exists meta,
         @tile_metadata reference scenario = (Ok meta, drained scenario)
         /\ lookup "download_links" meta
            = Some (PDict [("aws_s3",
                            PList [PStr "http://sentinel-s2-l1c.s3.amazonaws.com/tiles/32/T/QM/2016/1/1/0/B04.jp2"])])).
Proof.
  destruct (@download_links_per_band reference scenario
              (PList [PStr "B04"]) [PStr "B04"] eq_refl eq_refl)
    as [_ Hpath].
  destruct (Hpath (PStr "tiles/32/T/QM/2016/1/1/0") eq_refl eq_refl)
    as [_ Hreturns].
  destruct (Hreturns (PInt 32) (PStr "T") (PStr "QM")
              (PDict [("T32TQM", PStr scenario_granule)])
              (PDict [("id", PStr "S2A_OPER_MSI_L1C_DS")])
              "2016-01-01T10:20:23.456Z"%string
              eq_refl eq_refl eq_refl eq_refl eq_refl eq_refl)
    as [Hscrawler Hs3].
  split.
  - exact (Hscrawler (PStr scenario_granule) eq_refl).
  - exact (Hs3 (PStr scenario_granule)
               ("Processing tile " ++ scenario_granule)%string
               eq_refl eq_refl eq_refl).
Defined.

(** The links follow the path of the merged record, not the one of the
    tile: a [path] field of the product record, or a tile key [Path] after
    [path], replaces the tile's path in every link, in both modules. *)
Lemma download_links_follow_merged_path :
  let tile_path := PStr "tiles/32/T/QM/2016/1/1/0" in
  let elsewhere :=
    Some (PDict [("aws_s3",
                  PList [PStr "http://sentinel-s2-l1c.s3.amazonaws.com/ELSEWHERE/B04.jp2"])]) in
  lookup "path" (s_tile scenario_product_path) = Some tile_path
  /\ lookup "band_list" (s_product scenario_product_path)
     = Some (PList [PStr "B04"])
  /\ returned_links (@tile_metadata reference scenario_product_path) = elsewhere
  /\ returned_links (@Scrawler.tile_metadata reference scenario_product_path)
     = elsewhere
  /\ lookup "path" (s_tile scenario_tile_Path) = Some tile_path
  /\ lookup "band_list" (s_product scenario_tile_Path)
     = Some (PList [PStr "B04"])
  /\ returned_links (@tile_metadata reference scenario_tile_Path) = elsewhere
  /\ returned_links (@Scrawler.tile_metadata reference scenario_tile_Path)
     = elsewhere
  /\ elsewhere
     <> Some (PDict [("aws_s3",
                      PList [PStr (@band_url reference tile_path (PStr "B04"))])]).
Proof.
  cbv zeta. repeat split; try reflexivity.
  intros E. vm_compute in E. discriminate E.
Qed.
